(** * Document Q&A pipeline: a shallow embedding of the scoring, chunking,
      retrieval, citation and evaluation code, with the properties the
      specification states about them.

    Conventions of the embedding.
    - A Python call either returns a value or raises: [Py.result].
      [try: ... except Exception: ...] is [Py.try_except].
    - A finite Python float is the rational it denotes ([Q]).  Where a float
      comes out of [float(str)] it may also be an infinity or a NaN:
      [Py.float].  Arithmetic on floats is read over the rationals, except
      where a result is rounded to decimals and the last bit can decide the
      outcome: the scorer is also given in double precision
      ([ConfidenceScorer64]), every operation followed by the rounding of
      binary64 ([Binary64]).
    - A Python [str] is a [string]; its characters are the code points below
      256.
    - Calls that leave the repository (the language model, the vector index,
      the PDF, DOCX, OCR, tokenizer and metric libraries, the text splitter,
      the hash) are parameters of the functions that make them. *)

From Stdlib Require Import ZArith QArith Qabs Qround Lqa Lia Bool List Sorted.
From Stdlib Require Import Ascii String Decimal DecimalString.
Import ListNotations.

Local Open Scope Z_scope.

(* ================================================================== *)
(** * Python values and builtins used by the services *)
(* ================================================================== *)

Module Py.

(** Exceptions the modelled code can meet. *)
Inductive exn : Type :=
| KeyError (key : string)
| IndexError
| TypeError
| ValueError (msg : string)
| AttributeError
| LibraryError (msg : string).

(** Outcome of a call. *)
Inductive result (A : Type) : Type :=
| Ok (a : A)
| Raise (e : exn).
Arguments Ok {A} a.
Arguments Raise {A} e.

Definition bind {A B} (m : result A) (k : A -> result B) : result B :=
  match m with
  | Ok a => k a
  | Raise e => Raise e
  end.

(** [try: body / except Exception as e: handler e]. *)
Definition try_except {A} (body : result A) (handler : exn -> result A)
  : result A :=
  match body with
  | Ok a => Ok a
  | Raise e => handler e
  end.

(** [d[key]] on a dict whose key may be absent. *)
Definition getitem {A} (key : string) (field : option A) : result A :=
  match field with
  | Some a => Ok a
  | None => Raise (KeyError key)
  end.

(** [d.get(key, default)]. *)
Definition get {A} (field : option A) (default : A) : A :=
  match field with
  | Some a => a
  | None => default
  end.

(** [l[i]] on a list. *)
Definition index {A} (l : list A) (i : nat) : result A :=
  match nth_error l i with
  | Some a => Ok a
  | None => Raise IndexError
  end.

(** [enumerate(l, start)]. *)
Definition enumerate {A} (start : nat) (l : list A) : list (nat * A) :=
  combine (seq start (List.length l)) l.

(** Monadic map: a list comprehension whose element expression may raise. *)
Fixpoint mapM {A B} (f : A -> result B) (l : list A) : result (list B) :=
  match l with
  | [] => Ok []
  | a :: l' =>
      bind (f a) (fun b => bind (mapM f l') (fun bs => Ok (b :: bs)))
  end.

(** A loop over [l] that threads an accumulator and stops at the first
    exception. *)
Fixpoint foldM {A B} (f : B -> A -> result B) (l : list A) (acc : B)
  : result B :=
  match l with
  | [] => Ok acc
  | a :: l' => bind (f acc a) (foldM f l')
  end.

(** ** Floats *)

Inductive float : Type :=
| Fin (q : Q)
| PInf
| NInf
| NaN.

(** [a > b] and [a < b]; every comparison with a NaN is false. *)
Definition gt (a b : float) : bool :=
  match a, b with
  | NaN, _ | _, NaN => false
  | Fin x, Fin y => negb (Qle_bool x y)
  | PInf, PInf => false
  | PInf, _ => true
  | _, PInf => false
  | NInf, _ => false
  | Fin _, NInf => true
  end.

Definition lt (a b : float) : bool := gt b a.

(** The builtins [max(a, b)] and [min(a, b)]: the first argument is kept
    unless the second compares strictly greater (smaller). *)
Definition max (a b : float) : float := if gt b a then b else a.
Definition min (a b : float) : float := if lt b a then b else a.

Definition Qsign (q : Q) : comparison := (q ?= 0)%Q.

Definition add (a b : float) : float :=
  match a, b with
  | NaN, _ | _, NaN => NaN
  | Fin x, Fin y => Fin (x + y)
  | PInf, NInf | NInf, PInf => NaN
  | PInf, _ | _, PInf => PInf
  | NInf, _ | _, NInf => NInf
  end.

Definition scale_inf (positive : bool) (q : Q) : float :=
  match Qsign q with
  | Eq => NaN
  | Gt => if positive then PInf else NInf
  | Lt => if positive then NInf else PInf
  end.

Definition mul (a b : float) : float :=
  match a, b with
  | NaN, _ | _, NaN => NaN
  | Fin x, Fin y => Fin (x * y)
  | PInf, Fin y => scale_inf true y
  | NInf, Fin y => scale_inf false y
  | Fin x, PInf => scale_inf true x
  | Fin x, NInf => scale_inf false x
  | PInf, PInf | NInf, NInf => PInf
  | PInf, NInf | NInf, PInf => NInf
  end.

(** Nearest integer, ties to the even one. *)
Definition round_half_even (x : Q) : Z :=
  let f := Qfloor x in
  match (x - inject_Z f ?= 1 # 2)%Q with
  | Lt => f
  | Gt => f + 1
  | Eq => if Z.even f then f else f + 1
  end.

Fixpoint pow10 (n : nat) : positive :=
  match n with
  | O => 1%positive
  | S n' => (10 * pow10 n')%positive
  end.

(** [round(x, ndigits)] on a finite float; the result is the fraction
    [n / 10^ndigits]. *)
Definition Qround (x : Q) (ndigits : nat) : Q :=
  let scale := pow10 ndigits in
  round_half_even (x * inject_Z (Zpos scale)) # scale.

(** [round(x, ndigits)]: infinities and NaN come back unchanged. *)
Definition round (x : float) (ndigits : nat) : float :=
  match x with
  | Fin q => Fin (Qround q ndigits)
  | other => other
  end.

(** [0 <= x <= 1]. *)
Definition in_unit (x : float) : Prop :=
  match x with
  | Fin q => (0 <= q <= 1)%Q
  | _ => False
  end.

(** ** Strings *)

Definition code (c : ascii) : nat := nat_of_ascii c.

(** [str.isspace] on one character (code points below 256). *)
Definition isspace (c : ascii) : bool :=
  let n := code c in
  ((9 <=? n) && (n <=? 13) || (28 <=? n) && (n <=? 32)
   || (n =? 133) || (n =? 160))%nat.

Fixpoint lstrip (s : string) : string :=
  match s with
  | EmptyString => EmptyString
  | String c s' => if isspace c then lstrip s' else s
  end.

Fixpoint rev_string (s acc : string) : string :=
  match s with
  | EmptyString => acc
  | String c s' => rev_string s' (String c acc)
  end.

Definition rstrip (s : string) : string :=
  rev_string (lstrip (rev_string s EmptyString)) EmptyString.

(** [s.strip()]. *)
Definition strip (s : string) : string := rstrip (lstrip s).

(** Truth value of a string: non-empty. *)
Definition truthy (s : string) : bool :=
  match s with
  | EmptyString => false
  | String _ _ => true
  end.

Definition len (s : string) : Z := Z.of_nat (String.length s).

(** [s.find(sub)]: index of the first occurrence, [-1] if there is none. *)
Fixpoint find_from (sub s : string) (i : Z) : Z :=
  if String.prefix sub s then i
  else match s with
       | EmptyString => -1
       | String _ s' => find_from sub s' (i + 1)
       end.

Definition find (s sub : string) : Z := find_from sub s 0.

(** [sub in s]. *)
Fixpoint contains (sub s : string) : bool :=
  String.prefix sub s
  || match s with
     | EmptyString => false
     | String _ s' => contains sub s'
     end.

(** [s[:n]]. *)
Definition take (n : nat) (s : string) : string := String.substring 0 n s.

(** [sep.join(parts)]. *)
Fixpoint join (sep : string) (parts : list string) : string :=
  match parts with
  | [] => EmptyString
  | [p] => p
  | p :: rest => (p ++ sep ++ join sep rest)%string
  end.

(** [len(s.split())]: number of maximal runs of non-space characters. *)
Fixpoint count_words (in_word : bool) (s : string) : nat :=
  match s with
  | EmptyString => O
  | String c s' =>
      if isspace c then count_words false s'
      else if in_word then count_words true s'
           else S (count_words true s')
  end.

(** [str.lower] on code points below 256. *)
Definition lower_char (c : ascii) : ascii :=
  let n := code c in
  if ((65 <=? n) && (n <=? 90)
      || (192 <=? n) && (n <=? 222) && negb (n =? 215))%nat
  then ascii_of_nat (n + 32) else c.

Fixpoint lower (s : string) : string :=
  match s with
  | EmptyString => EmptyString
  | String c s' => String (lower_char c) (lower s')
  end.

(** [re.sub(r'\s+', ' ', s)]: every maximal run of whitespace becomes one
    space. *)
Fixpoint collapse_spaces (in_run : bool) (s : string) : string :=
  match s with
  | EmptyString => EmptyString
  | String c s' =>
      if isspace c
      then if in_run then collapse_spaces true s'
           else String " " (collapse_spaces true s')
      else String c (collapse_spaces false s')
  end.

(** [s.rfind(c)] for one character: index of its last occurrence. *)
Fixpoint rfind_char (c : ascii) (s : string) (i : nat) (last : option nat)
  : option nat :=
  match s with
  | EmptyString => last
  | String c' s' =>
      rfind_char c s' (S i) (if Ascii.eqb c c' then Some i else last)
  end.

(** [s[i:]]. *)
Fixpoint drop (i : nat) (s : string) : string :=
  match i, s with
  | O, _ => s
  | S i', String _ s' => drop i' s'
  | S _, EmptyString => EmptyString
  end.

(** [os.path.basename(p)]: what follows the last slash. *)
Definition path_name (p : string) : string :=
  match rfind_char "/" p 0 None with
  | Some i => drop (S i) p
  | None => p
  end.

(** [p.split('/')], the last component first; [current] holds the
    characters of the component being read, in reverse. *)
Fixpoint components (p current : string) (done : list string)
  : list string :=
  match p with
  | EmptyString => rev_string current EmptyString :: done
  | String c p' =>
      if Ascii.eqb c "/"
      then components p' EmptyString (rev_string current EmptyString :: done)
      else components p' (String c current) done
  end.

(** [Path(p).name]: the last component of the path that is neither empty
    nor a single dot ([pathlib] drops those), empty when there is
    none. *)
Definition pathlib_name (p : string) : string :=
  hd EmptyString
     (filter (fun part => negb (String.eqb part EmptyString
                                || String.eqb part "."))
             (components p EmptyString [])).

(** [Path(p).suffix]: the name from its last dot on, when that dot is
    neither its first nor its last character; empty otherwise. *)
Definition path_suffix (p : string) : string :=
  let name := pathlib_name p in
  match rfind_char "." name 0 None with
  | Some i =>
      if ((0 <? i) && (i <? String.length name - 1))%nat
      then drop i name else EmptyString
  | None => EmptyString
  end.

(** [s.replace(c, '')] for one character. *)
Fixpoint remove_char (c : ascii) (s : string) : string :=
  match s with
  | EmptyString => EmptyString
  | String c' s' =>
      if Ascii.eqb c c' then remove_char c s'
      else String c' (remove_char c s')
  end.

(** [str(n)] for integers, as an f-string prints them. *)
Definition str_of_nat (n : nat) : string :=
  NilZero.string_of_uint (Nat.to_uint n).

Definition str_of_Z (z : Z) : string :=
  NilZero.string_of_int (Z.to_int z).

End Py.

Notation "x <- m ;; k" := (Py.bind m (fun x => k))
  (at level 61, m at next level, right associativity).

Definition nl : string := String (ascii_of_nat 10) EmptyString.

(* ================================================================== *)
(** * Retrieved chunks: the dicts passed from the index to the services *)
(* ================================================================== *)

Module Retrieval.

(** The metadata dict stored with a vector; [None] is an absent key. *)
Record metadata : Type := {
  md_document_id : option string;
  md_chunk_id : option string;
  md_page_number : option Z;
  md_chunk_index : option Z
}.

(** One retrieval result; [None] is an absent key. *)
Record chunk : Type := {
  vector_id : option string;
  text : option string;
  metadata_of : option metadata;
  score : option Q;
  chunk_id : option string
}.

Definition no_metadata : metadata :=
  {| md_document_id := None; md_chunk_id := None;
     md_page_number := None; md_chunk_index := None |}.

End Retrieval.

(* ================================================================== *)
(** * services/confidence_scorer.py *)
(* ================================================================== *)

Module ConfidenceScorer.
Import Retrieval.

(** What a grading call looks like from [_check_faithfulness] and
    [_check_relevancy]: the request raised; or it returned a message whose
    content [float(content.strip())] rejects (the bare [except]); or
    [float] returned [x] (the reply "nan" gives [Parsed NaN], "inf" gives
    [Parsed PInf]). *)
Inductive grading_reply : Type :=
| CallFailed (e : Py.exn)
| Unparseable
| Parsed (x : Py.float).

Record metrics : Type := {
  overall : Py.float;
  retrieval : Py.float;
  coverage : Py.float;
  faithfulness : Py.float;
  relevancy : Py.float
}.

Definition faithfulness_system : string :=
  "Score answer faithfulness from 0.0 to 1.0.
                    1.0 = Fully supported by context
                    0.5 = Partially supported
                    0.0 = Unsupported claims
                    Return only the numeric score.".

Definition relevancy_system : string :=
  "Score answer relevancy from 0.0 to 1.0.
                    1.0 = Directly answers question
                    0.5 = Partially relevant
                    0.0 = Not relevant
                    Return only the numeric score.".

(** [sum(xs)] and [np.mean(xs)] on finite floats, over the rationals. *)
Definition Qsum (xs : list Q) : Q := fold_right Qplus 0%Q xs.

Definition np_mean (xs : list Q) : Q :=
  (Qsum xs / inject_Z (Z.of_nat (List.length xs)))%Q.

Definition weight_retrieval : Q := 0.25%Q.
Definition weight_coverage : Q := 0.15%Q.
Definition weight_faithfulness : Q := 0.35%Q.
Definition weight_relevancy : Q := 0.25%Q.

(** The result of the [except] branch of [calculate_confidence]. *)
Definition default_scores : metrics :=
  {| overall := Py.Fin 0.5; retrieval := Py.Fin 0.5;
     coverage := Py.Fin 0.5; faithfulness := Py.Fin 0.5;
     relevancy := Py.Fin 0.5 |}.

Section Scorer.

(** [client.chat.completions.create(model="gpt-4o-mini", messages=...,
    temperature=0)] followed by the parse of the reply; arguments: the
    API key and the [(role, content)] messages. *)
Variable chat : string -> list (string * string) -> grading_reply.

Definition clamp_reply (r : grading_reply) : Py.float :=
  match r with
  | CallFailed _ => Py.Fin 0.5
  | Unparseable => Py.Fin 0.5
  | Parsed score => Py.min (Py.max score (Py.Fin 0.0)) (Py.Fin 1.0)
  end.

Definition _check_faithfulness
    (answer : string) (contexts : list string) (api_key : string)
  : Py.float :=
  let context_text := Py.join (nl ++ "---" ++ nl) contexts in
  clamp_reply
    (chat api_key
       [("system", faithfulness_system);
        ("user", "Context:" ++ nl ++ context_text ++ nl ++ nl
                   ++ "Answer:" ++ nl ++ answer)])%string.

Definition _check_relevancy
    (answer question api_key : string) : Py.float :=
  clamp_reply
    (chat api_key
       [("system", relevancy_system);
        ("user", "Question:" ++ nl ++ question ++ nl ++ nl
                   ++ "Answer:" ++ nl ++ answer)])%string.

(** The body of the [try] of [calculate_confidence], its arithmetic
    read over the rationals (for the rounding of doubles see
    [ConfidenceScorer64]). *)
Definition calculate_confidence_body
    (retrieval_results : list chunk) (answer question api_key : string)
  : Py.result metrics :=
  let scores := map (fun r => Py.get (score r) 0.0%Q) retrieval_results in
  let retrieval_conf :=
    match scores with
    | [] => 0.0%Q
    | _ :: _ => np_mean scores
    end in
  let high_relevance :=
    list_sum (map (fun _ => 1%nat)
                  (filter (fun s => negb (Qle_bool s 0.7)) scores)) in
  let coverage :=
    (inject_Z (Z.of_nat high_relevance)
     / inject_Z (Z.max (Z.of_nat (List.length scores)) 1))%Q in
  texts <- Py.mapM (fun r => Py.getitem "text" (text r)) retrieval_results ;;
  let faithfulness := _check_faithfulness answer texts api_key in
  let relevancy := _check_relevancy answer question api_key in
  let composite :=
    Py.add
      (Py.add
         (Py.add
            (Py.mul (Py.Fin weight_retrieval) (Py.Fin retrieval_conf))
            (Py.mul (Py.Fin weight_coverage) (Py.Fin coverage)))
         (Py.mul (Py.Fin weight_faithfulness) faithfulness))
      (Py.mul (Py.Fin weight_relevancy) relevancy) in
  Py.Ok {| overall := Py.round composite 3;
           retrieval := Py.round (Py.Fin retrieval_conf) 3;
           coverage := Py.round (Py.Fin coverage) 3;
           faithfulness := Py.round faithfulness 3;
           relevancy := Py.round relevancy 3 |}.

Definition calculate_confidence
    (retrieval_results : list chunk) (answer question api_key : string)
  : Py.result metrics :=
  Py.try_except
    (calculate_confidence_body retrieval_results answer question api_key)
    (fun _ => Py.Ok default_scores).

End Scorer.

End ConfidenceScorer.

(* ================================================================== *)
(** * services/document_processor.py *)
(* ================================================================== *)

Module DocumentProcessor.

(** A chunk dict as the parsers build it. *)
Record chunk : Type := {
  chunk_index : nat;
  text : string;
  page_number : option Z;
  char_offset_start : Z;
  char_offset_end : Z;
  content_hash : string;
  token_count : nat
}.

(** A page of an opened PDF: its text layer and what OCR of its rendered
    bitmap gives (pytesseract may raise). *)
Record pdf_page : Type := {
  get_text : string;
  image_to_string : Py.result string
}.

(** [not s.strip()]. *)
Definition blank (s : string) : bool := negb (Py.truthy (Py.strip s)).

Section Processor.

(** [self.splitter.split_text]: the recursive splitter, chunk size 512,
    overlap 100. *)
Variable split_text : string -> list string.
(** [hashlib.sha256(s.encode()).hexdigest()]. *)
Variable sha256_hexdigest : string -> string.
(** [fitz.open(path)]: the pages, or the library's error. *)
Variable fitz_open : string -> Py.result (list pdf_page).
(** [Document(path).paragraphs], each paragraph's text. *)
Variable docx_paragraphs : string -> Py.result (list string).
(** [open(path, 'r', encoding='utf-8').read()]. *)
Variable read_file : string -> Py.result string.

(** The dict literal the three parsers append: [source] is the text the
    split was cut from, [idx] the ordinal, [page] the page number. *)
Definition make_chunk
    (source split : string) (idx : nat) (page : option Z) : chunk :=
  let char_start := Py.find source split in
  {| chunk_index := idx;
     text := split;
     page_number := page;
     char_offset_start := Z.max 0 char_start;
     char_offset_end :=
       if 0 <=? char_start then char_start + Py.len split
       else Py.len split;
     content_hash := Py.take 16 (sha256_hexdigest split);
     token_count := Py.count_words false split |}.

Definition _ocr_page (page : pdf_page) : string :=
  match image_to_string page with
  | Py.Ok t => t
  | Py.Raise _ => EmptyString
  end.

(** State of the loops of [_parse_pdf]: [processed_chunks] and
    [chunk_index] (the counters used only for logging are left out). *)
Definition pdf_state : Type := (list chunk * nat)%type.

(** One turn of [for split in splits]. *)
Definition pdf_split_step (page_text : string) (page_num : nat)
    (st : pdf_state) (split : string) : pdf_state :=
  let '(processed_chunks, chunk_index) := st in
  if blank split then st
  else (processed_chunks
          ++ [make_chunk page_text split chunk_index
                         (Some (Z.of_nat page_num + 1))],
        S chunk_index).

(** One turn of [for page_num in range(total_pages)]. *)
Definition pdf_page_step (st : pdf_state) (numbered : nat * pdf_page)
  : pdf_state :=
  let '(page_num, page) := numbered in
  let page_text := get_text page in
  let page_text :=
    if blank page_text then _ocr_page page else page_text in
  if blank page_text then st
  else fold_left (pdf_split_step page_text page_num)
                 (split_text page_text) st.

Definition pdf_chunks (doc : list pdf_page) : list chunk :=
  fst (fold_left pdf_page_step (Py.enumerate 0 doc) ([], O)).

Definition _parse_pdf (file_path : string) : Py.result (list chunk) :=
  Py.try_except
    (doc <- fitz_open file_path ;; Py.Ok (pdf_chunks doc))
    (fun e => Py.Raise e).

(** One turn of [for idx, split in enumerate(splits)], shared by
    [_parse_docx] and [_parse_text]. *)
Definition text_split_step (full_text : string)
    (processed_chunks : list chunk) (numbered : nat * string)
  : list chunk :=
  let '(idx, split) := numbered in
  if blank split then processed_chunks
  else processed_chunks ++ [make_chunk full_text split idx None].

Definition text_chunks (full_text : string) : list chunk :=
  fold_left (text_split_step full_text)
            (Py.enumerate 0 (split_text full_text)) [].

Definition _parse_docx (file_path : string) : Py.result (list chunk) :=
  Py.try_except
    (paragraphs <- docx_paragraphs file_path ;;
     let full_text :=
       Py.join (nl ++ nl)
               (filter (fun para => negb (blank para)) paragraphs) in
     Py.Ok (text_chunks full_text))
    (fun e => Py.Raise e).

Definition _parse_text (file_path : string) : Py.result (list chunk) :=
  Py.try_except
    (full_text <- read_file file_path ;; Py.Ok (text_chunks full_text))
    (fun e => Py.Raise e).

Definition parse_document (file_path : string) : Py.result (list chunk) :=
  Py.try_except
    (let extension := Py.lower (Py.path_suffix file_path) in
     if (extension =? ".pdf")%string then _parse_pdf file_path
     else if existsb (String.eqb extension) [".docx"; ".doc"]%string
     then _parse_docx file_path
     else if existsb (String.eqb extension) [".txt"]%string
     then _parse_text file_path
     else Py.Ok [])
    (fun e => Py.Raise e).

End Processor.

End DocumentProcessor.

(* ================================================================== *)
(** * services/vector_store.py *)
(* ================================================================== *)

Module VectorStore.
Import Retrieval.

(** The dict [collection.query] returns: one row per query embedding.
    [distances = None] is the Python [None].  The rows hold what the job
    stores with every vector, a document text and a metadata dict; an
    entry that is [None] (for a vector stored without metadata, on which
    [query] raises [AttributeError]) is not represented. *)
Record query_result : Type := {
  ids : list (list string);
  documents : list (list string);
  metadatas : list (list metadata);
  distances : option (list (list Q))
}.

(** The name both [get_collection] and [delete_collection] build. *)
Definition collection_name (tenant_id project_id : string) : string :=
  let tenant_short := Py.take 8 (Py.remove_char "-" tenant_id) in
  let project_short := Py.take 8 (Py.remove_char "-" project_id) in
  ("t_" ++ tenant_short ++ "_p_" ++ project_short)%string.

(** Truth value of [results['distances']]. *)
Definition has_distances (d : option (list (list Q))) : bool :=
  match d with
  | Some (_ :: _) => true
  | _ => false
  end.

(** The dict appended for position [i] of the first row. *)
Definition entry (results : query_result) (i : nat) : Py.result chunk :=
  ids0 <- Py.index (ids results) 0 ;;
  id <- Py.index ids0 i ;;
  docs0 <- Py.index (documents results) 0 ;;
  doc <- Py.index docs0 i ;;
  metas0 <- Py.index (metadatas results) 0 ;;
  meta <- Py.index metas0 i ;;
  sc <- (if has_distances (distances results)
         then dist0 <- Py.index (Py.get (distances results) []) 0 ;;
              d <- Py.index dist0 i ;;
              Py.Ok (1.0 - d)%Q
         else Py.Ok 0.9%Q) ;;
  Py.Ok {| vector_id := Some id;
           text := Some doc;
           metadata_of := Some meta;
           score := Some sc;
           chunk_id := md_chunk_id meta |}.

(** The transformation of the index's answer into the standard list. *)
Definition transform (results : query_result) : Py.result (list chunk) :=
  match ids results with
  | [] => Py.Ok []
  | ids0 :: _ => Py.mapM (entry results) (seq 0 (List.length ids0))
  end.

Section Store.

(** [get_or_create_collection(name, cosine)] followed by
    [collection.query(query_embeddings=[v], n_results=k)]. *)
Variable collection_query :
  string -> list Q -> Z -> Py.result query_result.

Definition query (tenant_id project_id : string)
    (query_embedding : list Q) (top_k : Z) : Py.result (list chunk) :=
  Py.try_except
    (results <- collection_query (collection_name tenant_id project_id)
                                 query_embedding top_k ;;
     transform results)
    (fun e => Py.Raise e).

End Store.

End VectorStore.

(* ================================================================== *)
(** * services/answer_generator.py *)
(* ================================================================== *)

Module AnswerGenerator.
Import Retrieval.

Record citation : Type := {
  cit_chunk_id : option string;
  cit_document_id : option string;
  cit_page_number : option Z;
  excerpt : string;
  relevance_score : Q;
  citation_order : nat
}.

(** The label [f"[{idx}]"]. *)
Definition label (idx : nat) : string :=
  ("[" ++ Py.str_of_nat idx ++ "]")%string.

(** [t[:200] + "..." if len(t) > 200 else t]. *)
Definition excerpt_of (t : string) : string :=
  if (200 <? String.length t)%nat then (Py.take 200 t ++ "...")%string
  else t.

(** [f"Page {metadata.get('page_number', 'N/A')}"]. *)
Definition page_info (md : metadata) : string :=
  ("Page " ++ match md_page_number md with
              | Some p => Py.str_of_Z p
              | None => "N/A"
              end)%string.

Definition make_citation (idx : nat) (ctx : chunk) (md : metadata)
    (t : string) : citation :=
  {| cit_chunk_id := chunk_id ctx;
     cit_document_id := md_document_id md;
     cit_page_number := md_page_number md;
     excerpt := excerpt_of t;
     relevance_score := Py.get (score ctx) 0.0%Q;
     citation_order := idx |}.

Definition prompt_of (question context_text : string) : string :=
  ("You are answering a due diligence questionnaire based on company documents.

Question: " ++ question ++ "

Available Context from Documents:
" ++ context_text ++ "

Instructions:
1. Answer the question based ONLY on the provided context
2. If the answer cannot be found in the context, say " ++ String (ascii_of_nat 34) "Information not found in provided documents" ++ String (ascii_of_nat 34) "
3. Include citation numbers [1], [2], etc. in your answer where you reference information
4. Be concise and factual
5. Do not make assumptions beyond what's stated in the documents

Answer:")%string.

(** [label in answer_text]; the message content can be [None], on which
    [in] raises. *)
Definition label_in (idx : nat) (answer_text : option string)
  : Py.result bool :=
  match answer_text with
  | Some a => Py.Ok (Py.contains (label idx) a)
  | None => Py.Raise Py.TypeError
  end.

Section Generator.

(** [client.chat.completions.create(model, messages, temperature=0.1)]
    and [.choices[0].message.content]; arguments: API key, model name,
    [(role, content)] messages. *)
Variable chat :
  string -> string -> list (string * string) -> Py.result (option string).

(** One turn of the loop that builds [context_text]. *)
Definition context_step (context_text : string) (numbered : nat * chunk)
  : Py.result string :=
  let '(idx, ctx) := numbered in
  md <- Py.getitem "metadata" (metadata_of ctx) ;;
  t <- Py.getitem "text" (text ctx) ;;
  Py.Ok (context_text ++ nl ++ label idx ++ " (" ++ page_info md ++ ")"
           ++ nl ++ t ++ nl)%string.

(** One turn of the loop that collects [used_citations]. *)
Definition citation_step (answer_text : option string)
    (used_citations : list citation) (numbered : nat * chunk)
  : Py.result (list citation) :=
  let '(idx, ctx) := numbered in
  present <- label_in idx answer_text ;;
  if present : bool then
    md <- Py.getitem "metadata" (metadata_of ctx) ;;
    t <- Py.getitem "text" (text ctx) ;;
    Py.Ok (used_citations ++ [make_citation idx ctx md t])
  else Py.Ok used_citations.

Definition generate_answer (question : string) (contexts : list chunk)
    (api_key model : string)
  : Py.result (option string * list citation) :=
  Py.try_except
    (context_text <-
       Py.foldM context_step (Py.enumerate 1 contexts) EmptyString ;;
     let prompt := prompt_of question context_text in
     answer_text <-
       chat api_key model
            [("system", "You are a due diligence analyst.");
             ("user", prompt)]%string ;;
     used_citations <-
       Py.foldM (citation_step answer_text) (Py.enumerate 1 contexts) [] ;;
     Py.Ok (answer_text, used_citations))
    (fun e => Py.Raise e).

End Generator.

End AnswerGenerator.

(* ================================================================== *)
(** * services/evaluation_service.py and models/schemas.py *)
(* ================================================================== *)

Module EvaluationService.

(** [EvaluationMetrics]: every field is [Optional[float] = None]. *)
Record EvaluationMetrics : Type := {
  bleu_score : option Q;
  rouge_1_f1 : option Q;
  rouge_2_f1 : option Q;
  rouge_l_f1 : option Q;
  semantic_similarity : option Q;
  overall_score : option Q
}.

(** [EvaluationMetrics()]. *)
Definition EvaluationMetrics_default : EvaluationMetrics :=
  {| bleu_score := None; rouge_1_f1 := None; rouge_2_f1 := None;
     rouge_l_f1 := None; semantic_similarity := None;
     overall_score := None |}.

(** What a caller can pass where a text is expected: [None], a string, or
    some other (truthy) object, which has no [lower]. *)
Inductive text_arg : Type :=
| ArgNone
| ArgStr (s : string)
| ArgOther.

(** The dict of ROUGE scores; a value [None] is the Python [None]. *)
Definition rouge_dict : Type := list (string * option Q).

(** [d.get(key, default)] on such a dict. *)
Fixpoint dict_get (d : rouge_dict) (key : string) (default : option Q)
  : option Q :=
  match d with
  | [] => default
  | (k, v) :: d' => if (k =? key)%string then v else dict_get d' key default
  end.

Definition _normalize_text (text : text_arg) : Py.result string :=
  match text with
  | ArgNone => Py.Ok EmptyString
  | ArgStr s =>
      if Py.truthy s
      then Py.Ok (Py.strip (Py.collapse_spaces false (Py.lower s)))
      else Py.Ok EmptyString
  | ArgOther => Py.Raise Py.AttributeError
  end.

Definition isnil {A} (l : list A) : bool :=
  match l with
  | [] => true
  | _ :: _ => false
  end.

Definition Qsum (xs : list Q) : Q := fold_left Qplus xs 0%Q.

Definition _calculate_overall_score
    (bleu : option Q) (rouge : rouge_dict) (semantic : option Q)
  : Py.result (option Q) :=
  Py.try_except
    (let scores := [] in
     let weights := [] in
     let '(scores, weights) :=
       match bleu with
       | Some b => (scores ++ [b], weights ++ [0.25%Q])
       | None => (scores, weights)
       end in
     let rouge_l := dict_get rouge "rougeL_f1" (Some 0%Q) in
     let '(scores, weights) :=
       match rouge_l with
       | Some r => (scores ++ [r], weights ++ [0.25%Q])
       | None => (scores, weights)
       end in
     let '(scores, weights) :=
       match semantic with
       | Some s => (scores ++ [s], weights ++ [0.50%Q])
       | None => (scores, weights)
       end in
     if isnil scores then Py.Ok None
     else
       let total_weight := Qsum weights in
       let normalized_weights :=
         map (fun w => (w / total_weight)%Q) weights in
       let overall :=
         Qsum (map (fun sw => (fst sw * snd sw)%Q)
                   (combine scores normalized_weights)) in
       Py.Ok (Some overall))
    (fun _ => Py.Ok None).

Section Evaluator.

(** [nltk.tokenize.word_tokenize], with the import and the lookup of the
    tokenizer data that precede it. *)
Variable word_tokenize : string -> Py.result (list string).
(** [sentence_bleu([reference], generated, weights, smoothing)]. *)
Variable sentence_bleu : list string -> list string -> Py.result Q.
(** [RougeScorer(...).score(reference, generated)]: the F-measures of
    rouge1, rouge2 and rougeL. *)
Variable rouge_score : string -> string -> Py.result (Q * Q * Q).
(** [os.getenv('OPENAI_API_KEY')]. *)
Variable openai_api_key : option string.
(** Cosine similarity of the embeddings of two texts, requested with the
    given key. *)
Variable embedding_similarity :
  string -> string -> string -> Py.result Q.

Definition _calculate_bleu (generated reference : string)
  : Py.result (option Q) :=
  Py.try_except
    (reference_tokens <- word_tokenize reference ;;
     generated_tokens <- word_tokenize generated ;;
     if isnil reference_tokens || isnil generated_tokens
     then Py.Ok (Some 0.0%Q)
     else score <- sentence_bleu reference_tokens generated_tokens ;;
          Py.Ok (Some score))
    (fun _ => Py.Ok None).

Definition _calculate_rouge (generated reference : string)
  : Py.result rouge_dict :=
  Py.try_except
    (scores <- rouge_score reference generated ;;
     let '(r1, r2, rl) := scores in
     Py.Ok [("rouge1_f1", Some r1); ("rouge2_f1", Some r2);
            ("rougeL_f1", Some rl)]%string)
    (fun _ =>
       Py.Ok [("rouge1_f1", Some 0.0%Q); ("rouge2_f1", Some 0.0%Q);
              ("rougeL_f1", Some 0.0%Q)]%string).

Definition _calculate_semantic_similarity (generated reference : string)
  : Py.result (option Q) :=
  Py.try_except
    (match openai_api_key with
     | None => Py.Raise (Py.LibraryError "api_key must be set")
     | Some key =>
         if Py.truthy key
         then similarity <- embedding_similarity key generated reference ;;
              Py.Ok (Some similarity)
         else Py.Ok None
     end)
    (fun _ => Py.Ok None).

(** [round(v, 4)] of a dict value; rounding [None] raises. *)
Definition round_value (v : option Q) : Py.result (option Q) :=
  match v with
  | Some x => Py.Ok (Some (Py.Qround x 4))
  | None => Py.Raise Py.TypeError
  end.

(** The body of the [try] of [evaluate]. *)
Definition evaluate_body (generated_answer ground_truth : text_arg)
  : Py.result EvaluationMetrics :=
  gen_clean <- _normalize_text generated_answer ;;
  gt_clean <- _normalize_text ground_truth ;;
  bleu <- _calculate_bleu gen_clean gt_clean ;;
  rouge_scores <- _calculate_rouge gen_clean gt_clean ;;
  semantic_sim <- _calculate_semantic_similarity gen_clean gt_clean ;;
  overall <- _calculate_overall_score bleu rouge_scores semantic_sim ;;
  r1 <- round_value (dict_get rouge_scores "rouge1_f1" (Some 0%Q)) ;;
  r2 <- round_value (dict_get rouge_scores "rouge2_f1" (Some 0%Q)) ;;
  rl <- round_value (dict_get rouge_scores "rougeL_f1" (Some 0%Q)) ;;
  Py.Ok {| bleu_score := option_map (fun b => Py.Qround b 4) bleu;
           rouge_1_f1 := r1;
           rouge_2_f1 := r2;
           rouge_l_f1 := rl;
           semantic_similarity :=
             option_map (fun s => Py.Qround s 4) semantic_sim;
           overall_score :=
             option_map (fun o => Py.Qround o 4) overall |}.

Definition evaluate (generated_answer ground_truth : text_arg)
  : Py.result EvaluationMetrics :=
  Py.try_except
    (evaluate_body generated_answer ground_truth)
    (fun _ => Py.Ok EvaluationMetrics_default).

End Evaluator.

End EvaluationService.

(* ================================================================== *)
(** * tasks.py: the scoring and citation steps of [generate_answer_task] *)
(* ================================================================== *)

Module Tasks.
Import Retrieval.

(** The [confidence] dict of the job: it has no coverage entry. *)
Record confidence : Type := {
  overall : Q;
  retrieval : Q;
  faithfulness : Q;
  relevancy : Q
}.

(** What [answer_repo.create_answer] receives from it. *)
Record persisted_scores : Type := {
  confidence_score : Q;
  retrieval_score : Q;
  faithfulness_score : Q
}.

(** "Calculate simple confidence score". *)
Definition task_confidence (retrieval_results : list chunk) : confidence :=
  let scores := map (fun r => Py.get (score r) 0.0%Q) retrieval_results in
  let retrieval_conf :=
    match scores with
    | [] => 0.5%Q
    | _ :: _ => ConfidenceScorer.np_mean scores
    end in
  {| overall := retrieval_conf;
     retrieval := retrieval_conf;
     faithfulness := 0.8%Q;
     relevancy := 0.8%Q |}.

Definition task_persisted (retrieval_results : list chunk)
  : persisted_scores :=
  let c := task_confidence retrieval_results in
  {| confidence_score := overall c;
     retrieval_score := retrieval c;
     faithfulness_score := faithfulness c |}.

(** One turn of the "Extract citations" loop; a context without metadata
    is read through [ctx.get("metadata", {})]. *)
Definition task_citation_step (answer_text : option string)
    (citations : list AnswerGenerator.citation) (numbered : nat * chunk)
  : Py.result (list AnswerGenerator.citation) :=
  let '(idx, ctx) := numbered in
  present <- AnswerGenerator.label_in idx answer_text ;;
  if present : bool then
    let md := Py.get (metadata_of ctx) no_metadata in
    t <- Py.getitem "text" (text ctx) ;;
    Py.Ok (citations ++ [AnswerGenerator.make_citation idx ctx md t])
  else Py.Ok citations.

Definition task_citations (retrieval_results : list chunk)
    (answer_text : option string)
  : Py.result (list AnswerGenerator.citation) :=
  Py.foldM (task_citation_step answer_text)
           (Py.enumerate 1 retrieval_results) [].

End Tasks.


(* ================================================================== *)
(** * Double precision: the rounding of binary64 arithmetic *)
(* ================================================================== *)

Module Binary64.

(** [2^e] for an integer exponent. *)
Definition pow2 (e : Z) : Q := Qpower 2 e.

(** [floor(log2 q)] for a positive rational. *)
Definition ilog2 (q : Q) : Z :=
  let e := Z.log2 (Qnum q) - Z.log2 (Z.pos (Qden q)) in
  if Qle_bool (pow2 e) q then e else e - 1.

(** The spacing of the doubles around [q]: 53 significant bits, and
    [2^-1074] in the subnormal range. *)
Definition quantum (q : Q) : Q :=
  pow2 (Z.max (ilog2 (Qabs q) - 52) (-1074)).

(** The multiple of the spacing nearest to [q], ties to the even
    significand, before the test for overflow. *)
Definition nearest (q : Q) : Q :=
  if Qeq_bool q 0 then 0
  else Qred (inject_Z (Py.round_half_even (q / quantum q)) * quantum q).

(** The double nearest to the real number [q] (round to nearest, ties to
    even); beyond the largest double the result is an infinity.  The sign
    of a zero is not kept. *)
Definition fl (q : Q) : Py.float :=
  let r := nearest q in
  if Qle_bool (pow2 1024) r then Py.PInf
  else if Qle_bool r (- pow2 1024) then Py.NInf
  else Py.Fin r.

(** An operation on doubles is the exact operation followed by
    rounding. *)
Definition rounded (x : Py.float) : Py.float :=
  match x with
  | Py.Fin q => fl q
  | other => other
  end.

(** [a + b] and [a * b] on doubles. *)
Definition add (a b : Py.float) : Py.float := rounded (Py.add a b).
Definition mul (a b : Py.float) : Py.float := rounded (Py.mul a b).

(** [a / b] on two ints, [b] not 0: the quotient correctly rounded. *)
Definition int_div (a b : Z) : Py.float := fl (inject_Z a / inject_Z b).

(** [round(x, ndigits)] on a double: the decimal with [ndigits] digits
    nearest to the exact value of [x] (ties to the even digit), then the
    double nearest to that decimal. *)
Definition round (x : Py.float) (ndigits : nat) : Py.float :=
  rounded (Py.round x ndigits).

End Binary64.

(* ================================================================== *)
(** * services/confidence_scorer.py in double precision *)
(* ================================================================== *)

Module ConfidenceScorer64.
Import Retrieval ConfidenceScorer.

Section Scorer.

(** [float(np.mean(scores))] on a non-empty list of floats. *)
Variable np_mean : list Q -> Py.float.
Variable chat : string -> list (string * string) -> grading_reply.

(** The body of the [try] of [calculate_confidence]. *)
Definition calculate_confidence_body
    (retrieval_results : list chunk) (answer question api_key : string)
  : Py.result metrics :=
  let scores := map (fun r => Py.get (score r) 0.0%Q) retrieval_results in
  let retrieval_conf :=
    match scores with
    | [] => Binary64.fl 0.0
    | _ :: _ => np_mean scores
    end in
  let high_relevance :=
    list_sum (map (fun _ => 1%nat)
                  (filter (fun s => Py.gt (Py.Fin s) (Binary64.fl 0.7))
                          scores)) in
  let coverage :=
    Binary64.int_div (Z.of_nat high_relevance)
                     (Z.max (Z.of_nat (List.length scores)) 1) in
  texts <- Py.mapM (fun r => Py.getitem "text" (text r)) retrieval_results ;;
  let faithfulness := _check_faithfulness chat answer texts api_key in
  let relevancy := _check_relevancy chat answer question api_key in
  let composite :=
    Binary64.add
      (Binary64.add
         (Binary64.add
            (Binary64.mul (Binary64.fl 0.25) retrieval_conf)
            (Binary64.mul (Binary64.fl 0.15) coverage))
         (Binary64.mul (Binary64.fl 0.35) faithfulness))
      (Binary64.mul (Binary64.fl 0.25) relevancy) in
  Py.Ok {| overall := Binary64.round composite 3;
           retrieval := Binary64.round retrieval_conf 3;
           coverage := Binary64.round coverage 3;
           faithfulness := Binary64.round faithfulness 3;
           relevancy := Binary64.round relevancy 3 |}.

Definition calculate_confidence
    (retrieval_results : list chunk) (answer question api_key : string)
  : Py.result metrics :=
  Py.try_except
    (calculate_confidence_body retrieval_results answer question api_key)
    (fun _ => Py.Ok default_scores).

End Scorer.

End ConfidenceScorer64.

(* ================================================================== *)
(** * tasks.py: the confidence of [generate_answer_task], in double
      precision *)
(* ================================================================== *)

Module Tasks64.
Import Retrieval.

(** The [confidence] dict of the job: it has no coverage entry. *)
Record confidence : Type := {
  overall : Py.float;
  retrieval : Py.float;
  faithfulness : Py.float;
  relevancy : Py.float
}.

(** What [answer_repo.create_answer] receives from it. *)
Record persisted_scores : Type := {
  confidence_score : Py.float;
  retrieval_score : Py.float;
  faithfulness_score : Py.float
}.

Section Job.

(** [float(np.mean(scores))] on a non-empty list of floats. *)
Variable np_mean : list Q -> Py.float.

(** "Calculate simple confidence score". *)
Definition task_confidence (retrieval_results : list chunk)
  : confidence :=
  let scores := map (fun r => Py.get (score r) 0.0%Q) retrieval_results in
  let retrieval_conf :=
    match scores with
    | [] => Binary64.fl 0.5
    | _ :: _ => np_mean scores
    end in
  {| overall := retrieval_conf;
     retrieval := retrieval_conf;
     faithfulness := Binary64.fl 0.8;
     relevancy := Binary64.fl 0.8 |}.

Definition task_persisted (retrieval_results : list chunk)
  : persisted_scores :=
  let c := task_confidence retrieval_results in
  {| confidence_score := overall c;
     retrieval_score := retrieval c;
     faithfulness_score := faithfulness c |}.

End Job.

End Tasks64.
(* ================================================================== *)
(** * tasks.py: embedding in batches *)
(* ================================================================== *)

Module Batching.

Definition vector : Type := list Q.

(** [range(0, stop, step)] for a positive step: [0, step, 2 step, ...]
    below [stop]. *)
Definition range_step (stop step : nat) : list nat :=
  map (fun k => k * step)%nat (seq 0 ((stop + step - 1) / step)).

(** [l[i:j]]. *)
Definition slice {A} (l : list A) (i j : nat) : list A :=
  firstn (j - i) (skipn i l).

Definition batch_size : nat := 2000.

Section Embedder.

(** [client.embeddings.create(model="text-embedding-3-small",
    input=batch)] followed by
    [[item.embedding for item in response.data]]. *)
Variable embeddings_create : list string -> Py.result (list vector).

(** One turn of [for i in range(0, len(texts), batch_size)]. *)
Definition batch_step (texts : list string) (size : nat)
    (embeddings : list vector) (i : nat) : Py.result (list vector) :=
  batch_embeddings <- embeddings_create (slice texts i (i + size)) ;;
  Py.Ok (embeddings ++ batch_embeddings).

Definition embed_batches (size : nat) (texts : list string)
  : Py.result (list vector) :=
  Py.foldM (batch_step texts size)
           (range_step (List.length texts) size) [].

(** The loop of the job, with its batch size of 2000. *)
Definition embed_texts (texts : list string) : Py.result (list vector) :=
  embed_batches batch_size texts.

End Embedder.

End Batching.

(* ================================================================== *)
(** * services/vector_store.py: [add_documents] *)
(* ================================================================== *)

Module VectorStoreWrite.
Import Retrieval.

(** The dict the ingestion job hands over for one chunk; [None] is an
    absent key. *)
Record stored_chunk : Type := {
  sc_chunk_id : option string;
  sc_document_id : option string;
  sc_vector_id : option string;
  sc_text : option string;
  sc_page_number : option Z;
  sc_chunk_index : option Z
}.

(** The metadata dict built for one chunk. *)
Definition metadata_for (chunk : stored_chunk) : Py.result metadata :=
  document_id <- Py.getitem "document_id" (sc_document_id chunk) ;;
  chunk_id <- Py.getitem "chunk_id" (sc_chunk_id chunk) ;;
  chunk_index <- Py.getitem "chunk_index" (sc_chunk_index chunk) ;;
  Py.Ok {| md_document_id := Some document_id;
           md_chunk_id := Some chunk_id;
           md_page_number := Some (Py.get (sc_page_number chunk) 0);
           md_chunk_index := Some chunk_index |}.

Section Store.

(** [get_or_create_collection(name, cosine)] followed by
    [collection.add(ids, embeddings, documents, metadatas)]. *)
Variable collection_add :
  string -> list string -> list Batching.vector -> list string
  -> list metadata -> Py.result unit.

Definition add_documents (tenant_id project_id : string)
    (chunks : list stored_chunk) (embeddings : list Batching.vector)
  : Py.result unit :=
  Py.try_except
    (ids <- Py.mapM (fun c => Py.getitem "vector_id" (sc_vector_id c))
                    chunks ;;
     documents <- Py.mapM (fun c => Py.getitem "text" (sc_text c))
                          chunks ;;
     metadatas <- Py.mapM metadata_for chunks ;;
     collection_add (VectorStore.collection_name tenant_id project_id)
                    ids embeddings documents metadatas)
    (fun e => Py.Raise e).

End Store.

End VectorStoreWrite.

(* ================================================================== *)
(** * tasks.py: [process_documents_task], with the repository calls it
      makes (repositories/document_repository.py) *)
(* ================================================================== *)

Module Ingestion.

(** The columns of a document row the job reads and writes (the
    [processed_at] timestamp is left out). *)
Record document_row : Type := {
  processing_status : string;
  chunk_count : option nat
}.

(** A [DocumentChunk] row. *)
Record chunk_row : Type := {
  chunk_id : string;
  tenant_id : string;
  document_id : string;
  chunk_index : nat;
  content : string;
  page_number : option Z;
  char_offset_start : Z;
  char_offset_end : Z;
  vector_id : string;
  token_count : nat
}.

(** The meta of one [update_state(state="PROGRESS", ...)]. *)
Record progress : Type := {
  fraction : Q;
  stage : string;
  current_file : string
}.

(** What the job acts on: the document and chunk tables (statements on
    them are taken to commit), the number of [uuid4()] calls made so far,
    and the progress reports sent. *)
Record state : Type := {
  documents : list (string * document_row);
  chunks : list chunk_row;
  uuids_drawn : nat;
  reports : list progress
}.

(** The dict the job returns. *)
Record job_result : Type := {
  status : string;
  documents_total : nat
}.

(** [result.scalar_one_or_none()]: the row when there is exactly one;
    with several rows it raises. *)
Definition scalar_one_or_none {A} (rows : list A) : Py.result (option A) :=
  match rows with
  | [] => Py.Ok None
  | [row] => Py.Ok (Some row)
  | _ => Py.Raise (Py.LibraryError "MultipleResultsFound")
  end.

(** [select(Document).where(Document.document_id == id)]. *)
Definition select_document (rows : list (string * document_row))
    (id : string) : list document_row :=
  map snd (filter (fun kr => (fst kr =? id)%string) rows).

(** [DocumentRepository.get_document_by_id]: an exception gives
    [None]. *)
Definition get_document_by_id (st : state) (id : string)
  : option document_row :=
  match scalar_one_or_none (select_document (documents st) id) with
  | Py.Ok row => row
  | Py.Raise _ => None
  end.

(** [DocumentRepository.update_document_status]: an UPDATE of the rows
    with that id. *)
Definition update_document_status (st : state) (id new_status : string)
    (count : option nat) : state :=
  {| documents :=
       map (fun kr =>
              if (fst kr =? id)%string
              then (fst kr,
                    {| processing_status := new_status;
                       chunk_count :=
                         match count with
                         | Some c => Some c
                         | None => chunk_count (snd kr)
                         end |})
              else kr)
           (documents st);
     chunks := chunks st;
     uuids_drawn := uuids_drawn st;
     reports := reports st |}.

(** [s.split('_')[0]]. *)
Fixpoint before_underscore (s : string) : string :=
  match s with
  | EmptyString => EmptyString
  | String c s' =>
      if Ascii.eqb c "_" then EmptyString
      else String c (before_underscore s')
  end.

Section Job.

(** The libraries of the document processor. *)
Variable split_text : string -> list string.
Variable sha256_hexdigest : string -> string.
Variable fitz_open : string -> Py.result (list DocumentProcessor.pdf_page).
Variable docx_paragraphs : string -> Py.result (list string).
Variable read_file : string -> Py.result string.

(** What the job does before it looks for the key: setting the tenant
    context and constructing the services (it can fail: no
    [FERNET_KEY], no index). *)
Variable initialize_services : Py.result unit.
(** [settings_repo.get_api_key_config(tenant_id, "openai")]: the
    encrypted key, when one is configured. *)
Variable get_api_key_config : string -> string -> option string.
(** [CryptoService.decrypt]. *)
Variable decrypt : string -> Py.result string.
(** [UUID(text)]. *)
Variable UUID : string -> Py.result string.
(** The n-th value [uuid4()] returns. *)
Variable uuid4 : nat -> string.
(** The embedding request made with a key. *)
Variable embeddings_create :
  string -> list string -> Py.result (list Batching.vector).
(** [collection.add] of the index. *)
Variable collection_add :
  string -> list string -> list Batching.vector -> list string
  -> list Retrieval.metadata -> Py.result unit.

(** The rows [DocumentRepository.create_chunks] builds, two [uuid4()]
    calls per chunk. *)
Fixpoint chunk_rows (n : nat) (tenant document : string)
    (parsed : list DocumentProcessor.chunk) : list chunk_row :=
  match parsed with
  | [] => []
  | c :: rest =>
      {| chunk_id := uuid4 n;
         tenant_id := tenant;
         document_id := document;
         chunk_index := DocumentProcessor.chunk_index c;
         content := DocumentProcessor.text c;
         page_number := DocumentProcessor.page_number c;
         char_offset_start := DocumentProcessor.char_offset_start c;
         char_offset_end := DocumentProcessor.char_offset_end c;
         vector_id := uuid4 (S n);
         token_count := DocumentProcessor.token_count c |}
      :: chunk_rows (S (S n)) tenant document rest
  end.

Definition create_chunks (st : state) (tenant document : string)
    (parsed : list DocumentProcessor.chunk) : state * list chunk_row :=
  let rows := chunk_rows (uuids_drawn st) tenant document parsed in
  ({| documents := documents st;
      chunks := chunks st ++ rows;
      uuids_drawn := uuids_drawn st + 2 * List.length parsed;
      reports := reports st |},
   rows).

(** One entry of [chunks_with_meta]. *)
Definition with_meta (document : string)
    (pair : chunk_row * DocumentProcessor.chunk)
  : VectorStoreWrite.stored_chunk :=
  let '(chunk_obj, chunk_data) := pair in
  {| VectorStoreWrite.sc_chunk_id := Some (chunk_id chunk_obj);
     VectorStoreWrite.sc_document_id := Some document;
     VectorStoreWrite.sc_vector_id := Some (vector_id chunk_obj);
     VectorStoreWrite.sc_text := Some (DocumentProcessor.text chunk_data);
     VectorStoreWrite.sc_page_number :=
       Some (match page_number chunk_obj with
             | Some p => if p =? 0 then 0 else p
             | None => 0
             end);
     VectorStoreWrite.sc_chunk_index :=
       Some (Z.of_nat (chunk_index chunk_obj)) |}.

(** The body of the inner [try] for one document, with its [except]
    branch: every failure ends in the status 'failed'. *)
Definition process_document (st : state)
    (tenant project api_key file_path document : string) : state :=
  match DocumentProcessor.parse_document split_text sha256_hexdigest
          fitz_open docx_paragraphs read_file file_path with
  | Py.Raise _ => update_document_status st document "failed" None
  | Py.Ok [] => update_document_status st document "failed" None
  | Py.Ok parsed =>
      match UUID tenant with
      | Py.Raise _ => update_document_status st document "failed" None
      | Py.Ok tenant_uuid =>
          let '(st1, chunk_objects) :=
            create_chunks st tenant_uuid document parsed in
          let texts := map DocumentProcessor.text parsed in
          match Batching.embed_texts (embeddings_create api_key) texts with
          | Py.Raise _ =>
              update_document_status st1 document "failed" None
          | Py.Ok embeddings =>
              let chunks_with_meta :=
                map (with_meta document) (combine chunk_objects parsed) in
              match VectorStoreWrite.add_documents collection_add tenant
                      project chunks_with_meta embeddings with
              | Py.Raise _ =>
                  update_document_status st1 document "failed" None
              | Py.Ok _ =>
                  update_document_status st1 document "completed"
                                         (Some (List.length parsed))
              end
          end
      end
  end.

Definition report (st : state) (p : progress) : state :=
  {| documents := documents st;
     chunks := chunks st;
     uuids_drawn := uuids_drawn st;
     reports := reports st ++ [p] |}.

(** The loop [for idx, file_path in enumerate(file_paths)]; what it
    returns beside the state is the exception that ended it, if any. *)
Fixpoint process_files (tenant project api_key : string) (total : nat)
    (files : list (nat * string)) (st : state) : state * Py.result unit :=
  match files with
  | [] => (st, Py.Ok tt)
  | (idx, file_path) :: rest =>
      let st :=
        report st
          {| fraction :=
               (inject_Z (Z.of_nat idx) / inject_Z (Z.of_nat total))%Q;
             stage := "processing";
             current_file := Py.path_name file_path |} in
      match UUID (before_underscore (Py.path_name file_path)) with
      | Py.Raise e => (st, Py.Raise e)
      | Py.Ok document =>
          match get_document_by_id st document with
          | None => process_files tenant project api_key total rest st
          | Some _ =>
              let st :=
                update_document_status st document "processing" None in
              let st :=
                process_document st tenant project api_key file_path
                                 document in
              process_files tenant project api_key total rest st
          end
      end
  end.

Definition process_documents_task (st : state)
    (tenant project : string) (file_paths : list string)
  : state * Py.result job_result :=
  match initialize_services with
  | Py.Raise e => (st, Py.Raise e)
  | Py.Ok _ =>
      match get_api_key_config tenant "openai" with
      | None => (st, Py.Raise (Py.ValueError "OpenAI API key not configured"))
      | Some encrypted_key =>
          match decrypt encrypted_key with
          | Py.Raise e => (st, Py.Raise e)
          | Py.Ok api_key =>
              let total := List.length file_paths in
              let '(st', outcome) :=
                process_files tenant project api_key total
                              (Py.enumerate 0 file_paths) st in
              (st',
               match outcome with
               | Py.Ok _ =>
                   Py.Ok {| status := "completed";
                            documents_total := total |}
               | Py.Raise e => Py.Raise e
               end)
          end
      end
  end.

End Job.

End Ingestion.

(* ================================================================== *)
(** * Vocabulary of the statements: the specification's wording of the
      scores, and the predicates the properties are stated with *)
(* ================================================================== *)

Module Spec.

(** The similarity score a retrieval result carries (0.0 when the dict has
    none). *)
Definition similarity (r : Retrieval.chunk) : Q :=
  match Retrieval.score r with
  | Some s => s
  | None => 0
  end.

Fixpoint total (xs : list Q) : Q :=
  match xs with
  | [] => 0
  | x :: rest => x + total rest
  end.

Definition size (xs : list Q) : Q := inject_Z (Z.of_nat (List.length xs)).

(** "mean similarity score of retrieved contexts (0 if none)". *)
Definition mean (xs : list Q) : Q :=
  match xs with
  | [] => 0
  | _ :: _ => total xs / size xs
  end.

Definition above_threshold (x : Q) : bool :=
  if Qlt_le_dec (7 # 10) x then true else false.

(** "fraction of contexts with similarity > 0.7". *)
Definition fraction_above (xs : list Q) : Q :=
  match xs with
  | [] => 0
  | _ :: _ => size (filter above_threshold xs) / size xs
  end.

(** "0.25 retrieval + 0.15 coverage + 0.35 faithfulness + 0.25
      relevancy". *)
Definition weighted (retrieval coverage faithfulness relevancy : Q) : Q :=
  (1 # 4) * retrieval + (3 # 20) * coverage
  + (7 # 20) * faithfulness + (1 # 4) * relevancy.

(** The scores the scorer and the job read: 0.0 for a result without
    one. *)
Definition scores (rs : list Retrieval.chunk) : list Q :=
  map (fun r => match Retrieval.score r with
                | Some s => s
                | None => 0.0%Q
                end) rs.

(** The double that the literal [0.7] denotes: the nearest one lies just
    below seven tenths. *)
Definition double_0_7 : Q := 3152519739159347 # 4503599627370496.

(** "fraction of contexts with similarity > t" (0 if there is none). *)
Definition fraction_over (t : Q) (xs : list Q) : Q :=
  match xs with
  | [] => 0
  | _ :: _ =>
      size (filter (fun x => if Qlt_le_dec t x then true else false) xs)
      / size xs
  end.

(** The weighted sum as double-precision arithmetic evaluates it: the
    weights are the doubles nearest to 0.25, 0.15, 0.35 and 0.25, every
    product and every sum is rounded, and the sums are taken from left to
    right. *)
Definition weighted64 (retrieval coverage faithfulness relevancy : Py.float)
  : Py.float :=
  Binary64.add
    (Binary64.add
       (Binary64.add (Binary64.mul (Binary64.fl (1 # 4)) retrieval)
                     (Binary64.mul (Binary64.fl (3 # 20)) coverage))
       (Binary64.mul (Binary64.fl (7 # 20)) faithfulness))
    (Binary64.mul (Binary64.fl (1 # 4)) relevancy).



(** The splitter returns no whitespace-only piece (the recursive splitter
    the processor builds strips every piece and drops the empty ones). *)
Definition strips_pieces (split_text : string -> list string) : Prop :=
  forall t,
    Forall (fun s => DocumentProcessor.blank s = false) (split_text t).

(** The retrieval result has a text entry. *)
Definition has_text (r : Retrieval.chunk) : Prop := Retrieval.text r <> None.

(** The texts handed to the faithfulness check. *)
Definition texts_of (rs : list Retrieval.chunk) : list string :=
  map (fun r => Py.get (Retrieval.text r) EmptyString) rs.

(** "weighted combination ... renormalized over whichever sub-scores were
      actually computable": the pairs are (weight, sub-score) with [None] for
    a sub-score that could not be computed; the result is absent when
    there is none. *)
Definition computable (entries : list (Q * option Q)) : list (Q * Q) :=
  flat_map (fun e => match snd e with
                     | Some s => [(fst e, s)]
                     | None => []
                     end) entries.

Definition renormalized (entries : list (Q * option Q)) : option Q :=
  match computable entries with
  | [] => None
  | present =>
      Some (total (map (fun ws => fst ws * snd ws)%Q present)
            / total (map fst present))%Q
  end.

(** Two optional scores denote the same number, or are both absent. *)
Definition same_score (a b : option Q) : Prop :=
  match a, b with
  | Some x, Some y => (x == y)%Q
  | None, None => True
  | _, _ => False
  end.

(** The span of a chunk starts at or after 0 and is as long as its
    text. *)
Definition span_ok (c : DocumentProcessor.chunk) : Prop :=
  0 <= DocumentProcessor.char_offset_start c
  /\ DocumentProcessor.char_offset_end c
     - DocumentProcessor.char_offset_start c
     = Py.len (DocumentProcessor.text c).

(** Invariant of the two loops of [_parse_pdf]: the ordinals stored so
    far are 0, 1, ... and [chunk_index] is the next one; every stored
    chunk satisfies [P]. *)
Definition pdf_inv (P : DocumentProcessor.chunk -> Prop)
    (st : DocumentProcessor.pdf_state) : Prop :=
  map DocumentProcessor.chunk_index (fst st) = seq 0 (snd st)
  /\ Forall P (fst st).

(** The numbered pieces the DOCX and plain-text loops keep. *)
Definition kept (numbered : nat * string) : bool :=
  negb (DocumentProcessor.blank (snd numbered)).

(** The context has the two entries the generator reads with [ctx[...]]. *)
Definition complete (ctx : Retrieval.chunk) : Prop :=
  Retrieval.metadata_of ctx <> None /\ Retrieval.text ctx <> None.

(** The text a PDF page contributes: its text layer, or what OCR gives when
    the text layer is blank. *)
Definition page_text (page : DocumentProcessor.pdf_page) : string :=
  if DocumentProcessor.blank (DocumentProcessor.get_text page)
  then DocumentProcessor._ocr_page page
  else DocumentProcessor.get_text page.

(** The pieces the PDF loops keep, in order: page index, page text and
    piece, for every non-blank piece of every page whose text is not
    blank. *)
Definition pdf_pieces (split_text : string -> list string)
    (numbered : list (nat * DocumentProcessor.pdf_page))
  : list (nat * string * string) :=
  flat_map
    (fun np =>
       let t := page_text (snd np) in
       if DocumentProcessor.blank t then []
       else map (fun s => (fst np, t, s))
                (filter (fun s => negb (DocumentProcessor.blank s))
                        (split_text t)))
    numbered.

(** The chunk the PDF loop stores for a kept piece under ordinal [k]. *)
Definition pdf_chunk_of (sha256_hexdigest : string -> string) (k : nat)
    (piece : nat * string * string) : DocumentProcessor.chunk :=
  DocumentProcessor.make_chunk sha256_hexdigest (snd (fst piece))
    (snd piece) k (Some (Z.of_nat (fst (fst piece)) + 1)).

(** [f k a0; f (k+1) a1; ...]. *)
Fixpoint number_from {A B} (f : nat -> A -> B) (k : nat) (l : list A)
  : list B :=
  match l with
  | [] => []
  | a :: l' => f k a :: number_from f (S k) l'
  end.

(** The string has a character that is not whitespace. *)
Fixpoint nonspace (s : string) : bool :=
  match s with
  | EmptyString => false
  | String c s' => negb (Py.isspace c) || nonspace s'
  end.

(** [sub] starts at position [i] of [s]. *)
Definition occurs_at (sub s : string) (i : nat) : Prop :=
  String.substring i (String.length sub) s = sub.

(** The span of chunk [c] against the text [source] it was cut from: it
    is the first occurrence of the chunk's text when there is one, and
    [0, len(text)) when there is none. *)
Definition span_locates (source : string) (c : DocumentProcessor.chunk)
  : Prop :=
  let t := DocumentProcessor.text c in
  let start := Z.to_nat (DocumentProcessor.char_offset_start c) in
  DocumentProcessor.char_offset_end c
  = DocumentProcessor.char_offset_start c + Py.len t
  /\ ((occurs_at t source start
       /\ forall j, (j < start)%nat -> ~ occurs_at t source j)
      \/ (DocumentProcessor.char_offset_start c = 0
          /\ forall j, ~ occurs_at t source j)).

(** A kept piece of a PDF is sound: its page exists, its page text is that
    page's text, the piece is not blank and is one of the pieces the
    splitter returned for that text. *)
Definition piece_ok (split_text : string -> list string)
    (doc : list DocumentProcessor.pdf_page)
    (piece : nat * string * string) : Prop :=
  exists page,
    nth_error doc (fst (fst piece)) = Some page
    /\ snd (fst piece) = page_text page
    /\ DocumentProcessor.blank (snd piece) = false
    /\ In (snd piece) (split_text (page_text page)).

(** The page number of a chunk as an integer, 0 when it has none. *)
Definition page_of (c : DocumentProcessor.chunk) : Z :=
  match DocumentProcessor.page_number c with
  | Some p => p
  | None => 0
  end.

(** The answer of the index is rectangular: its first rows of ids,
    documents, metadatas and (when reported) distances are [ids0],
    [docs0], [metas0], [dists0], of the same length. *)
Definition rectangular (r : VectorStore.query_result)
    (ids0 docs0 : list string) (metas0 : list Retrieval.metadata)
    (dists0 : list Q) : Prop :=
  hd_error (VectorStore.ids r) = Some ids0
  /\ hd_error (VectorStore.documents r) = Some docs0
  /\ hd_error (VectorStore.metadatas r) = Some metas0
  /\ List.length docs0 = List.length ids0
  /\ List.length metas0 = List.length ids0
  /\ (VectorStore.has_distances (VectorStore.distances r) = true ->
      hd_error (Py.get (VectorStore.distances r) []) = Some dists0
      /\ List.length dists0 = List.length ids0).

(** The batches of texts the job sends to the embedding provider. *)
Definition batches (size : nat) (texts : list string) : list (list string) :=
  map (fun i => Batching.slice texts i (i + size))
      (Batching.range_step (List.length texts) size).

(** The document id the ingestion job reads from a file path. *)
Definition document_id_of (UUID : string -> Py.result string)
    (file_path : string) : Py.result string :=
  UUID (Ingestion.before_underscore (Py.path_name file_path)).

(** [id] is the document id of one of the file paths. *)
Definition named (UUID : string -> Py.result string)
    (file_paths : list string) (id : string) : Prop :=
  Exists (fun p => document_id_of UUID p = Py.Ok id) file_paths.

(** Every file path carries a document id. *)
Definition well_named (UUID : string -> Py.result string)
    (file_paths : list string) : Prop :=
  Forall (fun p => exists id, document_id_of UUID p = Py.Ok id) file_paths.

(** Processing of the document has ended, one way or the other. *)
Definition settled (row : Ingestion.document_row) : Prop :=
  Ingestion.processing_status row = "completed"%string
  \/ Ingestion.processing_status row = "failed"%string.

(** An optional sub-score, when present, lies in [0,1]. *)
Definition present_in_unit (o : option Q) : Prop :=
  match o with
  | Some x => (0 <= x <= 1)%Q
  | None => True
  end.

(** [sub] occurs verbatim in [s]. *)
Definition occurs (sub s : string) : Prop :=
  exists before after : string, s = (before ++ sub ++ after)%string.

(** The literal label of context [i]: an opening bracket, the decimal
    digits of [i], a closing bracket. *)
Definition label (i : nat) : string :=
  ("[" ++ NilZero.string_of_uint (Nat.to_uint i) ++ "]")%string.

(** The excerpt of a text: the text itself when it has at most 200
    characters, otherwise its first 200 characters and three dots. *)
Definition excerpt_text (t : string) : string :=
  if (String.length t <=? 200)%nat then t
  else (String.substring 0 200 t ++ "...")%string.

(** The citation of the context at position [i]: the chunk id and score
    of the context, the document id and page number of its metadata (none
    without metadata), the excerpt of its text. *)
Definition citation_of (i : nat) (ctx : Retrieval.chunk)
  : AnswerGenerator.citation :=
  {| AnswerGenerator.cit_chunk_id := Retrieval.chunk_id ctx;
     AnswerGenerator.cit_document_id :=
       match Retrieval.metadata_of ctx with
       | Some md => Retrieval.md_document_id md
       | None => None
       end;
     AnswerGenerator.cit_page_number :=
       match Retrieval.metadata_of ctx with
       | Some md => Retrieval.md_page_number md
       | None => None
       end;
     AnswerGenerator.excerpt :=
       excerpt_text match Retrieval.text ctx with
                    | Some t => t
                    | None => EmptyString
                    end;
     AnswerGenerator.relevance_score :=
       match Retrieval.score ctx with
       | Some s => s
       | None => 0.0%Q
       end;
     AnswerGenerator.citation_order := i |}.

(** The citations of the numbered contexts whose literal label is in the
    answer, in the order of the contexts. *)
Definition cited (answer : string) (numbered : list (nat * Retrieval.chunk))
  : list AnswerGenerator.citation :=
  map (fun p => citation_of (fst p) (snd p))
      (filter (fun p => Py.contains (label (fst p)) answer) numbered).

End Spec.

(* ================================================================== *)
(** * Sample inputs and stand-ins for the external services *)
(* ================================================================== *)

Module Samples.
Import Retrieval ConfidenceScorer.

Definition sample (s : Q) : chunk :=
  {| vector_id := Some "v"%string; text := Some "t"%string;
     metadata_of := Some no_metadata; score := Some s;
     chunk_id := None |}.

Definition no_text : chunk :=
  {| vector_id := None; text := None; metadata_of := None;
     score := Some 0.9%Q; chunk_id := None |}.

Definition grader (x : Py.float)
  : string -> list (string * string) -> grading_reply :=
  fun _ _ => Parsed x.

(** Stand-ins for the libraries of the document processor. *)
Definition one_piece (t : string) : list string := [t].
(** A splitter that would return a whitespace-only piece; the splitter
    the processor builds strips its pieces and never returns one. *)
Definition three_pieces (_ : string) : list string :=
  ["a"; " "; "b"]%string.
(** A splitter that returns two stripped pieces. *)
Definition two_pieces (_ : string) : list string := ["a"; "b"]%string.
Definition no_hash (_ : string) : string := EmptyString.
Definition no_pdf (_ : string)
  : Py.result (list DocumentProcessor.pdf_page) :=
  Py.Raise (Py.LibraryError "cannot open broken document").
Definition no_docx (_ : string) : Py.result (list string) :=
  Py.Raise (Py.LibraryError "file is not a zip file").
Definition two_paragraphs (_ : string) : Py.result (list string) :=
  Py.Ok ["a"; "b"]%string.
Definition small_file (_ : string) : Py.result string :=
  Py.Ok "a   b"%string.



(** A model that cites the second context only. *)
Definition analyst (_ _ : string) (_ : list (string * string))
  : Py.result (option string) :=
  Py.Ok (Some "Net income was $5M [2]."%string).

Definition context (t : string) (s : Q) : chunk :=
  {| vector_id := Some "v"%string; text := Some t;
     metadata_of := Some no_metadata; score := Some s;
     chunk_id := Some "c"%string |}.

(** Stand-ins for the metric libraries of the evaluator. *)
Definition one_token (s : string) : Py.result (list string) := Py.Ok [s].
Definition no_tokenizer (_ : string) : Py.result (list string) :=
  Py.Raise (Py.LibraryError "No module named nltk").
Definition bleu_08 (_ _ : list string) : Py.result Q := Py.Ok 0.8%Q.
Definition no_rouge (_ _ : string) : Py.result (Q * Q * Q) :=
  Py.Raise (Py.LibraryError "No module named rouge_score").
Definition similarity_08 (_ _ _ : string) : Py.result Q := Py.Ok 0.8%Q.

(** A splitter that returns the text as one piece, and nothing for a
    blank text. *)
Definition whole_text (t : string) : list string :=
  if DocumentProcessor.blank t then [] else [t].

(** A two-page PDF: page 1 has a text layer, page 2 is a scan that OCR
    reads. *)
Definition scanned_pdf (_ : string)
  : Py.result (list DocumentProcessor.pdf_page) :=
  Py.Ok [{| DocumentProcessor.get_text := "Revenue grew 10%.";
            DocumentProcessor.image_to_string := Py.Ok EmptyString |};
         {| DocumentProcessor.get_text := EmptyString;
            DocumentProcessor.image_to_string :=
              Py.Ok "Net income was $5M." |}]%string.

(** A one-page PDF that is an image on which OCR fails. *)
Definition image_pdf (_ : string)
  : Py.result (list DocumentProcessor.pdf_page) :=
  Py.Ok [{| DocumentProcessor.get_text := " ";
            DocumentProcessor.image_to_string :=
              Py.Raise (Py.LibraryError "tesseract is not installed") |}
        ]%string.

(** An index whose answer has two ids but one document. *)
Definition ragged_index (_ : string) (_ : list Q) (_ : Z)
  : Py.result VectorStore.query_result :=
  Py.Ok {| VectorStore.ids := [["v1"; "v2"]%string];
           VectorStore.documents := [["Revenue grew 10%."%string]];
           VectorStore.metadatas := [[no_metadata; no_metadata]];
           VectorStore.distances := Some [[0.1; 0.2]%Q] |}.

(** An index with two entries. *)
Definition two_entry_index (_ : string) (_ : list Q) (_ : Z)
  : Py.result VectorStore.query_result :=
  Py.Ok {| VectorStore.ids := [["v1"; "v2"]%string];
           VectorStore.documents :=
             [["Revenue grew 10%."; "Net income was $5M."]%string];
           VectorStore.metadatas := [[no_metadata; no_metadata]];
           VectorStore.distances := Some [[0.1; 0.2]%Q] |}.

(** A context as the job can meet it: a text but no metadata entry. *)
Definition bare_context (t : string) : chunk :=
  {| vector_id := None; text := Some t; metadata_of := None;
     score := None; chunk_id := None |}.

(** A model whose message has no content. *)
Definition silent (_ _ : string) (_ : list (string * string))
  : Py.result (option string) := Py.Ok None.

(** An embedding provider that works text by text. *)
Definition embed_one (t : string) : Batching.vector :=
  [inject_Z (Z.of_nat (String.length t))].
Definition embedder (batch : list string)
  : Py.result (list Batching.vector) := Py.Ok (map embed_one batch).

(** A provider that refuses batches of more than two texts. *)
Definition small_embedder (batch : list string)
  : Py.result (list Batching.vector) :=
  if (List.length batch <=? 2)%nat then Py.Ok (map embed_one batch)
  else Py.Raise (Py.LibraryError "too many inputs").

(** Stand-ins for the services of the ingestion job: two-letter document
    ids, a key store with one key, an index that accepts everything. *)
Definition services_ready : Py.result unit := Py.Ok tt.
Definition one_key (_ _ : string) : option string := Some "gAAAA"%string.
Definition plain_key (_ : string) : Py.result string :=
  Py.Ok "sk-test"%string.
Definition short_uuid (s : string) : Py.result string :=
  if (String.length s =? 2)%nat then Py.Ok s
  else Py.Raise (Py.ValueError "badly formed hexadecimal UUID string").
Definition counter_uuid (n : nat) : string := Py.str_of_nat n.
Definition keyed_embedder (_ : string) (batch : list string)
  : Py.result (list Batching.vector) := embedder batch.
Definition accepting_index (_ : string) (_ : list string)
    (_ : list Batching.vector) (_ : list string) (_ : list metadata)
  : Py.result unit := Py.Ok tt.

Definition pending : Ingestion.document_row :=
  {| Ingestion.processing_status := "pending"%string;
     Ingestion.chunk_count := Some 0%nat |}.

(** Three uploaded documents, none processed yet. *)
Definition uploaded : Ingestion.state :=
  {| Ingestion.documents :=
       [("d1", pending); ("d2", pending); ("d3", pending)]%string;
     Ingestion.chunks := [];
     Ingestion.uuids_drawn := 0;
     Ingestion.reports := [] |}.

(** [np.mean] on a short list: the sum taken from left to right, then
    the division by the length, each operation rounded. *)
Definition sequential_mean (xs : list Q) : Py.float :=
  Binary64.rounded
    (Py.mul (fold_left (fun acc x => Binary64.add acc (Py.Fin x)) xs
                       (Py.Fin 0))
            (Py.Fin (/ inject_Z (Z.of_nat (List.length xs))))).

(** A grader that replies [f] to the faithfulness request and [r] to the
    relevancy request. *)
Definition two_replies (f r : Q) (_ : string)
    (messages : list (string * string)) : grading_reply :=
  match messages with
  | (_, system) :: _ =>
      if Py.contains "faithfulness" system then Parsed (Py.Fin f)
      else Parsed (Py.Fin r)
  | [] => Unparseable
  end.


(** A model that writes a bare number next to a label. *)
Definition loose_analyst (_ _ : string) (_ : list (string * string))
  : Py.result (option string) :=
  Py.Ok (Some "In year 1 net income was $5M [2]."%string).

(** A text of 214 characters. *)
Definition long_text : string :=
  "Revenue grew by ten percent in the third quarter, driven mainly by new enterprise contracts in the northern region; operating costs stayed flat, and the board expects the trend to hold through the next fiscal year."%string.

End Samples.


(* ================================================================== *)
(** * Facts about the Python builtins *)
(* ================================================================== *)

Module PyFacts.

Lemma round_half_even_comp (x y : Q) :
  (x == y)%Q -> Py.round_half_even x = Py.round_half_even y.
Proof.
  intros H. unfold Py.round_half_even.
  rewrite (Qfloor_comp x y H).
  assert (E : (x - inject_Z (Qfloor y) ?= 1 # 2)%Q
              = (y - inject_Z (Qfloor y) ?= 1 # 2)%Q)
    by (rewrite H; reflexivity).
  rewrite E. reflexivity.
Qed.

(** Rounding depends only on the number rounded, not on the fraction that
    denotes it. *)
Lemma Qround_comp (x y : Q) (n : nat) :
  (x == y)%Q -> Py.Qround x n = Py.Qround y n.
Proof.
  intros H. unfold Py.Qround. f_equal.
  apply round_half_even_comp. rewrite H. reflexivity.
Qed.

Lemma gt_Fin (x y : Q) : Py.gt (Py.Fin x) (Py.Fin y) = true <-> (y < x)%Q.
Proof.
  simpl. rewrite negb_true_iff. split; intros H.
  - apply Qnot_le_lt. intros L. apply Qle_bool_iff in L. congruence.
  - destruct (Qle_bool x y) eqn:E; [|reflexivity].
    apply Qle_bool_iff in E. exfalso. apply (Qlt_not_le _ _ H E).
Qed.

Lemma gt_Fin_false (x y : Q) :
  Py.gt (Py.Fin x) (Py.Fin y) = false <-> (x <= y)%Q.
Proof.
  simpl. rewrite negb_false_iff. apply Qle_bool_iff.
Qed.

(** [min(max(x, 0.0), 1.0)] on a finite float is the usual clamp. *)
Lemma clamp_Fin (q : Q) :
  Py.min (Py.max (Py.Fin q) (Py.Fin 0.0)) (Py.Fin 1.0)
  = if Qlt_le_dec q 0 then Py.Fin 0.0
    else if Qlt_le_dec 1 q then Py.Fin 1.0 else Py.Fin q.
Proof.
  unfold Py.min, Py.max, Py.lt.
  destruct (Qlt_le_dec q 0) as [Hq | Hq].
  - assert (G : Py.gt (Py.Fin 0.0) (Py.Fin q) = true)
      by (apply gt_Fin; lra).
    rewrite G.
    assert (G' : Py.gt (Py.Fin 0.0) (Py.Fin 1.0) = false)
      by (apply gt_Fin_false; lra).
    rewrite G'. reflexivity.
  - assert (G : Py.gt (Py.Fin 0.0) (Py.Fin q) = false)
      by (apply gt_Fin_false; lra).
    rewrite G.
    destruct (Qlt_le_dec 1 q) as [H1 | H1].
    + assert (G' : Py.gt (Py.Fin q) (Py.Fin 1.0) = true)
        by (apply gt_Fin; lra).
      rewrite G'. reflexivity.
    + assert (G' : Py.gt (Py.Fin q) (Py.Fin 1.0) = false)
        by (apply gt_Fin_false; lra).
      rewrite G'. reflexivity.
Qed.


Lemma try_reraise {A} (m : Py.result A) :
  Py.try_except m (fun e => Py.Raise e) = m.
Proof. destruct m; reflexivity. Qed.

Lemma enumerate_fst {A} (start : nat) (l : list A) :
  map fst (Py.enumerate start l) = seq start (List.length l).
Proof.
  unfold Py.enumerate. revert start.
  induction l as [| x l IH]; intros start; [reflexivity|].
  cbn [List.length seq combine map fst]. f_equal. apply IH.
Qed.

Lemma mapM_Forall2 {A B} (f : A -> Py.result B) (l : list A) :
  forall bs, Py.mapM f l = Py.Ok bs ->
             Forall2 (fun a b => f a = Py.Ok b) l bs.
Proof.
  induction l as [| a l IH]; intros bs H; cbn in H.
  - injection H as <-. constructor.
  - destruct (f a) as [b | e] eqn:Ea; cbn in H; [|discriminate H].
    destruct (Py.mapM f l) as [bs' | e]; cbn in H; [|discriminate H].
    injection H as <-. constructor; [exact Ea | apply IH; reflexivity].
Qed.

Lemma Forall2_nth {A B} (R : A -> B -> Prop) (l : list A) (bs : list B) :
  Forall2 R l bs ->
  forall i b, nth_error bs i = Some b ->
              exists a, nth_error l i = Some a /\ R a b.
Proof.
  induction 1 as [| a b l bs Hab _ IH]; intros i c Hc.
  - destruct i; discriminate Hc.
  - destruct i as [| i]; cbn in *.
    + injection Hc as <-. exists a. split; [reflexivity | exact Hab].
    + apply IH. exact Hc.
Qed.


(** [Path(p).suffix] on some paths, as [pathlib] gives it. *)
Lemma path_suffix_examples :
  Py.path_suffix "scans/Q3.PDF" = ".PDF"%string
  /\ Py.path_suffix "x.pdf/" = ".pdf"%string
  /\ Py.path_suffix "a/./b.docx/." = ".docx"%string
  /\ Py.path_suffix "a.b.c" = ".c"%string
  /\ Py.path_suffix ".hidden" = EmptyString
  /\ Py.path_suffix "x." = EmptyString
  /\ Py.path_suffix "a/.." = EmptyString
  /\ Py.path_suffix "/" = EmptyString.
Proof. repeat split. Qed.

End PyFacts.

(* ================================================================== *)
(** * Confidence scorer: properties *)
(* ================================================================== *)

Module ConfidenceScorerFacts.
Import Retrieval ConfidenceScorer Samples.

Lemma texts_present (rs : list chunk) :
  Forall Spec.has_text rs ->
  Py.mapM (fun r => Py.getitem "text" (text r)) rs = Py.Ok (Spec.texts_of rs).
Proof.
  induction 1 as [| r rs Hr _ IH]; simpl; [reflexivity|].
  unfold Spec.has_text in Hr. destruct (text r) as [t|]; [|congruence].
  simpl. unfold Spec.texts_of in IH. rewrite IH. reflexivity.
Qed.

Lemma text_missing (rs : list chunk) :
  Exists (fun r => text r = None) rs ->
  Py.mapM (fun r => Py.getitem "text" (text r)) rs
  = Py.Raise (Py.KeyError "text").
Proof.
  induction 1 as [r rs Hr | r rs _ IH]; simpl.
  - rewrite Hr. reflexivity.
  - destruct (text r); simpl; [rewrite IH|]; reflexivity.
Qed.

Lemma Qsum_total (xs : list Q) : (Qsum xs == Spec.total xs)%Q.
Proof.
  induction xs as [| x xs IH]; simpl; [reflexivity|].
  unfold Qsum in IH. rewrite IH. reflexivity.
Qed.

(** The default 0.0 of [r.get("score", 0.0)] is the number 0. *)
Lemma Qsum_scores (rs : list chunk) :
  (Qsum (map (fun r => Py.get (score r) 0.0%Q) rs)
   == Spec.total (map Spec.similarity rs))%Q.
Proof.
  induction rs as [| r rs IH]; simpl; [reflexivity|].
  unfold Qsum in IH. rewrite IH.
  unfold Spec.similarity, Py.get. destruct (score r); [reflexivity|].
  apply Qplus_comp; reflexivity.
Qed.

Lemma above_agrees (r : chunk) :
  negb (Qle_bool (Py.get (score r) 0.0%Q) 0.7)
  = Spec.above_threshold (Spec.similarity r).
Proof.
  unfold Spec.above_threshold, Spec.similarity, Py.get.
  destruct (score r) as [s|].
  - destruct (Qlt_le_dec (7 # 10) s) as [H | H].
    + apply negb_true_iff. destruct (Qle_bool s 0.7) eqn:E; [|reflexivity].
      apply Qle_bool_iff in E. lra.
    + apply negb_false_iff. apply Qle_bool_iff. lra.
  - reflexivity.
Qed.

Lemma count_high (rs : list chunk) :
  list_sum (map (fun _ => 1%nat)
                (filter (fun s => negb (Qle_bool s 0.7))
                        (map (fun r => Py.get (score r) 0.0%Q) rs)))
  = List.length (filter Spec.above_threshold (map Spec.similarity rs)).
Proof.
  induction rs as [| r rs IH]; simpl; [reflexivity|].
  rewrite <- above_agrees.
  destruct (negb (Qle_bool (Py.get (score r) 0.0%Q) 0.7)); simpl;
    rewrite IH; reflexivity.
Qed.

Lemma mean_agrees (rs : list chunk) :
  (match map (fun r => Py.get (score r) 0.0%Q) rs with
   | [] => 0.0
   | _ :: _ => np_mean (map (fun r => Py.get (score r) 0.0%Q) rs)
   end == Spec.mean (map Spec.similarity rs))%Q.
Proof.
  destruct rs as [| r rs]; [reflexivity|].
  pose proof (Qsum_scores (r :: rs)) as E.
  cbn [map Spec.mean] in *. unfold np_mean, Spec.size.
  rewrite E. cbn [List.length]. rewrite !length_map. reflexivity.
Qed.

Lemma coverage_agrees (rs : list chunk) :
  (inject_Z (Z.of_nat
     (list_sum (map (fun _ => 1%nat)
        (filter (fun s => negb (Qle_bool s 0.7))
                (map (fun r => Py.get (score r) 0.0%Q) rs)))))
   / inject_Z (Z.max (Z.of_nat
       (List.length (map (fun r => Py.get (score r) 0.0%Q) rs))) 1)
   == Spec.fraction_above (map Spec.similarity rs))%Q.
Proof.
  rewrite count_high.
  destruct rs as [| r rs]; [reflexivity|].
  cbn [map Spec.fraction_above]. unfold Spec.size.
  cbn [List.length]. rewrite !length_map.
  replace (Z.max (Z.of_nat (S (List.length rs))) 1)
    with (Z.of_nat (S (List.length rs))) by lia.
  reflexivity.
Qed.


(** How a reply that parsed as a number is clamped: a finite value below 0
    gives 0.0, above 1 gives 1.0, the infinities give 1.0 and 0.0. *)
Lemma clamp_reply_number (x : Py.float) :
  x <> Py.NaN ->
  clamp_reply (Parsed x)
  = match x with
    | Py.Fin q => if Qlt_le_dec q 0 then Py.Fin 0.0
                  else if Qlt_le_dec 1 q then Py.Fin 1.0 else Py.Fin q
    | Py.PInf => Py.Fin 1.0
    | Py.NInf => Py.Fin 0.0
    | Py.NaN => Py.NaN
    end.
Proof.
  intros Hx. destruct x as [q | | |]; simpl clamp_reply.
  - apply PyFacts.clamp_Fin.
  - reflexivity.
  - reflexivity.
  - congruence.
Qed.

(** Every reply except one that parses to NaN gives a sub-score in
    [0,1]. *)
Lemma clamp_reply_in_unit (r : grading_reply) :
  r <> Parsed Py.NaN -> Py.in_unit (clamp_reply r).
Proof.
  intros Hr. destruct r as [e | | x].
  - simpl. lra.
  - simpl. lra.
  - rewrite clamp_reply_number by congruence.
    destruct x as [q | | |]; simpl.
    + destruct (Qlt_le_dec q 0); [simpl; lra|].
      destruct (Qlt_le_dec 1 q); simpl; lra.
    + lra.
    + lra.
    + congruence.
Qed.

(** ** Double precision *)

Lemma fl_zero : Binary64.fl 0.0 = Py.Fin 0.
Proof. vm_compute. reflexivity. Qed.

(** The doubles the literals of the scorer and of the job denote. *)
Lemma literals :
  Binary64.fl 0.7 = Py.Fin Spec.double_0_7
  /\ Binary64.fl 0.25 = Binary64.fl (1 # 4)
  /\ Binary64.fl 0.15 = Binary64.fl (3 # 20)
  /\ Binary64.fl 0.35 = Binary64.fl (7 # 20)
  /\ Binary64.fl 0.5 = Binary64.fl (1 # 2)
  /\ Binary64.fl 0.8 = Binary64.fl (4 # 5).
Proof. vm_compute. repeat split. Qed.

(** [Binary64.fl] on some decimals, as the fractions [float.as_integer_ratio]
    gives for them. *)
Lemma known_doubles :
  Binary64.fl 0.1 = Py.Fin (3602879701896397 # 36028797018963968)
  /\ Binary64.fl 0.7 = Py.Fin (3152519739159347 # 4503599627370496)
  /\ Binary64.fl 0.497 = Py.Fin (4476578029606273 # 9007199254740992)
  /\ Binary64.fl (1 # 3) = Py.Fin (6004799503160661 # 18014398509481984)
  /\ Binary64.fl (1 # 2) = Py.Fin (1 # 2)
  /\ Binary64.fl (Binary64.pow2 1024) = Py.PInf
  /\ Binary64.fl (Binary64.pow2 (-1080)) = Py.Fin 0.
Proof. vm_compute. repeat split. Qed.

(** Ties go to the even significand, and to the even decimal digit:
    [float(2**53 + 1)] is [2**53], [float(2**53 + 3)] is [2**53 + 4],
    [round(0.125, 2)] is 0.12 and [round(0.375, 2)] is 0.38. *)
Lemma ties_to_even :
  Binary64.fl (inject_Z (2 ^ 53 + 1)) = Py.Fin (inject_Z (2 ^ 53))
  /\ Binary64.fl (inject_Z (2 ^ 53 + 3)) = Py.Fin (inject_Z (2 ^ 53 + 4))
  /\ Binary64.round (Py.Fin (1 # 8)) 2 = Binary64.fl 0.12
  /\ Binary64.round (Py.Fin (3 # 8)) 2 = Binary64.fl 0.38.
Proof. vm_compute. repeat split. Qed.

Lemma over_agrees (s : Q) :
  Py.gt (Py.Fin s) (Binary64.fl 0.7)
  = if Qlt_le_dec Spec.double_0_7 s then true else false.
Proof.
  rewrite (proj1 literals). cbn [Py.gt].
  destruct (Qlt_le_dec Spec.double_0_7 s) as [H | H].
  - apply negb_true_iff.
    destruct (Qle_bool s Spec.double_0_7) eqn:E; [|reflexivity].
    apply Qle_bool_iff in E. lra.
  - apply negb_false_iff. apply Qle_bool_iff. exact H.
Qed.

Lemma count_over (xs : list Q) :
  list_sum (map (fun _ => 1%nat)
                (filter (fun s => Py.gt (Py.Fin s) (Binary64.fl 0.7)) xs))
  = List.length
      (filter (fun x => if Qlt_le_dec Spec.double_0_7 x then true
                        else false) xs).
Proof.
  rewrite (filter_ext _ _ over_agrees).
  generalize (filter (fun x => if Qlt_le_dec Spec.double_0_7 x then true
                               else false) xs).
  intros l. induction l as [| x l IH]; [reflexivity|].
  unfold list_sum in *. cbn [map fold_right List.length].
  rewrite IH. reflexivity.
Qed.

(** The coverage before it is rounded to decimals: the quotient of the two
    counts, rounded to a double. *)
Lemma coverage64 (xs : list Q) :
  Binary64.int_div
    (Z.of_nat
       (list_sum (map (fun _ => 1%nat)
          (filter (fun s => Py.gt (Py.Fin s) (Binary64.fl 0.7)) xs))))
    (Z.max (Z.of_nat (List.length xs)) 1)
  = Binary64.fl (Spec.fraction_over Spec.double_0_7 xs).
Proof.
  rewrite count_over. unfold Binary64.int_div.
  destruct xs as [| x xs]; [reflexivity|].
  cbn [Spec.fraction_over]. unfold Spec.size.
  replace (Z.max (Z.of_nat (List.length (x :: xs))) 1)
    with (Z.of_nat (List.length (x :: xs)))
    by (cbn [List.length]; lia).
  reflexivity.
Qed.

(** What the body of the scorer returns, in double precision, when every
    result has a text. *)
Lemma body64
    (np_mean : list Q -> Py.float)
    (chat : string -> list (string * string) -> grading_reply)
    (rs : list chunk) (answer question key : string) :
  Forall Spec.has_text rs ->
  let xs := Spec.scores rs in
  let mean := match xs with [] => Py.Fin 0 | _ :: _ => np_mean xs end in
  let fraction := Binary64.fl (Spec.fraction_over Spec.double_0_7 xs) in
  let f := _check_faithfulness chat answer (Spec.texts_of rs) key in
  let r := _check_relevancy chat answer question key in
  ConfidenceScorer64.calculate_confidence_body np_mean chat rs answer
                                               question key
  = Py.Ok {| overall := Binary64.round (Spec.weighted64 mean fraction f r) 3;
             retrieval := Binary64.round mean 3;
             coverage := Binary64.round fraction 3;
             faithfulness := Binary64.round f 3;
             relevancy := Binary64.round r 3 |}.
Proof.
  intros Htext xs mean fraction f r.
  unfold ConfidenceScorer64.calculate_confidence_body.
  rewrite (texts_present rs Htext). cbn [Py.bind].
  change (map (fun r => Py.get (score r) 0.0%Q) rs) with xs.
  rewrite coverage64. fold fraction.
  fold f. fold r.
  assert (M : match xs with
              | [] => Binary64.fl 0.0
              | _ :: _ => np_mean xs
              end = mean).
  { subst mean. destruct xs; [apply fl_zero | reflexivity]. }
  rewrite M. unfold Spec.weighted64.
  destruct literals as (_ & -> & -> & -> & _). reflexivity.
Qed.

(** C1, as amended.  When every retrieval result carries a text, the
    scorer returns, in double precision: retrieval, numpy's mean of the
    scores (0 for an empty list) rounded to 3 decimals; coverage, the
    fraction of scores above the double 0.7 (0 for an empty list) rounded
    to 3 decimals; faithfulness and relevancy, the graded values rounded
    to 3 decimals; and overall, the weighted sum of the unrounded
    sub-scores, every product and sum rounded to a double, rounded to 3
    decimals.  The answering job does not use the scorer: its overall and
    retrieval are both the unrounded mean (0.5 for an empty list), its
    faithfulness and relevancy are 0.8, and these are the scores it
    persists. *)
Theorem calculate_confidence_scores
    (np_mean : list Q -> Py.float)
    (chat : string -> list (string * string) -> grading_reply)
    (rs : list chunk) (answer question key : string) :
  Forall Spec.has_text rs ->
  let xs := Spec.scores rs in
  let mean := match xs with [] => Py.Fin 0 | _ :: _ => np_mean xs end in
  let fraction := Binary64.fl (Spec.fraction_over Spec.double_0_7 xs) in
  let f := _check_faithfulness chat answer (Spec.texts_of rs) key in
  let r := _check_relevancy chat answer question key in
  (exists m,
      ConfidenceScorer64.calculate_confidence np_mean chat rs answer
                                              question key = Py.Ok m
      /\ retrieval m = Binary64.round mean 3
      /\ coverage m = Binary64.round fraction 3
      /\ faithfulness m = Binary64.round f 3
      /\ relevancy m = Binary64.round r 3
      /\ overall m = Binary64.round (Spec.weighted64 mean fraction f r) 3)
  /\ (let c := Tasks64.task_confidence np_mean rs in
      let job_mean :=
        match xs with
        | [] => Binary64.fl (1 # 2)
        | _ :: _ => np_mean xs
        end in
      Tasks64.overall c = job_mean
      /\ Tasks64.retrieval c = job_mean
      /\ Tasks64.faithfulness c = Binary64.fl (4 # 5)
      /\ Tasks64.relevancy c = Binary64.fl (4 # 5)
      /\ Tasks64.confidence_score (Tasks64.task_persisted np_mean rs)
         = job_mean
      /\ Tasks64.retrieval_score (Tasks64.task_persisted np_mean rs)
         = job_mean
      /\ Tasks64.faithfulness_score (Tasks64.task_persisted np_mean rs)
         = Binary64.fl (4 # 5)).
Proof.
  intros Htext xs mean fraction f r. split.
  - unfold ConfidenceScorer64.calculate_confidence.
    rewrite (body64 np_mean chat rs answer question key Htext).
    cbn [Py.try_except]. eexists. split; [reflexivity|].
    cbn [retrieval coverage faithfulness relevancy overall].
    repeat split.
  - cbn zeta. unfold Tasks64.task_persisted, Tasks64.task_confidence.
    cbn [Tasks64.overall Tasks64.retrieval Tasks64.faithfulness
         Tasks64.relevancy Tasks64.confidence_score
         Tasks64.retrieval_score Tasks64.faithfulness_score].
    change (map (fun r => Py.get (score r) 0.0%Q) rs) with xs.
    destruct literals as (_ & _ & _ & _ & E5 & E8).
    rewrite E8.
    assert (J : match xs with
                | [] => Binary64.fl 0.5
                | _ :: _ => np_mean xs
                end
                = match xs with
                  | [] => Binary64.fl (1 # 2)
                  | _ :: _ => np_mean xs
                  end)
      by (destruct xs; [exact E5 | reflexivity]).
    rewrite J. repeat split.
Qed.

Lemma calculate_confidence_scores_witness :
  (exists m,
      ConfidenceScorer64.calculate_confidence
        sequential_mean (two_replies 0.85 0.8) [] "a" "q" "k" = Py.Ok m
      /\ overall m = Binary64.fl 0.497)
  /\ (exists m,
        ConfidenceScorer64.calculate_confidence
          sequential_mean (grader (Py.Fin 1)) [sample 0.8; sample 0.6]
          "a" "q" "k" = Py.Ok m
        /\ retrieval m = Binary64.fl 0.7
        /\ coverage m = Binary64.fl 0.5).
Proof.
  split.
  - destruct (calculate_confidence_scores sequential_mean
                (two_replies 0.85 0.8) [] "a" "q" "k" (Forall_nil _))
      as [[m (Hm & _ & _ & _ & _ & Ho)] _].
    exists m. split; [exact Hm|]. rewrite Ho. vm_compute. reflexivity.
  - assert (H : Forall Spec.has_text [sample 0.8; sample 0.6])
      by (repeat constructor; discriminate).
    destruct (calculate_confidence_scores sequential_mean
                (grader (Py.Fin 1)) [sample 0.8; sample 0.6] "a" "q" "k" H)
      as [[m (Hm & Hr & Hc & _)] _].
    exists m. split; [exact Hm|]. split.
    + rewrite Hr. vm_compute. reflexivity.
    + rewrite Hc. vm_compute. reflexivity.
Defined.

(** At a 3-decimal tie the last bit decides.  With no result and replies
    0.85 and 0.8 the weighted sum over the rationals is 0.4975 and rounds
    to 0.498; the sum of the rounded products lies below 0.4975, and the
    scorer returns 0.497. *)
Lemma double_precision_decides_ties :
  (exists m,
      calculate_confidence (two_replies 0.85 0.8) [] "a" "q" "k" = Py.Ok m
      /\ overall m = Py.Fin (498 # 1000))
  /\ (exists m,
        ConfidenceScorer64.calculate_confidence
          sequential_mean (two_replies 0.85 0.8) [] "a" "q" "k" = Py.Ok m
        /\ overall m = Binary64.fl 0.497).
Proof.
  split; eexists; (split; [reflexivity|]); vm_compute; reflexivity.
Qed.

(** C1, as stated, fails.  With no retrieval result the job persists a
    retrieval score of 0.5 where the scorer returns 0.0; and with scores
    0.8, 0.8, 0.1 the scorer's coverage is 0.667, not the fraction 2/3. *)
Lemma job_confidence_differs_from_scorer :
  (exists m,
      calculate_confidence (grader (Py.Fin 1)) [] "a" "q" "k" = Py.Ok m
      /\ retrieval m = Py.Fin (0 # 1000))
  /\ Tasks.retrieval_score (Tasks.task_persisted []) = 0.5%Q
  /\ ~ (0.5 == 0 # 1000)%Q
  /\ (exists m,
        calculate_confidence (grader (Py.Fin 1))
                             [sample 0.8; sample 0.8; sample 0.1]
                             "a" "q" "k" = Py.Ok m
        /\ coverage m = Py.Fin (667 # 1000))
  /\ (Spec.fraction_above [0.8; 0.8; 0.1] == 2 # 3)%Q
  /\ ~ (667 # 1000 == 2 # 3)%Q.
Proof.
  split; [eexists; split; reflexivity|].
  split; [reflexivity|].
  split; [intros H; discriminate H|].
  split; [eexists; split; reflexivity|].
  split; [reflexivity|].
  intros H; discriminate H.
Qed.

Lemma text_present_or_missing (rs : list chunk) :
  Forall Spec.has_text rs \/ Exists (fun r => text r = None) rs.
Proof.
  induction rs as [| r rs [IH | IH]].
  - left. constructor.
  - destruct (text r) as [t|] eqn:E.
    + left. constructor; [unfold Spec.has_text; congruence | exact IH].
    + right. constructor. exact E.
  - right. apply Exists_cons_tl. exact IH.
Qed.

(** The body of [calculate_confidence] raises exactly when some retrieval
    result has no text (the grading calls catch their own failures). *)
Lemma calculate_confidence_body_raises
    (chat : string -> list (string * string) -> grading_reply)
    (rs : list chunk) (answer question key : string) :
  (exists e,
      calculate_confidence_body chat rs answer question key = Py.Raise e)
  <-> Exists (fun r => text r = None) rs.
Proof.
  unfold calculate_confidence_body. split.
  - intros [e He].
    destruct (text_present_or_missing rs) as [H | H]; [|exact H].
    rewrite (texts_present rs H) in He. discriminate He.
  - intros H. rewrite (text_missing rs H). eexists. reflexivity.
Qed.






(** C9 fails on the code for one reply.  A grading reply of "nan" parses
    as a float; [max] and [min] keep a NaN first argument, so both checks
    return NaN, which is not in [0,1]. *)
Theorem nan_reply_is_not_clamped :
  _check_faithfulness (grader Py.NaN) "answer" ["context"%string] "key"
  = Py.NaN
  /\ _check_relevancy (grader Py.NaN) "answer" "question" "key" = Py.NaN
  /\ ~ Py.in_unit Py.NaN.
Proof.
  split; [reflexivity|]. split; [reflexivity|]. intros H; exact H.
Qed.

End ConfidenceScorerFacts.

(* ================================================================== *)
(** * Document processor: properties *)
(* ================================================================== *)

Module DocumentProcessorFacts.
Import DocumentProcessor Samples.

Section Processor.

Variable split_text : string -> list string.
Variable sha256_hexdigest : string -> string.
Variable fitz_open : string -> Py.result (list pdf_page).
Variable docx_paragraphs : string -> Py.result (list string).
Variable read_file : string -> Py.result string.

Let make := make_chunk sha256_hexdigest.

Lemma make_chunk_span source split idx page :
  Spec.span_ok (make source split idx page).
Proof.
  unfold Spec.span_ok, make, make_chunk. cbn.
  destruct (0 <=? Py.find source split) eqn:E.
  - apply Z.leb_le in E. lia.
  - apply Z.leb_gt in E. lia.
Qed.

Lemma make_chunk_not_found source split idx page :
  Py.find source split < 0 ->
  char_offset_start (make source split idx page) = 0
  /\ char_offset_end (make source split idx page) = Py.len split.
Proof.
  intros H. unfold make, make_chunk. cbn.
  destruct (0 <=? Py.find source split) eqn:E.
  - apply Z.leb_le in E. lia.
  - split; [lia | reflexivity].
Qed.

(** ** The PDF path *)

Lemma pdf_split_step_inv (P : chunk -> Prop) page_text page_num st split :
  (forall source s idx page, P (make source s idx page)) ->
  Spec.pdf_inv P st ->
  Spec.pdf_inv P (pdf_split_step sha256_hexdigest page_text page_num st split).
Proof.
  intros HP. unfold Spec.pdf_inv. destruct st as [processed n].
  cbn [fst snd]. intros [Hidx Hall].
  unfold pdf_split_step. destruct (blank split); [split; assumption|].
  cbn [fst snd]. split.
  - rewrite map_app, Hidx, seq_S. reflexivity.
  - apply Forall_app. split; [assumption|]. constructor; [apply HP|constructor].
Qed.

Lemma pdf_splits_inv (P : chunk -> Prop) page_text page_num splits :
  (forall source s idx page, P (make source s idx page)) ->
  forall st, Spec.pdf_inv P st ->
  Spec.pdf_inv P (fold_left (pdf_split_step sha256_hexdigest page_text page_num)
                       splits st).
Proof.
  intros HP. induction splits as [| s splits IH]; intros st Hst;
    [exact Hst|].
  cbn [fold_left]. apply IH. apply pdf_split_step_inv; assumption.
Qed.

Lemma pdf_page_step_inv (P : chunk -> Prop) st numbered :
  (forall source s idx page, P (make source s idx page)) ->
  Spec.pdf_inv P st ->
  Spec.pdf_inv P (pdf_page_step split_text sha256_hexdigest st numbered).
Proof.
  intros HP Hst. destruct numbered as [page_num page].
  unfold pdf_page_step.
  destruct (blank (if blank (get_text page) then _ocr_page page
                   else get_text page)); [exact Hst|].
  apply pdf_splits_inv; assumption.
Qed.

Lemma pdf_pages_inv (P : chunk -> Prop) pages :
  (forall source s idx page, P (make source s idx page)) ->
  forall st, Spec.pdf_inv P st ->
  Spec.pdf_inv P (fold_left (pdf_page_step split_text sha256_hexdigest)
                       pages st).
Proof.
  intros HP. induction pages as [| p pages IH]; intros st Hst;
    [exact Hst|].
  cbn [fold_left]. apply IH. apply pdf_page_step_inv; assumption.
Qed.

Lemma pdf_chunks_inv (P : chunk -> Prop) doc :
  (forall source s idx page, P (make source s idx page)) ->
  exists n,
    map chunk_index (pdf_chunks split_text sha256_hexdigest doc) = seq 0 n
    /\ Forall P (pdf_chunks split_text sha256_hexdigest doc).
Proof.
  intros HP. unfold pdf_chunks.
  destruct (pdf_pages_inv P (Py.enumerate 0 doc) HP ([], O)) as [H1 H2].
  - split; [reflexivity | constructor].
  - eexists. split; [exact H1 | exact H2].
Qed.

(** On the PDF path the ordinals are exactly 0, ..., n-1 in order, for
    any splitter. *)
Lemma pdf_indices_dense doc :
  map chunk_index (pdf_chunks split_text sha256_hexdigest doc)
  = seq 0 (List.length (pdf_chunks split_text sha256_hexdigest doc)).
Proof.
  destruct (pdf_chunks_inv (fun _ => True) doc) as [n [Hn _]];
    [trivial|].
  rewrite Hn. f_equal.
  rewrite <- (length_map chunk_index), Hn, length_seq. reflexivity.
Qed.

(** ** The DOCX and plain-text paths *)

Lemma text_fold full_text numbered_splits acc :
  fold_left (text_split_step sha256_hexdigest full_text)
            numbered_splits acc
  = acc ++ map (fun p => make full_text (snd p) (fst p) None)
               (filter Spec.kept numbered_splits).
Proof.
  revert acc. induction numbered_splits as [| [idx s] l IH]; intros acc.
  - cbn. rewrite app_nil_r. reflexivity.
  - cbn [fold_left filter]. rewrite IH. unfold text_split_step, Spec.kept.
    cbn [snd fst]. destruct (blank s); cbn [negb map].
    + reflexivity.
    + rewrite <- app_assoc. reflexivity.
Qed.

Lemma text_chunks_indices full_text :
  map chunk_index (text_chunks split_text sha256_hexdigest full_text)
  = map fst (filter Spec.kept (Py.enumerate 0 (split_text full_text))).
Proof.
  unfold text_chunks. rewrite text_fold, app_nil_l.
  rewrite map_map. reflexivity.
Qed.

Lemma text_chunks_all (P : chunk -> Prop) full_text :
  (forall source s idx page, P (make source s idx page)) ->
  Forall P (text_chunks split_text sha256_hexdigest full_text).
Proof.
  intros HP. unfold text_chunks. rewrite text_fold, app_nil_l.
  apply Forall_forall. intros c Hc. apply in_map_iff in Hc.
  destruct Hc as [p [<- _]]. apply HP.
Qed.

Lemma filter_kept_all (start : nat) (splits : list string) :
  Forall (fun s => blank s = false) splits ->
  filter Spec.kept (Py.enumerate start splits) = Py.enumerate start splits.
Proof.
  unfold Py.enumerate. revert start.
  induction splits as [| s splits IH]; intros start H; [reflexivity|].
  inversion H as [| ? ? Hs Hrest]; subst.
  cbn [List.length seq combine filter]. unfold Spec.kept at 1. cbn [snd].
  rewrite Hs. cbn [negb]. f_equal. apply IH. exact Hrest.
Qed.

(** On the DOCX and plain-text paths the ordinals are 0, ..., n-1 as
    long as the splitter returns no whitespace-only piece. *)
Lemma text_indices_dense full_text :
  Forall (fun s => blank s = false) (split_text full_text) ->
  map chunk_index (text_chunks split_text sha256_hexdigest full_text)
  = seq 0 (List.length
             (text_chunks split_text sha256_hexdigest full_text)).
Proof.
  intros H.
  assert (E : map chunk_index
                (text_chunks split_text sha256_hexdigest full_text)
              = seq 0 (List.length (split_text full_text))).
  { rewrite text_chunks_indices, filter_kept_all by exact H.
    apply PyFacts.enumerate_fst. }
  rewrite E. f_equal.
  rewrite <- (length_map chunk_index), E, length_seq. reflexivity.
Qed.

(** ** Every path *)

Lemma parse_pdf_all (P : chunk -> Prop) file_path cs :
  (forall source s idx page, P (make source s idx page)) ->
  _parse_pdf split_text sha256_hexdigest fitz_open file_path = Py.Ok cs ->
  Forall P cs.
Proof.
  intros HP. unfold _parse_pdf.
  destruct (fitz_open file_path) as [doc | e]; cbn; intros H;
    [|discriminate H].
  injection H as <-.
  destruct (pdf_chunks_inv P doc HP) as [n [_ Hall]]. exact Hall.
Qed.

Lemma parse_docx_all (P : chunk -> Prop) file_path cs :
  (forall source s idx page, P (make source s idx page)) ->
  _parse_docx split_text sha256_hexdigest docx_paragraphs file_path
  = Py.Ok cs ->
  Forall P cs.
Proof.
  intros HP. unfold _parse_docx.
  destruct (docx_paragraphs file_path) as [ps | e]; cbn; intros H;
    [|discriminate H].
  injection H as <-. apply text_chunks_all. exact HP.
Qed.

Lemma parse_text_all (P : chunk -> Prop) file_path cs :
  (forall source s idx page, P (make source s idx page)) ->
  _parse_text split_text sha256_hexdigest read_file file_path
  = Py.Ok cs ->
  Forall P cs.
Proof.
  intros HP. unfold _parse_text.
  destruct (read_file file_path) as [t | e]; cbn; intros H;
    [|discriminate H].
  injection H as <-. apply text_chunks_all. exact HP.
Qed.

Lemma parse_document_all (P : chunk -> Prop) file_path cs :
  (forall source s idx page, P (make source s idx page)) ->
  parse_document split_text sha256_hexdigest fitz_open docx_paragraphs
                 read_file file_path = Py.Ok cs ->
  Forall P cs.
Proof.
  intros HP. unfold parse_document. rewrite PyFacts.try_reraise.
  destruct (_ =? ".pdf")%string; [apply parse_pdf_all; exact HP|].
  destruct (existsb _ [".docx"; ".doc"]%string);
    [apply parse_docx_all; exact HP|].
  destruct (existsb _ [".txt"]%string);
    [apply parse_text_all; exact HP|].
  intros H. injection H as <-. constructor.
Qed.

(** C8.  Whatever the splitter and the libraries return, every chunk of
    a parsed document was built by [make_chunk], so its span starts at
    or after 0 and is as long as its text; and where [find] does not
    locate the text (a negative result) the span is [0, len(text)). *)
Theorem chunk_spans_match_text (file_path : string) (cs : list chunk) :
  parse_document split_text sha256_hexdigest fitz_open docx_paragraphs
                 read_file file_path = Py.Ok cs ->
  Forall Spec.span_ok cs
  /\ Forall (fun c => exists source idx page,
                 c = make_chunk sha256_hexdigest source (text c) idx page
                 /\ (Py.find source (text c) < 0 ->
                     char_offset_start c = 0
                     /\ char_offset_end c = Py.len (text c))) cs.
Proof.
  intros H. split.
  - apply (parse_document_all Spec.span_ok file_path cs); [|exact H].
    apply make_chunk_span.
  - apply (parse_document_all _ file_path cs); [|exact H].
    intros source s idx page. exists source, idx, page.
    split; [reflexivity|]. apply make_chunk_not_found.
Qed.

(** C3, as amended.  A file whose extension is none of .pdf, .docx,
    .doc, .txt (compared in lower case) gives an empty chunk list, not
    an error; and when the library that opens a recognized format
    raises, [parse_document] raises that same exception. *)
Theorem parse_document_outcomes (file_path : string) :
  let extension := Py.lower (Py.path_suffix file_path) in
  let parse :=
    parse_document split_text sha256_hexdigest fitz_open docx_paragraphs
                   read_file file_path in
  (~ In extension [".pdf"; ".docx"; ".doc"; ".txt"]%string ->
   parse = Py.Ok [])
  /\ (forall e, extension = ".pdf"%string ->
                fitz_open file_path = Py.Raise e -> parse = Py.Raise e)
  /\ (forall e, extension = ".docx"%string \/ extension = ".doc"%string ->
                docx_paragraphs file_path = Py.Raise e ->
                parse = Py.Raise e)
  /\ (forall e, extension = ".txt"%string ->
                read_file file_path = Py.Raise e -> parse = Py.Raise e).
Proof.
  intros extension parse. subst parse. unfold parse_document.
  rewrite PyFacts.try_reraise. fold extension.
  split; [|split; [|split]].
  - intros Hnot. cbn [In] in Hnot.
    destruct (extension =? ".pdf")%string eqn:E1;
      [apply String.eqb_eq in E1; exfalso; apply Hnot; rewrite E1; tauto|].
    cbn [existsb].
    destruct (extension =? ".docx")%string eqn:E2;
      [apply String.eqb_eq in E2; exfalso; apply Hnot; rewrite E2; tauto|].
    destruct (extension =? ".doc")%string eqn:E3;
      [apply String.eqb_eq in E3; exfalso; apply Hnot; rewrite E3; tauto|].
    destruct (extension =? ".txt")%string eqn:E4;
      [apply String.eqb_eq in E4; exfalso; apply Hnot; rewrite E4; tauto|].
    reflexivity.
  - intros e -> He. cbn. unfold _parse_pdf. rewrite He. reflexivity.
  - intros e [-> | ->] He; cbn; unfold _parse_docx; rewrite He;
      reflexivity.
  - intros e -> He. cbn. unfold _parse_text. rewrite He. reflexivity.
Qed.

Lemma dense_ordinals (cs : list chunk) :
  map chunk_index cs = seq 0 (List.length cs) ->
  NoDup (map chunk_index cs)
  /\ (forall i, In i (map chunk_index cs) <-> (i < List.length cs)%nat).
Proof.
  intros E. rewrite E. split; [apply seq_NoDup|].
  intros i. rewrite in_seq. lia.
Qed.

(** C2.  With a splitter that returns no whitespace-only piece, as the
    one the processor builds does, the ordinals of the chunks of a
    parsed document are 0, 1, ..., n-1 in order on every path: no
    ordinal is repeated, and the ordinals are exactly the numbers below
    the number of chunks. *)
Theorem chunk_ordinals_dense (file_path : string) (cs : list chunk) :
  Spec.strips_pieces split_text ->
  parse_document split_text sha256_hexdigest fitz_open docx_paragraphs
                 read_file file_path = Py.Ok cs ->
  map chunk_index cs = seq 0 (List.length cs)
  /\ NoDup (map chunk_index cs)
  /\ (forall i, In i (map chunk_index cs) <-> (i < List.length cs)%nat).
Proof.
  intros Hsplit H.
  assert (E : map chunk_index cs = seq 0 (List.length cs)).
  { revert H. unfold parse_document. rewrite PyFacts.try_reraise.
    destruct (_ =? ".pdf")%string.
    - unfold _parse_pdf.
      destruct (fitz_open file_path) as [doc | e]; cbn; intros H;
        [|discriminate H].
      injection H as <-. apply pdf_indices_dense.
    - destruct (existsb _ [".docx"; ".doc"]%string).
      + unfold _parse_docx.
        destruct (docx_paragraphs file_path) as [ps | e]; cbn; intros H;
          [|discriminate H].
        injection H as <-. apply text_indices_dense, Hsplit.
      + destruct (existsb _ [".txt"]%string).
        * unfold _parse_text.
          destruct (read_file file_path) as [t | e]; cbn; intros H;
            [|discriminate H].
          injection H as <-. apply text_indices_dense, Hsplit.
        * intros H. injection H as <-. reflexivity. }
  split; [exact E | apply dense_ordinals, E].
Qed.

End Processor.

Lemma chunk_spans_match_text_witness :
  parse_document three_pieces no_hash no_pdf two_paragraphs small_file
                 "notes.txt"
  = Py.Ok [make_chunk no_hash "a   b" "a" 0 None;
           make_chunk no_hash "a   b" "b" 2 None]
  /\ Forall Spec.span_ok [make_chunk no_hash "a   b" "a" 0 None;
                     make_chunk no_hash "a   b" "b" 2 None].
Proof.
  assert (E : parse_document three_pieces no_hash no_pdf two_paragraphs
                small_file "notes.txt"
              = Py.Ok [make_chunk no_hash "a   b" "a" 0 None;
                       make_chunk no_hash "a   b" "b" 2 None])
    by reflexivity.
  split; [exact E|].
  exact (proj1 (chunk_spans_match_text three_pieces no_hash no_pdf
                  two_paragraphs small_file "notes.txt" _ E)).
Defined.

Lemma parse_document_outcomes_witness :
  parse_document three_pieces no_hash no_pdf two_paragraphs small_file
                 "report.xlsx" = Py.Ok []
  /\ parse_document three_pieces no_hash no_pdf two_paragraphs small_file
                    "scans/Q3.PDF"
     = Py.Raise (Py.LibraryError "cannot open broken document").
Proof.
  split.
  - apply (proj1 (parse_document_outcomes three_pieces no_hash no_pdf
                    two_paragraphs small_file "report.xlsx")).
    vm_compute. intros H. repeat (destruct H as [H | H]; [discriminate H|]).
    exact H.
  - apply (proj1 (proj2 (parse_document_outcomes three_pieces no_hash
                           no_pdf two_paragraphs small_file
                           "scans/Q3.PDF"))); reflexivity.
Defined.

(** C3, as stated, fails: a spreadsheet is not a recognized format, and
    parsing it returns normally, with an empty list. *)
Lemma unsupported_extension_returns_empty :
  Py.lower (Py.path_suffix "report.xlsx") = ".xlsx"%string
  /\ parse_document three_pieces no_hash no_pdf two_paragraphs small_file
                    "report.xlsx" = Py.Ok []
  /\ (forall e : Py.exn,
        parse_document three_pieces no_hash no_pdf two_paragraphs
                       small_file "report.xlsx" <> Py.Raise e).
Proof.
  split; [reflexivity|]. split; [reflexivity|].
  intros e H. discriminate H.
Qed.

Lemma chunk_ordinals_dense_witness :
  exists cs,
    parse_document two_pieces no_hash no_pdf two_paragraphs small_file
                   "notes.txt" = Py.Ok cs
    /\ map chunk_index cs = [0; 1]%nat.
Proof.
  assert (S : Spec.strips_pieces two_pieces)
    by (intros t; repeat constructor).
  eexists. split; [reflexivity|].
  apply (proj1 (chunk_ordinals_dense two_pieces no_hash no_pdf
                  two_paragraphs small_file "notes.txt" _ S eq_refl)).
Defined.

(** Why the splitter matters.  A splitter that returned the pieces "a",
    " ", "b" would leave a gap on the DOCX and plain-text paths, where
    the whitespace-only piece is skipped but still counted by
    [enumerate]: the two chunks would get the ordinals 0 and 2.  The PDF
    path, which keeps its own counter, would number them 0 and 1. *)
Lemma blank_piece_would_leave_a_gap :
  (exists cs,
      parse_document three_pieces no_hash no_pdf two_paragraphs small_file
                     "notes.txt" = Py.Ok cs
      /\ map chunk_index cs = [0; 2]%nat)
  /\ (exists cs,
        parse_document three_pieces no_hash no_pdf two_paragraphs
                       small_file "notes.docx" = Py.Ok cs
        /\ map chunk_index cs = [0; 2]%nat)
  /\ map chunk_index
       (pdf_chunks three_pieces no_hash
          [{| get_text := "a   b"; image_to_string := Py.Ok EmptyString |}])
     = [0; 1]%nat.
Proof.
  split; [eexists; split; reflexivity|].
  split; [eexists; split; reflexivity|].
  reflexivity.
Qed.

End DocumentProcessorFacts.

(* ================================================================== *)
(** * Vector store: properties *)
(* ================================================================== *)

Module VectorStoreFacts.
Import Retrieval VectorStore Samples.






End VectorStoreFacts.

(* ================================================================== *)
(** * Citations: properties *)
(* ================================================================== *)

Module CitationFacts.
Import Retrieval AnswerGenerator Samples.

Lemma prefix_app (sub s : string) :
  String.prefix sub s = true <-> exists rest, s = (sub ++ rest)%string.
Proof.
  revert s. induction sub as [| a sub IH]; intros s.
  - destruct s; cbn; (split; [intros _; eexists; reflexivity | reflexivity]).
  - destruct s as [| b s]; cbn.
    + split; [discriminate | intros [rest H]; discriminate H].
    + destruct (ascii_dec a b) as [<- | Hab].
      * rewrite IH. split; intros [rest H]; exists rest.
        -- rewrite H. reflexivity.
        -- injection H as H. exact H.
      * split; [discriminate|]. intros [rest H]. injection H as H1 _.
        congruence.
Qed.

(** [sub in s] holds exactly when [sub] occurs verbatim in [s]. *)
Lemma contains_occurs (sub s : string) :
  Py.contains sub s = true <-> Spec.occurs sub s.
Proof.
  unfold Spec.occurs. induction s as [| c s IH].
  - cbn [Py.contains]. rewrite orb_false_r, prefix_app. split.
    + intros [rest H]. exists EmptyString, rest. exact H.
    + intros [[| b before] [rest H]]; [exists rest; exact H|].
      discriminate H.
  - cbn [Py.contains]. rewrite orb_true_iff, prefix_app, IH. split.
    + intros [[rest H] | [before [rest H]]].
      * exists EmptyString, rest. exact H.
      * exists (String c before), rest. rewrite H. reflexivity.
    + intros [[| b before] [rest H]].
      * left. exists rest. exact H.
      * right. injection H as _ H. exists before, rest. exact H.
Qed.

(** The label the code builds is the literal label. *)
Lemma label_literal (idx : nat) : label idx = Spec.label idx.
Proof. reflexivity. Qed.

Lemma label_examples :
  Spec.label 1 = "[1]"%string /\ Spec.label 12 = "[12]"%string
  /\ Py.contains (Spec.label 2) "In year 1 net income was $5M [2]." = true
  /\ Py.contains (Spec.label 1) "In year 1 net income was $5M [2]." = false.
Proof. repeat split. Qed.

(** The excerpt the code cuts is the excerpt of the text. *)
Lemma excerpt_literal (t : string) : excerpt_of t = Spec.excerpt_text t.
Proof.
  unfold excerpt_of, Spec.excerpt_text, Py.take.
  rewrite Nat.ltb_antisym. destruct (String.length t <=? 200)%nat;
    reflexivity.
Qed.

(** The dict literal of the two loops is the citation of the context. *)
Lemma make_citation_literal (idx : nat) (ctx : chunk) (t : string) :
  text ctx = Some t ->
  make_citation idx ctx (Py.get (metadata_of ctx) no_metadata) t
  = Spec.citation_of idx ctx.
Proof.
  intros Ht. unfold make_citation, Spec.citation_of.
  rewrite Ht, excerpt_literal.
  destruct (metadata_of ctx); reflexivity.
Qed.

(** What the citation loop of the generator has collected when it ends
    without an exception; every context it cited has a text. *)
Lemma citation_fold (a : string) (numbered : list (nat * chunk)) :
  forall acc cits,
    Py.foldM (citation_step (Some a)) numbered acc = Py.Ok cits ->
    cits = acc ++ Spec.cited a numbered
    /\ Forall (fun p => Py.contains (Spec.label (fst p)) a = true ->
                        text (snd p) <> None) numbered.
Proof.
  induction numbered as [| [idx ctx] l IH]; intros acc cits H.
  - cbn in H. injection H as <-. unfold Spec.cited. cbn.
    rewrite app_nil_r. split; [reflexivity | constructor].
  - cbn [Py.foldM] in H. unfold citation_step at 1 in H.
    cbn [label_in Py.bind] in H. rewrite label_literal in H.
    unfold Spec.cited. cbn [filter fst snd].
    destruct (Py.contains (Spec.label idx) a) eqn:Ein.
    + destruct (metadata_of ctx) as [md|] eqn:Emd; cbn in H;
        [|discriminate H].
      destruct (text ctx) as [t|] eqn:Et; cbn in H; [|discriminate H].
      apply IH in H. destruct H as [H Hall]. split.
      * rewrite H, <- app_assoc. unfold Spec.cited.
        cbn [map fst snd]. rewrite <- (make_citation_literal idx ctx t Et).
        rewrite Emd. reflexivity.
      * constructor; [|exact Hall]. cbn [fst snd]. intros _.
        rewrite Et. discriminate.
    + cbn [Py.bind] in H. apply IH in H. destruct H as [H Hall].
      split; [exact H|]. constructor; [|exact Hall].
      cbn [fst snd]. rewrite Ein. discriminate.
Qed.

(** The same for the loop of the answering job. *)
Lemma task_citation_fold (a : string) (numbered : list (nat * chunk)) :
  forall acc cits,
    Py.foldM (Tasks.task_citation_step (Some a)) numbered acc
    = Py.Ok cits ->
    cits = acc ++ Spec.cited a numbered
    /\ Forall (fun p => Py.contains (Spec.label (fst p)) a = true ->
                        text (snd p) <> None) numbered.
Proof.
  induction numbered as [| [idx ctx] l IH]; intros acc cits H.
  - cbn in H. injection H as <-. unfold Spec.cited. cbn.
    rewrite app_nil_r. split; [reflexivity | constructor].
  - cbn [Py.foldM] in H. unfold Tasks.task_citation_step at 1 in H.
    cbn [label_in Py.bind] in H. rewrite label_literal in H.
    unfold Spec.cited. cbn [filter fst snd].
    destruct (Py.contains (Spec.label idx) a) eqn:Ein.
    + destruct (text ctx) as [t|] eqn:Et; cbn in H; [|discriminate H].
      apply IH in H. destruct H as [H Hall]. split.
      * rewrite H, <- app_assoc. unfold Spec.cited.
        cbn [map fst snd]. rewrite <- (make_citation_literal idx ctx t Et).
        reflexivity.
      * constructor; [|exact Hall]. cbn [fst snd]. intros _.
        rewrite Et. discriminate.
    + cbn [Py.bind] in H. apply IH in H. destruct H as [H Hall].
      split; [exact H|]. constructor; [|exact Hall].
      cbn [fst snd]. rewrite Ein. discriminate.
Qed.

Lemma cited_orders (a : string) (numbered : list (nat * chunk)) :
  map citation_order (Spec.cited a numbered)
  = filter (fun i => Py.contains (Spec.label i) a) (map fst numbered).
Proof.
  unfold Spec.cited. induction numbered as [| [idx ctx] l IH];
    [reflexivity|].
  cbn [filter map fst snd].
  destruct (Py.contains (Spec.label idx) a);
    cbn [map citation_order Spec.citation_of fst snd]; rewrite IH;
    reflexivity.
Qed.

Lemma enumerate_nth {A} (l : list A) :
  forall start i x,
    In (i, x) (Py.enumerate start l) ->
    (start <= i)%nat /\ nth_error l (i - start) = Some x.
Proof.
  unfold Py.enumerate.
  induction l as [| y l IH]; intros start i x H; [destruct H|].
  cbn [List.length seq combine] in H. destruct H as [H | H].
  - injection H as <- <-. rewrite Nat.sub_diag. split; [lia | reflexivity].
  - apply IH in H. destruct H as [Hle Hnth]. split; [lia|].
    replace (i - start)%nat with (S (i - S start)) by lia. exact Hnth.
Qed.

Lemma seq_sorted (n start : nat) : StronglySorted lt (seq start n).
Proof.
  revert start. induction n as [| n IH]; intros start; cbn;
    constructor; [apply IH|].
  apply Forall_forall. intros j Hj. apply in_seq in Hj. lia.
Qed.

Lemma filter_sorted (P : nat -> bool) (l : list nat) :
  StronglySorted lt l -> StronglySorted lt (filter P l).
Proof.
  induction 1 as [| x l Hl IH Hx]; cbn; [constructor|].
  destruct (P x); [|exact IH].
  constructor; [exact IH|].
  apply Forall_forall. intros j Hj. apply filter_In in Hj.
  rewrite Forall_forall in Hx. apply Hx. tauto.
Qed.

(** The properties of a citation list that is [Spec.cited] of the
    enumerated contexts. *)
Lemma cited_properties (a : string) (contexts : list chunk) :
  let cits := Spec.cited a (Py.enumerate 1 contexts) in
  (forall i, In i (map citation_order cits)
             <-> (1 <= i <= List.length contexts)%nat
                 /\ Spec.occurs (Spec.label i) a)
  /\ StronglySorted lt (map citation_order cits)
  /\ (forall c, In c cits ->
        exists ctx,
          nth_error contexts (citation_order c - 1) = Some ctx
          /\ c = Spec.citation_of (citation_order c) ctx)
  /\ (contexts = [] -> cits = []).
Proof.
  intros cits. subst cits. split; [|split; [|split]].
  - intros i. rewrite cited_orders, PyFacts.enumerate_fst, filter_In, in_seq.
    rewrite contains_occurs. split; intros [H1 H2]; (split; [lia|exact H2]).
  - rewrite cited_orders, PyFacts.enumerate_fst. apply filter_sorted, seq_sorted.
  - intros c Hc. unfold Spec.cited in Hc. apply in_map_iff in Hc.
    destruct Hc as [[idx ctx] [<- Hin]]. apply filter_In in Hin.
    destruct Hin as [Hin _]. apply enumerate_nth in Hin.
    cbn [fst snd citation_order Spec.citation_of].
    exists ctx. split; [tauto | reflexivity].
  - intros ->. reflexivity.
Qed.

Section Generator.

Variable chat :
  string -> string -> list (string * string) -> Py.result (option string).

Lemma generate_answer_citations question contexts key model a cits :
  generate_answer chat question contexts key model
  = Py.Ok (Some a, cits) ->
  cits = Spec.cited a (Py.enumerate 1 contexts).
Proof.
  unfold generate_answer.
  destruct (Py.foldM context_step (Py.enumerate 1 contexts) EmptyString)
    as [context_text | e]; cbn [Py.bind Py.try_except];
    [|discriminate].
  destruct (chat key model _) as [answer_text | e];
    cbn [Py.bind Py.try_except]; [|discriminate].
  destruct (Py.foldM (citation_step answer_text) _ [])
    as [used | e] eqn:E; cbn [Py.bind Py.try_except]; [|discriminate].
  intros H. injection H as -> ->.
  apply citation_fold in E. exact (proj1 E).
Qed.

Lemma context_fold_returns (numbered : list (nat * chunk)) :
  Forall (fun p => Spec.complete (snd p)) numbered ->
  forall acc, exists context_text,
    Py.foldM context_step numbered acc = Py.Ok context_text.
Proof.
  induction 1 as [| [idx ctx] l [Hmd Ht] _ IH]; intros acc.
  - exists acc. reflexivity.
  - cbn [Py.foldM]. unfold context_step at 1. cbn [snd] in *.
    destruct (metadata_of ctx) as [md|]; [|congruence].
    destruct (text ctx) as [t|]; [|congruence].
    cbn [Py.getitem Py.bind]. apply IH.
Qed.

Lemma citation_fold_returns (a : string) (numbered : list (nat * chunk)) :
  Forall (fun p => Spec.complete (snd p)) numbered ->
  forall acc, exists cits,
    Py.foldM (citation_step (Some a)) numbered acc = Py.Ok cits.
Proof.
  induction 1 as [| [idx ctx] l [Hmd Ht] _ IH]; intros acc.
  - exists acc. reflexivity.
  - cbn [Py.foldM]. unfold citation_step at 1. cbn [snd] in *.
    cbn [label_in Py.bind].
    destruct (Py.contains (label idx) a); cbn [Py.bind]; [|apply IH].
    destruct (metadata_of ctx) as [md|]; [|congruence].
    destruct (text ctx) as [t|]; [|congruence].
    cbn [Py.getitem Py.bind]. apply IH.
Qed.

Lemma enumerate_all {A} (P : A -> Prop) (l : list A) :
  Forall P l ->
  forall start, Forall (fun p => P (snd p)) (Py.enumerate start l).
Proof.
  unfold Py.enumerate.
  induction 1 as [| x l Hx _ IH]; intros start; cbn; constructor;
    [exact Hx | apply IH].
Qed.

(** When every context has its metadata and text and the model answers
    with a text, the generator returns that text with its citations. *)
Lemma generate_answer_returns question contexts key model :
  Forall Spec.complete contexts ->
  (forall messages, exists a, chat key model messages = Py.Ok (Some a)) ->
  exists a cits,
    generate_answer chat question contexts key model
    = Py.Ok (Some a, cits).
Proof.
  intros Hall Hchat. unfold generate_answer.
  destruct (context_fold_returns _ (enumerate_all _ _ Hall 1%nat)
                                 EmptyString) as [context_text ->].
  cbn [Py.bind].
  destruct (Hchat [("system", "You are a due diligence analyst.");
                   ("user", prompt_of question context_text)]%string)
    as [a ->].
  cbn [Py.bind].
  destruct (citation_fold_returns a _ (enumerate_all _ _ Hall 1%nat) [])
    as [cits ->].
  exists a, cits. reflexivity.
Qed.

(** C5.  For an answer text produced by the generator, and likewise in
    the answering job: an order [i] is among the citations exactly when
    [i] is the 1-based position of a supplied context and the literal
    label, an opening bracket, the decimal digits of [i] and a closing
    bracket, occurs verbatim in the answer; the orders are strictly
    increasing; each citation is the citation of the context at its
    order; and no context gives no citation. *)
Theorem citations_follow_labels
    (question : string) (contexts : list chunk) (key model : string)
    (a : string) (cits : list citation) :
  generate_answer chat question contexts key model = Py.Ok (Some a, cits)
  \/ Tasks.task_citations contexts (Some a) = Py.Ok cits ->
  (forall i, In i (map citation_order cits)
             <-> (1 <= i <= List.length contexts)%nat
                 /\ Spec.occurs (Spec.label i) a)
  /\ StronglySorted lt (map citation_order cits)
  /\ (forall c, In c cits ->
        exists ctx,
          nth_error contexts (citation_order c - 1) = Some ctx
          /\ c = Spec.citation_of (citation_order c) ctx)
  /\ (contexts = [] -> cits = []).
Proof.
  intros H.
  assert (E : cits = Spec.cited a (Py.enumerate 1 contexts)).
  { destruct H as [H | H].
    - apply generate_answer_citations in H. exact H.
    - unfold Tasks.task_citations in H.
      apply task_citation_fold in H. exact (proj1 H). }
  rewrite E. apply cited_properties.
Qed.

End Generator.

Lemma citations_follow_labels_witness :
  (exists cits,
      generate_answer loose_analyst "What was net income?"
        [context "Revenue grew 10%." 0.9; context "Net income was $5M." 0.8]
        "key" "gpt-4o"
      = Py.Ok (Some "In year 1 net income was $5M [2]."%string, cits)
      /\ map citation_order cits = [2%nat]
      /\ StronglySorted lt (map citation_order cits)
      /\ ~ Spec.occurs (Spec.label 1) "In year 1 net income was $5M [2].").
Proof.
  pose proof (citations_follow_labels loose_analyst
                "What was net income?"
                [context "Revenue grew 10%." 0.9;
                 context "Net income was $5M." 0.8]
                "key" "gpt-4o" "In year 1 net income was $5M [2]." _
                (or_introl eq_refl)) as (Hiff & Hsorted & _).
  eexists. split; [reflexivity|]. split; [reflexivity|].
  split; [exact Hsorted|].
  intros H.
  assert (Hin := proj2 (Hiff 1%nat)
                       (conj (conj (le_n 1) (le_S _ _ (le_n 1))) H)).
  cbn in Hin. destruct Hin as [Hin | []]. discriminate Hin.
Defined.

End CitationFacts.

(* ================================================================== *)
(** * Evaluator: properties *)
(* ================================================================== *)

Module EvaluationFacts.
Import EvaluationService Samples.

Lemma try_except_total {A} (body : Py.result A) (default : A) :
  exists a, Py.try_except body (fun _ => Py.Ok default) = Py.Ok a.
Proof. destruct body as [a | e]; cbn; eexists; reflexivity. Qed.

(** The overall score is the renormalized weighted combination of the
    entries that are not [None]: BLEU, the ROUGE-L value of the dict (0
    when the key is absent) and the semantic similarity.  Whether a failed
    ROUGE computation is left out therefore depends on the dict alone. *)
Lemma overall_score_renormalized
    (bleu : option Q) (rouge : rouge_dict) (semantic : option Q) :
  exists overall,
    _calculate_overall_score bleu rouge semantic = Py.Ok overall
    /\ Spec.same_score overall
         (Spec.renormalized
            [(1 # 4, bleu);
             (1 # 4, dict_get rouge "rougeL_f1" (Some 0%Q));
             (1 # 2, semantic)]%Q).
Proof.
  unfold _calculate_overall_score.
  destruct bleu as [b|], (dict_get rouge "rougeL_f1" (Some 0%Q)) as [r|],
    semantic as [s|]; cbn; eexists; (split; [reflexivity|]); cbn;
    try exact I; field.
Qed.

Section Evaluator.

Variable word_tokenize : string -> Py.result (list string).
Variable sentence_bleu : list string -> list string -> Py.result Q.
Variable rouge_score : string -> string -> Py.result (Q * Q * Q).
Variable openai_api_key : option string.
Variable embedding_similarity :
  string -> string -> string -> Py.result Q.

Let body :=
  evaluate_body word_tokenize sentence_bleu rouge_score openai_api_key
                embedding_similarity.
Let eval :=
  evaluate word_tokenize sentence_bleu rouge_score openai_api_key
           embedding_similarity.

(** The dict of [_calculate_rouge] always holds three numbers. *)
Lemma calculate_rouge_values (generated reference : string) :
  exists r1 r2 rl,
    _calculate_rouge rouge_score generated reference
    = Py.Ok [("rouge1_f1", Some r1); ("rouge2_f1", Some r2);
             ("rougeL_f1", Some rl)]%string.
Proof.
  unfold _calculate_rouge.
  destruct (rouge_score reference generated) as [[[r1 r2] rl] | e]; cbn;
    do 3 eexists; reflexivity.
Qed.

(** With [None] or strings as inputs the body of [evaluate] returns. *)
Lemma evaluate_body_returns (generated_answer ground_truth : text_arg) :
  generated_answer <> ArgOther -> ground_truth <> ArgOther ->
  exists m, body generated_answer ground_truth = Py.Ok m.
Proof.
  intros Hg Ht. subst body. unfold evaluate_body.
  assert (N : forall a, a <> ArgOther ->
                        exists s, _normalize_text a = Py.Ok s).
  { intros [| s |] Ha; cbn; [eexists; reflexivity | | congruence].
    destruct (Py.truthy s); eexists; reflexivity. }
  destruct (N _ Hg) as [gen ->]. destruct (N _ Ht) as [gt ->].
  cbn [Py.bind].
  destruct (try_except_total
              (reference_tokens <- word_tokenize gt ;;
               generated_tokens <- word_tokenize gen ;;
               if isnil reference_tokens || isnil generated_tokens
               then Py.Ok (Some 0.0%Q)
               else score <- sentence_bleu reference_tokens
                                           generated_tokens ;;
                    Py.Ok (Some score)) None) as [bleu Hb].
  unfold _calculate_bleu. rewrite Hb. cbn [Py.bind].
  destruct (calculate_rouge_values gen gt) as (r1 & r2 & rl & ->).
  cbn [Py.bind].
  unfold _calculate_semantic_similarity.
  match goal with
  | |- context [Py.try_except ?b (fun _ => Py.Ok None)] =>
      destruct (try_except_total b None) as [sem ->]
  end.
  cbn [Py.bind].
  destruct (overall_score_renormalized bleu
              [("rouge1_f1", Some r1); ("rouge2_f1", Some r2);
               ("rougeL_f1", Some rl)]%string sem) as [o [-> _]].
  cbn. eexists. reflexivity.
Qed.

(** C10.  [evaluate] always returns a metrics record, and when the body
    of its [try] raises, the record is [EvaluationMetrics()]: every one
    of its six fields is absent. *)
Theorem evaluate_never_raises (generated_answer ground_truth : text_arg) :
  exists m,
    eval generated_answer ground_truth = Py.Ok m
    /\ (forall e,
          body generated_answer ground_truth = Py.Raise e ->
          bleu_score m = None /\ rouge_1_f1 m = None
          /\ rouge_2_f1 m = None /\ rouge_l_f1 m = None
          /\ semantic_similarity m = None /\ overall_score m = None).
Proof.
  subst eval body. unfold evaluate.
  destruct (evaluate_body word_tokenize sentence_bleu rouge_score
              openai_api_key embedding_similarity generated_answer
              ground_truth) as [m | e0]; cbn [Py.try_except].
  - exists m. split; [reflexivity|]. intros e He. discriminate He.
  - exists EvaluationMetrics_default. split; [reflexivity|].
    intros _ _. repeat split.
Qed.

End Evaluator.

Lemma evaluate_never_raises_witness :
  evaluate_body one_token bleu_08 no_rouge (Some "sk"%string) similarity_08
                ArgOther (ArgStr "Net income was $5M.")
  = Py.Raise Py.AttributeError
  /\ evaluate one_token bleu_08 no_rouge (Some "sk"%string) similarity_08
              ArgOther (ArgStr "Net income was $5M.")
     = Py.Ok EvaluationMetrics_default.
Proof.
  assert (B : evaluate_body one_token bleu_08 no_rouge (Some "sk"%string)
                similarity_08 ArgOther (ArgStr "Net income was $5M.")
              = Py.Raise Py.AttributeError) by reflexivity.
  split; [exact B|].
  destruct (evaluate_never_raises one_token bleu_08 no_rouge
              (Some "sk"%string) similarity_08 ArgOther
              (ArgStr "Net income was $5M.")) as [m [Hm Hd]].
  rewrite Hm. f_equal.
  destruct (Hd _ B) as (H1 & H2 & H3 & H4 & H5 & H6).
  destruct m; cbn in *; subst; reflexivity.
Defined.

(** C6 fails on the code when the ROUGE computation fails.
    [_calculate_rouge] then returns zeros, so ROUGE-L enters the overall
    score as 0 with its weight: with BLEU 0.8 and semantic similarity 0.8
    the overall score is 0.6, where renormalizing over the two computable
    sub-scores gives 0.8; and with no sub-score computable the overall
    score is 0.0, not absent. *)
Theorem failed_rouge_counts_as_zero :
  (exists m,
      evaluate one_token bleu_08 no_rouge (Some "sk"%string) similarity_08
               (ArgStr "Revenue grew 10%.") (ArgStr "Revenue rose 10%.")
      = Py.Ok m
      /\ bleu_score m = Some (8000 # 10000)
      /\ semantic_similarity m = Some (8000 # 10000)
      /\ rouge_l_f1 m = Some (0 # 10000)
      /\ overall_score m = Some (6000 # 10000))
  /\ Spec.same_score
       (Spec.renormalized [(1 # 4, Some 0.8); (1 # 4, None);
                           (1 # 2, Some 0.8)]%Q)
       (Some 0.8%Q)
  /\ (exists m,
        evaluate no_tokenizer bleu_08 no_rouge None similarity_08
                 (ArgStr "Revenue grew 10%.") (ArgStr "Revenue rose 10%.")
        = Py.Ok m
        /\ bleu_score m = None
        /\ semantic_similarity m = None
        /\ overall_score m = Some (0 # 10000))
  /\ Spec.renormalized [(1 # 4, None); (1 # 4, None); (1 # 2, None)]%Q
     = None.
Proof.
  split; [eexists; repeat split; reflexivity|].
  split; [reflexivity|].
  split; [eexists; repeat split; reflexivity|].
  reflexivity.
Qed.

End EvaluationFacts.

(* ================================================================== *)
(** * Confidence scorer: ranges of the scores *)
(* ================================================================== *)

Module ScoreRangeFacts.
Import Retrieval ConfidenceScorer Samples.

(** The rounded integer stays on the same side of any integer bound. *)
Lemma round_half_even_lower (y : Q) (k : Z) :
  (inject_Z k <= y)%Q -> k <= Py.round_half_even y.
Proof.
  intros H. unfold Py.round_half_even.
  assert (F : k <= Qfloor y).
  { rewrite <- (Qfloor_Z k). apply Qfloor_resp_le. exact H. }
  destruct (y - inject_Z (Qfloor y) ?= 1 # 2)%Q; [|lia|lia].
  destruct (Z.even (Qfloor y)); lia.
Qed.

Lemma round_half_even_upper (y : Q) (k : Z) :
  (y <= inject_Z k)%Q -> Py.round_half_even y <= k.
Proof.
  intros H. unfold Py.round_half_even.
  assert (F : Qfloor y <= k).
  { rewrite <- (Qfloor_Z k). apply Qfloor_resp_le. exact H. }
  destruct (Z.eq_dec (Qfloor y) k) as [E | E].
  - assert (L : (inject_Z (Qfloor y) <= y)%Q) by apply Qfloor_le.
    assert (Z0 : (y - inject_Z (Qfloor y) == 0)%Q).
    { rewrite E in *. apply Qle_antisym; lra. }
    assert (C : (y - inject_Z (Qfloor y) ?= 1 # 2)%Q = Lt).
    { rewrite Z0. reflexivity. }
    rewrite C. lia.
  - destruct (y - inject_Z (Qfloor y) ?= 1 # 2)%Q; [|lia|lia].
    destruct (Z.even (Qfloor y)); lia.
Qed.

(** Rounding to any number of decimals keeps a value of [0,1] in [0,1]. *)
Lemma Qround_unit (x : Q) (n : nat) :
  (0 <= x <= 1)%Q -> (0 <= Py.Qround x n <= 1)%Q.
Proof.
  intros [H0 H1]. unfold Py.Qround.
  set (s := Py.pow10 n).
  assert (L : 0 <= Py.round_half_even (x * inject_Z (Z.pos s))).
  { apply round_half_even_lower. change (inject_Z 0) with 0%Q.
    apply Qmult_le_0_compat; [exact H0|]. unfold Qle; simpl; lia. }
  assert (U : Py.round_half_even (x * inject_Z (Z.pos s)) <= Z.pos s).
  { apply round_half_even_upper.
    setoid_replace (inject_Z (Z.pos s)) with (1 * inject_Z (Z.pos s))%Q
      at 2 by ring.
    apply Qmult_le_compat_r; [exact H1|]. unfold Qle; simpl; lia. }
  unfold Qle. simpl. split; lia.
Qed.

Lemma round_in_unit (x : Py.float) (n : nat) :
  Py.in_unit x -> Py.in_unit (Py.round x n).
Proof.
  destruct x as [q | | |]; simpl; try tauto. apply Qround_unit.
Qed.

Lemma total_bounds (xs : list Q) :
  Forall (fun x => 0 <= x <= 1)%Q xs ->
  (0 <= Spec.total xs <= Spec.size xs)%Q.
Proof.
  unfold Spec.size.
  induction 1 as [| x xs Hx _ IH]; [split; unfold Qle; simpl; lia|].
  cbn [Spec.total List.length]. rewrite Nat2Z.inj_succ.
  unfold Z.succ. rewrite inject_Z_plus.
  change (inject_Z 1) with 1%Q. lra.
Qed.

Lemma size_pos (x : Q) (xs : list Q) : (0 < Spec.size (x :: xs))%Q.
Proof.
  unfold Spec.size. cbn [List.length]. unfold Qlt. simpl. lia.
Qed.

Lemma ratio_in_unit (a b : Q) :
  (0 <= a <= b)%Q -> (0 < b)%Q -> (0 <= a / b <= 1)%Q.
Proof.
  intros [H0 H1] Hb. split.
  - apply Qle_shift_div_l; [exact Hb|]. lra.
  - apply Qle_shift_div_r; [exact Hb|]. lra.
Qed.

(** The mean of scores that lie in [0,1] lies in [0,1]. *)
Lemma mean_in_unit (xs : list Q) :
  Forall (fun x => 0 <= x <= 1)%Q xs -> (0 <= Spec.mean xs <= 1)%Q.
Proof.
  intros H. destruct xs as [| x xs]; [simpl; lra|].
  cbn [Spec.mean]. apply ratio_in_unit; [|apply size_pos].
  apply total_bounds. exact H.
Qed.

(** The fraction of scores above the threshold lies in [0,1], whatever
    the scores are. *)
Lemma fraction_in_unit (xs : list Q) :
  (0 <= Spec.fraction_above xs <= 1)%Q.
Proof.
  destruct xs as [| x xs]; [simpl; lra|].
  cbn [Spec.fraction_above]. apply ratio_in_unit; [|apply size_pos].
  unfold Spec.size.
  pose proof (filter_length_le Spec.above_threshold (x :: xs)) as L.
  split.
  - change 0%Q with (inject_Z 0). rewrite <- Zle_Qle. lia.
  - rewrite <- Zle_Qle. lia.
Qed.

Section Scorer.

Variable chat : string -> list (string * string) -> grading_reply.

(** Both grading checks return a value of [0,1] as long as no reply
    parses to NaN: a failed call or an unparseable reply gives 0.5, a
    parsed number is clamped. *)
Lemma grading_in_unit
    (answer question key : string) (contexts : list string) :
  (forall k messages, chat k messages <> Parsed Py.NaN) ->
  Py.in_unit (_check_faithfulness chat answer contexts key)
  /\ Py.in_unit (_check_relevancy chat answer question key).
Proof.
  intros H. split.
  - unfold _check_faithfulness.
    apply ConfidenceScorerFacts.clamp_reply_in_unit, H.
  - unfold _check_relevancy.
    apply ConfidenceScorerFacts.clamp_reply_in_unit, H.
Qed.

(** The coverage the scorer returns lies in [0,1] for any retrieval
    scores and any grader; and when every similarity score lies in
    [0,1] and no grading reply parses to NaN, all five scores lie in
    [0,1]. *)
Theorem calculate_confidence_in_unit
    (rs : list chunk) (answer question key : string) :
  exists m,
    calculate_confidence chat rs answer question key = Py.Ok m
    /\ Py.in_unit (coverage m)
    /\ (Forall (fun r => 0 <= Spec.similarity r <= 1)%Q rs ->
        (forall k messages, chat k messages <> Parsed Py.NaN) ->
        Py.in_unit (overall m) /\ Py.in_unit (retrieval m)
        /\ Py.in_unit (faithfulness m) /\ Py.in_unit (relevancy m)).
Proof.
  destruct (ConfidenceScorerFacts.text_present_or_missing rs) as [Ht | Ht].
  - unfold calculate_confidence, calculate_confidence_body.
    rewrite (ConfidenceScorerFacts.texts_present rs Ht).
    cbn [Py.bind Py.try_except]. eexists. split; [reflexivity|].
    cbn [coverage overall retrieval faithfulness relevancy].
    assert (C : Py.in_unit
                  (Py.round
                     (Py.Fin
                        (inject_Z
                           (Z.of_nat
                              (list_sum
                                 (map (fun _ => 1%nat)
                                    (filter
                                       (fun s => negb (Qle_bool s 0.7))
                                       (map (fun r => Py.get (score r)
                                                        0.0%Q) rs)))))
                         / inject_Z
                             (Z.max
                                (Z.of_nat
                                   (List.length
                                      (map (fun r => Py.get (score r)
                                                       0.0%Q) rs))) 1)))
                     3)).
    { apply round_in_unit. cbn [Py.in_unit].
      rewrite ConfidenceScorerFacts.coverage_agrees.
      apply fraction_in_unit. }
    split; [exact C|].
    intros Hs Hc.
    assert (R : Py.in_unit
                  (Py.round
                     (Py.Fin
                        match map (fun r => Py.get (score r) 0.0%Q) rs
                        with
                        | [] => 0.0%Q
                        | _ :: _ =>
                            np_mean
                              (map (fun r => Py.get (score r) 0.0%Q) rs)
                        end) 3)).
    { apply round_in_unit. cbn [Py.in_unit].
      rewrite ConfidenceScorerFacts.mean_agrees.
      apply mean_in_unit. apply Forall_map. exact Hs. }
    destruct (grading_in_unit answer question key
                (Spec.texts_of rs) Hc) as [Hf Hr].
    split; [|split; [exact R|split; apply round_in_unit; assumption]].
    destruct (_check_faithfulness chat answer (Spec.texts_of rs) key)
      as [f | | |]; try (cbn in Hf; tauto).
    destruct (_check_relevancy chat answer question key)
      as [r | | |]; try (cbn in Hr; tauto).
    cbn [Py.mul Py.add]. apply round_in_unit. cbn [Py.in_unit] in *.
    pose proof (mean_in_unit (map Spec.similarity rs)
                  (proj2 (Forall_map _ _ _) Hs)) as M.
    pose proof (fraction_in_unit (map Spec.similarity rs)) as V.
    rewrite ConfidenceScorerFacts.mean_agrees,
      ConfidenceScorerFacts.coverage_agrees.
    unfold weight_retrieval, weight_coverage, weight_faithfulness,
      weight_relevancy.
    lra.
  - unfold calculate_confidence, calculate_confidence_body.
    rewrite (ConfidenceScorerFacts.text_missing rs Ht).
    cbn [Py.bind Py.try_except]. eexists. split; [reflexivity|].
    cbn. repeat split; lra.
Qed.

(** A retrieval result without a text entry turns the whole result into
    the neutral one, whatever the scores and the grader are. *)
Theorem missing_text_gives_neutral_scores
    (rs : list chunk) (answer question key : string) :
  Exists (fun r => text r = None) rs ->
  calculate_confidence chat rs answer question key
  = Py.Ok default_scores.
Proof.
  intros H. unfold calculate_confidence, calculate_confidence_body.
  rewrite (ConfidenceScorerFacts.text_missing rs H). reflexivity.
Qed.

End Scorer.

Lemma calculate_confidence_in_unit_witness :
  exists m,
    calculate_confidence (grader (Py.Fin 0.9)) [sample 0.8; sample 0.6]
                         "a" "q" "k" = Py.Ok m
    /\ Py.in_unit (overall m).
Proof.
  destruct (calculate_confidence_in_unit (grader (Py.Fin 0.9))
              [sample 0.8; sample 0.6] "a" "q" "k")
    as [m (Hm & _ & Hall)].
  exists m. split; [exact Hm|].
  apply Hall.
  - repeat constructor; cbn; lra.
  - intros k messages. discriminate.
Defined.

Lemma missing_text_gives_neutral_scores_witness :
  Exists (fun r => text r = None) [sample 0.8; no_text]
  /\ calculate_confidence (grader Py.NaN) [sample 0.8; no_text] "a" "q" "k"
     = Py.Ok default_scores.
Proof.
  assert (H : Exists (fun r => text r = None) [sample 0.8; no_text])
    by (apply Exists_cons_tl; constructor; reflexivity).
  split; [exact H|].
  exact (missing_text_gives_neutral_scores (grader Py.NaN) _ "a" "q" "k" H).
Defined.

End ScoreRangeFacts.

(* ================================================================== *)
(** * Document processor: what the parsers emit *)
(* ================================================================== *)

Module ChunkFacts.
Import DocumentProcessor Samples.

(** ** Strings *)

Lemma lstrip_no_nonspace (s : string) :
  Spec.nonspace s = false -> Py.lstrip s = EmptyString.
Proof.
  induction s as [| c s IH]; [reflexivity|]. cbn.
  destruct (Py.isspace c); cbn; [exact IH | discriminate].
Qed.

(** A string that is not blank has a character that is not whitespace. *)
Lemma not_blank_nonspace (s : string) :
  blank s = false -> Spec.nonspace s = true.
Proof.
  unfold blank, Py.strip. intros H.
  destruct (Spec.nonspace s) eqn:E; [reflexivity|].
  rewrite (lstrip_no_nonspace s E) in H. discriminate H.
Qed.

Lemma count_words_nonspace (s : string) :
  Spec.nonspace s = true -> (1 <= Py.count_words false s)%nat.
Proof.
  induction s as [| c s IH]; [discriminate|]. cbn.
  destruct (Py.isspace c); cbn; [exact IH | lia].
Qed.

Lemma substring_drop (i n : nat) (s : string) :
  String.substring i n s = String.substring 0 n (Py.drop i s).
Proof.
  revert s. induction i as [| i IH]; intros s; [reflexivity|].
  destruct s as [| c s]; cbn.
  - destruct n; reflexivity.
  - apply IH.
Qed.

Lemma prefix_occurs_at (sub s : string) (i : nat) :
  String.prefix sub (Py.drop i s) = true <-> Spec.occurs_at sub s i.
Proof.
  unfold Spec.occurs_at. rewrite substring_drop. apply String.prefix_correct.
Qed.

(** What [find] returns: the first position where [sub] starts, or -1
    when it starts nowhere. *)
Lemma find_from_spec (sub s : string) (i : Z) :
  0 <= i ->
  (exists k : nat,
      Py.find_from sub s i = i + Z.of_nat k
      /\ String.prefix sub (Py.drop k s) = true
      /\ forall j, (j < k)%nat -> String.prefix sub (Py.drop j s) = false)
  \/ (Py.find_from sub s i = -1
      /\ forall j, String.prefix sub (Py.drop j s) = false).
Proof.
  revert i. induction s as [| c s IH]; intros i Hi; cbn [Py.find_from].
  - destruct (String.prefix sub EmptyString) eqn:E.
    + left. exists O. split; [lia|]. split; [exact E|]. intros j Hj. lia.
    + right. split; [reflexivity|]. intros [| j]; exact E.
  - destruct (String.prefix sub (String c s)) eqn:E.
    + left. exists O. split; [lia|]. split; [exact E|]. intros j Hj. lia.
    + destruct (IH (i + 1)) as [[k (Hk & Hp & Hfirst)] | [Hnone Hall]];
        [lia| |].
      * left. exists (S k). split; [lia|]. split; [exact Hp|].
        intros [| j] Hj; [exact E|]. apply Hfirst. lia.
      * right. split; [exact Hnone|]. intros [| j]; [exact E|]. apply Hall.
Qed.

Section Processor.

Variable split_text : string -> list string.
Variable sha256_hexdigest : string -> string.
Variable fitz_open : string -> Py.result (list pdf_page).
Variable docx_paragraphs : string -> Py.result (list string).
Variable read_file : string -> Py.result string.

Let make := make_chunk sha256_hexdigest.

(** The span of a built chunk locates its text in the source. *)
Lemma make_chunk_locates source split idx page :
  Spec.span_locates source (make source split idx page).
Proof.
  unfold Spec.span_locates, make, make_chunk, Py.find.
  cbn [text char_offset_start char_offset_end].
  destruct (find_from_spec split source 0 (Z.le_refl 0))
    as [[k (Hk & Hp & Hfirst)] | [Hnone Hall]].
  - rewrite Hk. cbn [Z.add].
    assert (L : (0 <=? Z.of_nat k) = true) by (apply Z.leb_le; lia).
    rewrite L. rewrite Z.max_r by lia. rewrite Nat2Z.id.
    split; [reflexivity|]. left. split.
    + apply prefix_occurs_at. exact Hp.
    + intros j Hj Hocc. apply prefix_occurs_at in Hocc.
      rewrite (Hfirst j Hj) in Hocc. discriminate Hocc.
  - rewrite Hnone. cbn. split; [reflexivity|]. right.
    split; [reflexivity|]. intros j Hocc.
    apply prefix_occurs_at in Hocc. rewrite (Hall j) in Hocc.
    discriminate Hocc.
Qed.

(** ** The loops in closed form *)

Lemma pdf_split_fold page_text page_num splits :
  forall acc k,
    fold_left (pdf_split_step sha256_hexdigest page_text page_num)
              splits (acc, k)
    = (acc ++ Spec.number_from (Spec.pdf_chunk_of sha256_hexdigest) k
                (map (fun s => (page_num, page_text, s))
                     (filter (fun s => negb (blank s)) splits)),
       (k + List.length (filter (fun s => negb (blank s)) splits))%nat).
Proof.
  induction splits as [| s splits IH]; intros acc k.
  - cbn. rewrite app_nil_r, Nat.add_0_r. reflexivity.
  - cbn [fold_left filter]. unfold pdf_split_step at 2.
    destruct (blank s); cbn [negb].
    + apply IH.
    + rewrite IH. cbn [map Spec.number_from List.length].
      rewrite <- app_assoc. f_equal. lia.
Qed.

Lemma number_from_app {A B} (f : nat -> A -> B) (l1 l2 : list A) :
  forall k,
    Spec.number_from f k (l1 ++ l2)
    = Spec.number_from f k l1
        ++ Spec.number_from f (k + List.length l1) l2.
Proof.
  induction l1 as [| a l1 IH]; intros k; cbn.
  - rewrite Nat.add_0_r. reflexivity.
  - rewrite IH. do 3 f_equal. lia.
Qed.

Lemma pdf_page_fold numbered :
  forall acc k,
    fold_left (pdf_page_step split_text sha256_hexdigest) numbered
              (acc, k)
    = (acc ++ Spec.number_from (Spec.pdf_chunk_of sha256_hexdigest) k
                (Spec.pdf_pieces split_text numbered),
       (k + List.length (Spec.pdf_pieces split_text numbered))%nat).
Proof.
  induction numbered as [| [n page] numbered IH]; intros acc k.
  - cbn. rewrite app_nil_r, Nat.add_0_r. reflexivity.
  - cbn [fold_left]. unfold pdf_page_step at 2.
    unfold Spec.pdf_pieces. cbn [flat_map fst snd].
    fold (Spec.page_text page). fold (Spec.pdf_pieces split_text numbered).
    destruct (blank (Spec.page_text page)).
    + cbn [app]. apply IH.
    + rewrite pdf_split_fold, IH, number_from_app, length_app.
      rewrite !length_map, <- app_assoc. f_equal. lia.
Qed.

(** The chunks of a PDF are its kept pieces numbered from 0. *)
Lemma pdf_chunks_closed_form doc :
  pdf_chunks split_text sha256_hexdigest doc
  = Spec.number_from (Spec.pdf_chunk_of sha256_hexdigest) 0
      (Spec.pdf_pieces split_text (Py.enumerate 0 doc)).
Proof.
  unfold pdf_chunks. rewrite pdf_page_fold. reflexivity.
Qed.

Lemma number_from_Forall {A B} (f : nat -> A -> B) (P : B -> Prop)
    (Q : A -> Prop) (l : list A) :
  (forall k a, Q a -> P (f k a)) ->
  Forall Q l -> forall k, Forall P (Spec.number_from f k l).
Proof.
  intros HP. induction 1 as [| a l Ha _ IH]; intros k; cbn;
    constructor; [apply HP, Ha | apply IH].
Qed.

Lemma number_from_map {A B C} (f : nat -> A -> B) (g : B -> C)
    (l : list A) :
  forall k, map g (Spec.number_from f k l)
            = Spec.number_from (fun k a => g (f k a)) k l.
Proof.
  induction l as [| a l IH]; intros k; cbn; [reflexivity|].
  rewrite IH. reflexivity.
Qed.

Lemma pdf_pieces_ok (doc : list pdf_page) :
  Forall (Spec.piece_ok split_text doc) (Spec.pdf_pieces split_text (Py.enumerate 0 doc)).
Proof.
  apply Forall_forall. intros [[n t] s] Hin.
  unfold Spec.pdf_pieces in Hin. apply in_flat_map in Hin.
  destruct Hin as [[n' page] [Hnp Hin]]. cbn [fst snd] in Hin.
  destruct (blank (Spec.page_text page)); [destruct Hin|].
  apply in_map_iff in Hin. destruct Hin as [s' [E Hs]].
  injection E as <- <- <-. apply filter_In in Hs. destruct Hs as [Hs Hb].
  apply CitationFacts.enumerate_nth in Hnp. destruct Hnp as [_ Hnth].
  rewrite Nat.sub_0_r in Hnth.
  exists page. cbn [fst snd]. repeat split; try assumption.
  apply negb_true_iff. exact Hb.
Qed.

Lemma parse_pdf_closed_form file_path doc :
  fitz_open file_path = Py.Ok doc ->
  _parse_pdf split_text sha256_hexdigest fitz_open file_path
  = Py.Ok (Spec.number_from (Spec.pdf_chunk_of sha256_hexdigest) 0
             (Spec.pdf_pieces split_text (Py.enumerate 0 doc))).
Proof.
  intros H. unfold _parse_pdf. rewrite H. cbn.
  rewrite pdf_chunks_closed_form. reflexivity.
Qed.

Lemma parse_pdf_opened file_path cs :
  _parse_pdf split_text sha256_hexdigest fitz_open file_path = Py.Ok cs ->
  exists doc,
    fitz_open file_path = Py.Ok doc
    /\ cs = pdf_chunks split_text sha256_hexdigest doc.
Proof.
  unfold _parse_pdf.
  destruct (fitz_open file_path) as [doc | e]; cbn; intros H;
    [|discriminate H].
  injection H as <-. exists doc. split; reflexivity.
Qed.

Lemma parse_text_chunks file_path cs :
  _parse_text split_text sha256_hexdigest read_file file_path
  = Py.Ok cs ->
  exists full_text,
    read_file file_path = Py.Ok full_text
    /\ cs = text_chunks split_text sha256_hexdigest full_text.
Proof.
  unfold _parse_text.
  destruct (read_file file_path) as [t | e]; cbn; intros H;
    [|discriminate H].
  injection H as <-. exists t. split; reflexivity.
Qed.

Lemma parse_docx_chunks file_path cs :
  _parse_docx split_text sha256_hexdigest docx_paragraphs file_path
  = Py.Ok cs ->
  exists paragraphs,
    docx_paragraphs file_path = Py.Ok paragraphs
    /\ cs = text_chunks split_text sha256_hexdigest
              (Py.join (nl ++ nl)
                 (filter (fun para => negb (blank para)) paragraphs)).
Proof.
  unfold _parse_docx.
  destruct (docx_paragraphs file_path) as [ps | e]; cbn; intros H;
    [|discriminate H].
  injection H as <-. exists ps. split; reflexivity.
Qed.

Lemma text_chunks_closed_form full_text :
  text_chunks split_text sha256_hexdigest full_text
  = map (fun p => make full_text (snd p) (fst p) None)
        (filter Spec.kept (Py.enumerate 0 (split_text full_text))).
Proof.
  unfold text_chunks. rewrite DocumentProcessorFacts.text_fold.
  reflexivity.
Qed.

Lemma filter_fst_sorted {A} (P : nat * A -> bool) (l : list (nat * A)) :
  StronglySorted lt (map fst l) ->
  StronglySorted lt (map fst (filter P l)).
Proof.
  induction l as [| x l IH]; cbn; intros H; [constructor|].
  inversion H as [| ? ? Hl Hx]; subst.
  destruct (P x); cbn; [|apply IH; exact Hl].
  constructor; [apply IH; exact Hl|].
  apply Forall_forall. intros j Hj. apply in_map_iff in Hj.
  destruct Hj as [y [<- Hy]]. apply filter_In in Hy.
  rewrite Forall_forall in Hx. apply Hx. apply in_map. tauto.
Qed.

(** On the PDF path the ordinals of the returned chunks are 0, 1, ...,
    n-1 in order, whatever the splitter, the text layers and the OCR
    give. *)
Lemma parse_pdf_ordinals_dense file_path cs :
  _parse_pdf split_text sha256_hexdigest fitz_open file_path = Py.Ok cs ->
  map chunk_index cs = seq 0 (List.length cs).
Proof.
  intros H. apply parse_pdf_opened in H. destruct H as [doc [_ ->]].
  apply DocumentProcessorFacts.pdf_indices_dense.
Qed.

(** On the DOCX and plain-text paths the ordinals are strictly
    increasing, so no two chunks share one; and they are 0, ..., n-1
    when the splitter never returns a whitespace-only piece. *)
Theorem text_paths_ordinals_increasing file_path cs :
  _parse_text split_text sha256_hexdigest read_file file_path = Py.Ok cs
  \/ _parse_docx split_text sha256_hexdigest docx_paragraphs file_path
     = Py.Ok cs ->
  StronglySorted lt (map chunk_index cs)
  /\ ((forall t, Forall (fun s => blank s = false) (split_text t)) ->
      map chunk_index cs = seq 0 (List.length cs)).
Proof.
  intros H.
  assert (E : exists full_text,
             cs = text_chunks split_text sha256_hexdigest full_text).
  { destruct H as [H | H].
    - apply parse_text_chunks in H. destruct H as [t [_ ->]].
      exists t. reflexivity.
    - apply parse_docx_chunks in H. destruct H as [ps [_ ->]].
      eexists. reflexivity. }
  destruct E as [full_text ->]. split.
  - rewrite DocumentProcessorFacts.text_chunks_indices.
    apply filter_fst_sorted. rewrite PyFacts.enumerate_fst.
    apply CitationFacts.seq_sorted.
  - intros Hsplit. apply DocumentProcessorFacts.text_indices_dense.
    apply Hsplit.
Qed.

(** No parser emits a blank chunk: on every path the text of each
    returned chunk has a character that is not whitespace, and its
    token count is at least 1. *)
Theorem chunks_are_not_blank file_path cs :
  parse_document split_text sha256_hexdigest fitz_open docx_paragraphs
                 read_file file_path = Py.Ok cs ->
  Forall (fun c => blank (text c) = false
                   /\ Spec.nonspace (text c) = true
                   /\ (1 <= token_count c)%nat) cs.
Proof.
  assert (K : forall source s idx page,
             blank s = false ->
             blank (text (make source s idx page)) = false
             /\ Spec.nonspace (text (make source s idx page)) = true
             /\ (1 <= token_count (make source s idx page))%nat).
  { intros source s idx page Hs. cbn. split; [exact Hs|].
    split; [apply not_blank_nonspace, Hs|].
    apply count_words_nonspace, not_blank_nonspace, Hs. }
  assert (T : forall full_text,
             Forall (fun c => blank (text c) = false
                              /\ Spec.nonspace (text c) = true
                              /\ (1 <= token_count c)%nat)
                    (text_chunks split_text sha256_hexdigest full_text)).
  { intros full_text. rewrite text_chunks_closed_form.
    apply Forall_forall. intros c Hc. apply in_map_iff in Hc.
    destruct Hc as [[idx s] [<- Hin]]. apply filter_In in Hin.
    destruct Hin as [_ Hk]. unfold Spec.kept in Hk. cbn [snd fst] in *.
    apply K. apply negb_true_iff. exact Hk. }
  unfold parse_document. rewrite PyFacts.try_reraise.
  destruct (_ =? ".pdf")%string.
  - intros H. apply parse_pdf_opened in H. destruct H as [doc [_ ->]].
    rewrite pdf_chunks_closed_form.
    apply (number_from_Forall _ _ (Spec.piece_ok split_text doc));
      [|apply pdf_pieces_ok].
    intros k [[n t] s] [page (_ & _ & Hb & _)]. cbn [fst snd] in Hb.
    unfold Spec.pdf_chunk_of. cbn [fst snd]. apply K. exact Hb.
  - destruct (existsb _ [".docx"; ".doc"]%string).
    + intros H. apply parse_docx_chunks in H.
      destruct H as [ps [_ ->]]. apply T.
    + destruct (existsb _ [".txt"]%string).
      * intros H. apply parse_text_chunks in H.
        destruct H as [t [_ ->]]. apply T.
      * intros H. injection H as <-. constructor.
Qed.

Lemma pieces_pages_from numbered :
  Forall (fun piece => In (fst (fst piece)) (map fst numbered))
         (Spec.pdf_pieces split_text numbered).
Proof.
  apply Forall_forall. intros [[n t] s] Hin.
  unfold Spec.pdf_pieces in Hin. apply in_flat_map in Hin.
  destruct Hin as [[n' page] [Hnp Hin]]. cbn [fst snd] in *.
  destruct (blank (Spec.page_text page)); [destruct Hin|].
  apply in_map_iff in Hin. destruct Hin as [s' [E _]].
  injection E as <- _ _. apply in_map_iff. exists (n', page).
  split; [reflexivity | exact Hnp].
Qed.

Lemma pieces_pages_sorted numbered :
  StronglySorted lt (map fst numbered) ->
  StronglySorted le
    (map (fun piece => fst (fst piece))
         (Spec.pdf_pieces split_text numbered)).
Proof.
  induction numbered as [| [n page] numbered IH]; intros H;
    [constructor|].
  cbn [map fst] in H. inversion H as [| ? ? Hrest Hn]; subst.
  unfold Spec.pdf_pieces. cbn [flat_map fst snd].
  fold (Spec.pdf_pieces split_text numbered).
  assert (Tail : Forall (fun piece => (n <= fst (fst piece))%nat)
                        (Spec.pdf_pieces split_text numbered)).
  { pose proof (pieces_pages_from numbered) as F.
    rewrite Forall_forall in *. intros piece Hp.
    specialize (F piece Hp). specialize (Hn _ F). lia. }
  destruct (blank (Spec.page_text page)); [apply IH; exact Hrest|].
  induction (filter (fun s => negb (blank s))
                    (split_text (Spec.page_text page))) as [| s l IHl].
  - cbn. apply IH. exact Hrest.
  - cbn [map app fst snd]. constructor; [exact IHl|].
    apply Forall_forall. intros j Hj.
    apply in_map_iff in Hj. destruct Hj as [piece [<- Hp]].
    apply in_app_or in Hp. destruct Hp as [Hp | Hp].
    + apply in_map_iff in Hp. destruct Hp as [s' [<- _]]. cbn. lia.
    + rewrite Forall_forall in Tail. apply Tail. exact Hp.
Qed.

Lemma number_from_const {A B} (g : A -> B) (l : list A) :
  forall k, Spec.number_from (fun _ a => g a) k l = map g l.
Proof.
  induction l as [| a l IH]; intros k; cbn; [reflexivity|].
  rewrite IH. reflexivity.
Qed.

Lemma pages_sorted_Z {A} (f : A -> nat) (l : list A) :
  StronglySorted le (map f l) ->
  StronglySorted Z.le (map (fun a => Z.of_nat (f a) + 1) l).
Proof.
  induction l as [| a l IH]; cbn; intros H; [constructor|].
  inversion H as [| ? ? Hl Ha]; subst.
  constructor; [apply IH; exact Hl|].
  rewrite Forall_forall in *. intros z Hz. apply in_map_iff in Hz.
  destruct Hz as [b [<- Hb]].
  assert (f a <= f b)%nat by (apply Ha, in_map, Hb). lia.
Qed.

(** Page numbers.  Every chunk of a PDF carries the 1-based number of an
    existing page, and the chunks come in page order; the chunks of a
    DOCX or plain-text file carry no page number. *)
Theorem chunk_page_numbers file_path cs :
  (forall doc,
      fitz_open file_path = Py.Ok doc ->
      _parse_pdf split_text sha256_hexdigest fitz_open file_path
      = Py.Ok cs ->
      Forall (fun c => exists n,
                  page_number c = Some (Z.of_nat n + 1)
                  /\ (n < List.length doc)%nat) cs
      /\ StronglySorted Z.le (map Spec.page_of cs))
  /\ (_parse_text split_text sha256_hexdigest read_file file_path
      = Py.Ok cs
      \/ _parse_docx split_text sha256_hexdigest docx_paragraphs
                     file_path = Py.Ok cs ->
      Forall (fun c => page_number c = None) cs).
Proof.
  split.
  - intros doc Hdoc H. rewrite (parse_pdf_closed_form _ _ Hdoc) in H.
    injection H as <-. split.
    + apply (number_from_Forall _ _ (Spec.piece_ok split_text doc));
        [|apply pdf_pieces_ok].
      intros k [[n t] s] [page (Hnth & _)]. cbn [fst snd] in Hnth.
      exists n. split; [reflexivity|].
      apply nth_error_Some. congruence.
    + rewrite number_from_map.
      change (fun (k : nat) (a : nat * string * string) =>
                Spec.page_of (Spec.pdf_chunk_of sha256_hexdigest k a))
        with (fun (_ : nat) (a : nat * string * string) =>
                Z.of_nat (fst (fst a)) + 1).
      rewrite number_from_const. apply pages_sorted_Z.
      apply pieces_pages_sorted. rewrite PyFacts.enumerate_fst.
      apply CitationFacts.seq_sorted.
  - intros H.
    assert (E : exists full_text,
               cs = text_chunks split_text sha256_hexdigest full_text).
    { destruct H as [H | H].
      - apply parse_text_chunks in H. destruct H as [t [_ ->]].
        exists t. reflexivity.
      - apply parse_docx_chunks in H. destruct H as [ps [_ ->]].
        eexists. reflexivity. }
    destruct E as [full_text ->]. rewrite text_chunks_closed_form.
    apply Forall_forall. intros c Hc. apply in_map_iff in Hc.
    destruct Hc as [p [<- _]]. reflexivity.
Qed.

(** Offsets.  On every path the span of a chunk ends [len(text)] after
    its start and, measured against the text the chunk was cut from (the
    file's text, the joined paragraphs, the text of the chunk's page),
    starts at the first occurrence of the chunk's text, or is
    [0, len(text)) when the text does not occur there. *)
Theorem spans_locate_text file_path cs :
  (forall full_text,
      read_file file_path = Py.Ok full_text ->
      _parse_text split_text sha256_hexdigest read_file file_path
      = Py.Ok cs ->
      Forall (Spec.span_locates full_text) cs)
  /\ (forall paragraphs,
        docx_paragraphs file_path = Py.Ok paragraphs ->
        _parse_docx split_text sha256_hexdigest docx_paragraphs file_path
        = Py.Ok cs ->
        Forall (Spec.span_locates
                  (Py.join (nl ++ nl)
                     (filter (fun para => negb (blank para)) paragraphs)))
               cs)
  /\ (forall doc,
        fitz_open file_path = Py.Ok doc ->
        _parse_pdf split_text sha256_hexdigest fitz_open file_path
        = Py.Ok cs ->
        Forall (fun c => exists n page,
                    page_number c = Some (Z.of_nat n + 1)
                    /\ nth_error doc n = Some page
                    /\ Spec.span_locates (Spec.page_text page) c) cs).
Proof.
  assert (T : forall full_text,
             Forall (Spec.span_locates full_text)
                    (text_chunks split_text sha256_hexdigest full_text)).
  { intros full_text. rewrite text_chunks_closed_form.
    apply Forall_forall. intros c Hc. apply in_map_iff in Hc.
    destruct Hc as [p [<- _]]. apply make_chunk_locates. }
  split; [|split].
  - intros full_text Hr H. unfold _parse_text in H. rewrite Hr in H.
    cbn in H. injection H as <-. apply T.
  - intros ps Hr H. unfold _parse_docx in H. rewrite Hr in H.
    cbn in H. injection H as <-. apply T.
  - intros doc Hdoc H. rewrite (parse_pdf_closed_form _ _ Hdoc) in H.
    injection H as <-.
    apply (number_from_Forall _ _ (Spec.piece_ok split_text doc));
      [|apply pdf_pieces_ok].
    intros k [[n t] s] [page (Hnth & Ht & _)]. cbn [fst snd] in *.
    exists n, page. split; [reflexivity|]. split; [exact Hnth|].
    unfold Spec.pdf_chunk_of. cbn [fst snd]. subst t.
    apply make_chunk_locates.
Qed.

Lemma pieces_of_blank_pages numbered :
  Forall (fun np => blank (Spec.page_text (snd np)) = true) numbered ->
  Spec.pdf_pieces split_text numbered = [].
Proof.
  induction 1 as [| np l Hnp _ IH]; [reflexivity|].
  unfold Spec.pdf_pieces. cbn [flat_map]. rewrite Hnp.
  exact IH.
Qed.

(** A PDF none of whose pages yields text, neither from the text layer
    nor from OCR (which may fail), parses to the empty chunk list, not
    to an error. *)
Theorem pdf_without_text_gives_no_chunk file_path doc :
  fitz_open file_path = Py.Ok doc ->
  Forall (fun page => blank (Spec.page_text page) = true) doc ->
  _parse_pdf split_text sha256_hexdigest fitz_open file_path = Py.Ok [].
Proof.
  intros Hdoc Hblank. rewrite (parse_pdf_closed_form _ _ Hdoc).
  rewrite pieces_of_blank_pages; [reflexivity|].
  apply Forall_forall. intros [n page] Hin.
  apply CitationFacts.enumerate_nth in Hin. destruct Hin as [_ Hnth].
  rewrite Forall_forall in Hblank. apply Hblank.
  apply nth_error_In in Hnth. exact Hnth.
Qed.

Lemma pieces_same_texts doc doc' :
  Forall2 (fun p p' => Spec.page_text p = Spec.page_text p') doc doc' ->
  forall k,
    Spec.pdf_pieces split_text (Py.enumerate k doc)
    = Spec.pdf_pieces split_text (Py.enumerate k doc').
Proof.
  unfold Py.enumerate.
  induction 1 as [| p p' doc doc' Hp _ IH]; intros k; [reflexivity|].
  cbn [List.length seq combine]. unfold Spec.pdf_pieces.
  cbn [flat_map fst snd]. rewrite Hp. f_equal. apply IH.
Qed.

(** OCR is consulted only for pages whose text layer is blank: two
    documents with the same text layers, and the same OCR outcome on the
    pages whose text layer is blank, give the same chunks. *)
Theorem ocr_only_for_blank_pages (doc doc' : list pdf_page) :
  Forall2 (fun p p' =>
             get_text p = get_text p'
             /\ (blank (get_text p) = true ->
                 _ocr_page p = _ocr_page p')) doc doc' ->
  pdf_chunks split_text sha256_hexdigest doc
  = pdf_chunks split_text sha256_hexdigest doc'.
Proof.
  intros H. rewrite !pdf_chunks_closed_form. f_equal.
  apply pieces_same_texts.
  induction H as [| p p' doc doc' [Ht Ho] _ IH]; constructor;
    [|exact IH].
  unfold Spec.page_text. rewrite <- Ht.
  destruct (blank (get_text p)); [apply Ho; reflexivity | reflexivity].
Qed.

End Processor.

Lemma text_paths_ordinals_increasing_witness :
  (exists cs,
      _parse_text three_pieces no_hash small_file "notes.txt" = Py.Ok cs
      /\ map chunk_index cs = [0; 2]%nat
      /\ StronglySorted lt (map chunk_index cs))
  /\ (forall t, Forall (fun s => blank s = false) (whole_text t))
  /\ (exists cs,
        _parse_text whole_text no_hash small_file "notes.txt" = Py.Ok cs
        /\ map chunk_index cs = seq 0 (List.length cs)).
Proof.
  assert (W : forall t, Forall (fun s => blank s = false) (whole_text t)).
  { intros t. unfold whole_text. destruct (blank t) eqn:E;
      repeat constructor. exact E. }
  split; [|split; [exact W|]].
  - eexists. split; [reflexivity|]. split; [reflexivity|].
    exact (proj1 (text_paths_ordinals_increasing three_pieces no_hash
                    two_paragraphs small_file "notes.txt" _
                    (or_introl eq_refl))).
  - eexists. split; [reflexivity|].
    exact (proj2 (text_paths_ordinals_increasing whole_text no_hash
                    two_paragraphs small_file "notes.txt" _
                    (or_introl eq_refl)) W).
Defined.

Lemma chunks_are_not_blank_witness :
  exists cs,
    parse_document three_pieces no_hash no_pdf two_paragraphs small_file
                   "notes.txt" = Py.Ok cs
    /\ List.length cs = 2%nat
    /\ Forall (fun c => blank (text c) = false
                        /\ Spec.nonspace (text c) = true
                        /\ (1 <= token_count c)%nat) cs.
Proof.
  eexists. split; [reflexivity|]. split; [reflexivity|].
  exact (chunks_are_not_blank three_pieces no_hash no_pdf two_paragraphs
           small_file "notes.txt" _ eq_refl).
Defined.

Lemma chunk_page_numbers_witness :
  exists doc cs,
    scanned_pdf "scan.pdf" = Py.Ok doc
    /\ _parse_pdf one_piece no_hash scanned_pdf "scan.pdf" = Py.Ok cs
    /\ StronglySorted Z.le (map Spec.page_of cs)
    /\ exists cs',
        _parse_text one_piece no_hash small_file "notes.txt" = Py.Ok cs'
        /\ Forall (fun c => page_number c = None) cs'.
Proof.
  eexists. eexists. split; [reflexivity|]. split; [reflexivity|]. split.
  - exact (proj2 (proj1 (chunk_page_numbers one_piece no_hash scanned_pdf
                           two_paragraphs small_file "scan.pdf" _)
                        _ eq_refl eq_refl)).
  - eexists. split; [reflexivity|].
    exact (proj2 (chunk_page_numbers one_piece no_hash scanned_pdf
                    two_paragraphs small_file "notes.txt" _)
                 (or_introl eq_refl)).
Defined.

Lemma spans_locate_text_witness :
  exists cs,
    small_file "notes.txt" = Py.Ok "a   b"%string
    /\ _parse_text three_pieces no_hash small_file "notes.txt" = Py.Ok cs
    /\ map char_offset_start cs = [0; 4]
    /\ Forall (Spec.span_locates "a   b") cs.
Proof.
  eexists. split; [reflexivity|]. split; [reflexivity|].
  split; [reflexivity|].
  exact (proj1 (spans_locate_text three_pieces no_hash no_pdf
                  two_paragraphs small_file "notes.txt" _)
               _ eq_refl eq_refl).
Defined.

Lemma pdf_without_text_gives_no_chunk_witness :
  exists doc,
    image_pdf "scan.pdf" = Py.Ok doc
    /\ Forall (fun page => blank (Spec.page_text page) = true) doc
    /\ _parse_pdf one_piece no_hash image_pdf "scan.pdf" = Py.Ok [].
Proof.
  eexists. split; [reflexivity|].
  assert (B : Forall (fun page => blank (Spec.page_text page) = true)
                [{| get_text := " ";
                    image_to_string :=
                      Py.Raise
                        (Py.LibraryError "tesseract is not installed") |}
                ]%string)
    by (repeat constructor).
  split; [exact B|].
  exact (pdf_without_text_gives_no_chunk one_piece no_hash image_pdf
           "scan.pdf" _ eq_refl B).
Defined.

Lemma ocr_only_for_blank_pages_witness :
  pdf_chunks one_piece no_hash
    [{| get_text := "Revenue grew 10%.";
        image_to_string := Py.Ok "noise" |}]%string
  = pdf_chunks one_piece no_hash
      [{| get_text := "Revenue grew 10%.";
          image_to_string := Py.Raise Py.TypeError |}]%string.
Proof.
  apply ocr_only_for_blank_pages.
  constructor; [|constructor]. split; [reflexivity|].
  cbn. discriminate.
Defined.

End ChunkFacts.

(* ================================================================== *)
(** * Vector store: names, well-formed and ragged answers, and what the
      results are good for *)
(* ================================================================== *)

Module RetrievalFacts.
Import Retrieval VectorStore Samples.

Lemma length_append (s1 s2 : string) :
  String.length (s1 ++ s2) = (String.length s1 + String.length s2)%nat.
Proof.
  induction s1 as [| c s1 IH]; cbn; [reflexivity|]. rewrite IH.
  reflexivity.
Qed.

Lemma take_length (n : nat) (s : string) :
  String.length (Py.take n s) = Nat.min n (String.length s).
Proof.
  unfold Py.take. revert s. induction n as [| n IH]; intros s.
  - destruct s; reflexivity.
  - destruct s as [| c s]; cbn; [reflexivity|]. rewrite IH. reflexivity.
Qed.

(** The collection name is at most 21 characters long, whatever the
    tenant and project identifiers are; for identifiers with at least 8
    characters other than dashes it is exactly 21. *)
Theorem collection_name_length (tenant_id project_id : string) :
  (String.length (collection_name tenant_id project_id) <= 21)%nat
  /\ ((8 <= String.length (Py.remove_char "-" tenant_id))%nat ->
      (8 <= String.length (Py.remove_char "-" project_id))%nat ->
      String.length (collection_name tenant_id project_id) = 21%nat).
Proof.
  unfold collection_name. rewrite !length_append, !take_length.
  cbn [String.length]. split; [lia|]. intros Ht Hp. lia.
Qed.

Lemma collection_name_length_witness :
  collection_name "123e4567-e89b-12d3-a456-426614174000"
                  "0f8fad5b-d9cb-469f-a165-70867728950e"
  = "t_123e4567_p_0f8fad5b"%string
  /\ String.length
       (collection_name "123e4567-e89b-12d3-a456-426614174000"
                        "0f8fad5b-d9cb-469f-a165-70867728950e") = 21%nat.
Proof.
  split; [reflexivity|].
  apply (proj2 (collection_name_length
                  "123e4567-e89b-12d3-a456-426614174000"
                  "0f8fad5b-d9cb-469f-a165-70867728950e"));
    cbn; lia.
Defined.

Lemma index_lt {A} (l : list A) (i : nat) :
  (i < List.length l)%nat -> exists a, Py.index l i = Py.Ok a
                                       /\ nth_error l i = Some a.
Proof.
  intros H. unfold Py.index.
  destruct (nth_error l i) as [a|] eqn:E.
  - exists a. split; reflexivity.
  - apply nth_error_None in E. lia.
Qed.

Lemma index_ge {A} (l : list A) (i : nat) :
  (List.length l <= i)%nat -> Py.index l i = Py.Raise Py.IndexError.
Proof.
  intros H. unfold Py.index.
  destruct (nth_error l i) as [a|] eqn:E; [|reflexivity].
  assert (i < List.length l)%nat by (apply nth_error_Some; congruence).
  lia.
Qed.

Lemma index_head {A} (l : list (list A)) (row : list A) :
  hd_error l = Some row -> Py.index l 0 = Py.Ok row.
Proof.
  destruct l as [| x l]; cbn; intros H; [discriminate H|].
  injection H as <-. reflexivity.
Qed.

(** An entry either is built or fails with [IndexError]. *)
Lemma entry_outcomes (r : query_result) (i : nat) :
  (exists c, entry r i = Py.Ok c) \/ entry r i = Py.Raise Py.IndexError.
Proof.
  unfold entry.
  assert (I : forall A (l : list A) j,
             (exists a, Py.index l j = Py.Ok a)
             \/ Py.index l j = Py.Raise Py.IndexError).
  { intros A l j. unfold Py.index. destruct (nth_error l j);
      [left; eexists; reflexivity | right; reflexivity]. }
  destruct (I _ (ids r) O) as [[ids0 ->] | ->]; [|right; reflexivity].
  cbn [Py.bind].
  destruct (I _ ids0 i) as [[id ->] | ->]; [|right; reflexivity].
  cbn [Py.bind].
  destruct (I _ (documents r) O) as [[docs0 ->] | ->];
    [|right; reflexivity].
  cbn [Py.bind].
  destruct (I _ docs0 i) as [[doc ->] | ->]; [|right; reflexivity].
  cbn [Py.bind].
  destruct (I _ (metadatas r) O) as [[metas0 ->] | ->];
    [|right; reflexivity].
  cbn [Py.bind].
  destruct (I _ metas0 i) as [[meta ->] | ->]; [|right; reflexivity].
  cbn [Py.bind].
  destruct (has_distances (distances r)).
  - destruct (I _ (Py.get (distances r) []) O) as [[d0 ->] | ->];
      [|right; reflexivity].
    cbn [Py.bind].
    destruct (I _ d0 i) as [[d ->] | ->]; [|right; reflexivity].
    left. eexists. reflexivity.
  - left. eexists. reflexivity.
Qed.

(** A built entry has every key the services read. *)
Lemma entry_fields (r : query_result) (i : nat) (c : chunk) :
  entry r i = Py.Ok c ->
  exists id doc meta sc,
    Py.index (hd [] (ids r)) i = Py.Ok id
    /\ Py.index (hd [] (documents r)) i = Py.Ok doc
    /\ Py.index (hd [] (metadatas r)) i = Py.Ok meta
    /\ c = {| vector_id := Some id; text := Some doc;
              metadata_of := Some meta; score := Some sc;
              chunk_id := md_chunk_id meta |}.
Proof.
  unfold entry.
  destruct (ids r) as [| ids0 ?]; cbn [Py.index nth_error Py.bind hd];
    [discriminate|].
  destruct (Py.index ids0 i) as [id|]; cbn [Py.bind]; [|discriminate].
  destruct (documents r) as [| docs0 ?];
    cbn [Py.index nth_error Py.bind hd]; [discriminate|].
  destruct (Py.index docs0 i) as [doc|]; cbn [Py.bind]; [|discriminate].
  destruct (metadatas r) as [| metas0 ?];
    cbn [Py.index nth_error Py.bind hd]; [discriminate|].
  destruct (Py.index metas0 i) as [meta|]; cbn [Py.bind]; [|discriminate].
  destruct (has_distances (distances r)).
  - destruct (Py.index (Py.get (distances r) []) 0) as [d0|];
      cbn [Py.bind]; [|discriminate].
    destruct (Py.index d0 i) as [d|]; cbn [Py.bind]; [|discriminate].
    intros H. injection H as <-. do 4 eexists. repeat split.
  - intros H. injection H as <-. do 4 eexists. repeat split.
Qed.

Lemma mapM_all_ok {A B} (f : A -> Py.result B) (l : list A) :
  Forall (fun a => exists b, f a = Py.Ok b) l ->
  exists bs, Py.mapM f l = Py.Ok bs.
Proof.
  induction 1 as [| a l [b Hb] _ [bs IH]]; cbn.
  - eexists. reflexivity.
  - rewrite Hb. cbn. rewrite IH. cbn. eexists. reflexivity.
Qed.

Lemma mapM_one_error {A B} (f : A -> Py.result B) (e : Py.exn)
    (l : list A) :
  Forall (fun a => (exists b, f a = Py.Ok b) \/ f a = Py.Raise e) l ->
  Exists (fun a => f a = Py.Raise e) l ->
  Py.mapM f l = Py.Raise e.
Proof.
  induction 1 as [| a l Ha Hl IH]; intros Hex; [inversion Hex|].
  cbn. destruct Ha as [[b Hb] | Hb]; rewrite Hb; cbn; [|reflexivity].
  inversion Hex as [? ? Hh | ? ? Ht]; subst; [congruence|].
  rewrite (IH Ht). reflexivity.
Qed.

Lemma mapM_entry_error (r : query_result) (l : list nat) (e : Py.exn) :
  Py.mapM (entry r) l = Py.Raise e -> e = Py.IndexError.
Proof.
  revert e. induction l as [| i l IH]; intros e H; cbn in H;
    [discriminate H|].
  destruct (entry_outcomes r i) as [[c Hc] | Hc]; rewrite Hc in H;
    cbn in H; [|congruence].
  destruct (Py.mapM (entry r) l) as [bs | e1]; cbn in H;
    [discriminate H|].
  injection H as <-. apply IH. reflexivity.
Qed.

Section Store.

Variable collection_query :
  string -> list Q -> Z -> Py.result query_result.

Let run := query collection_query.

(** When the index answers with rows of equal length, the query returns
    one entry per id, and entry [i] carries id [i], document [i],
    metadata [i] and that metadata's chunk id. *)
Theorem query_returns_aligned_entries
    (tenant_id project_id : string) (query_embedding : list Q)
    (top_k : Z) (r : query_result)
    (ids0 docs0 : list string) (metas0 : list metadata)
    (dists0 : list Q) :
  collection_query (collection_name tenant_id project_id)
                   query_embedding top_k = Py.Ok r ->
  Spec.rectangular r ids0 docs0 metas0 dists0 ->
  exists cs,
    run tenant_id project_id query_embedding top_k = Py.Ok cs
    /\ List.length cs = List.length ids0
    /\ map vector_id cs = map Some ids0
    /\ map text cs = map Some docs0
    /\ map metadata_of cs = map Some metas0
    /\ map chunk_id cs = map md_chunk_id metas0.
Proof.
  intros Hr (Hi & Hd & Hm & Ld & Lm & Hdist).
  subst run. unfold query. rewrite PyFacts.try_reraise, Hr.
  cbn [Py.bind]. unfold transform.
  destruct (ids r) as [| ids0' rest] eqn:Eids; [discriminate Hi|].
  cbn in Hi. injection Hi as ->.
  assert (Ok : Forall (fun i => exists c, entry r i = Py.Ok c)
                      (seq 0 (List.length ids0))).
  { apply Forall_forall. intros i Hin. apply in_seq in Hin.
    unfold entry. rewrite Eids. cbn [Py.index nth_error Py.bind].
    destruct (index_lt ids0 i) as [id [-> _]]; [lia|]. cbn [Py.bind].
    rewrite (index_head _ _ Hd). cbn [Py.bind].
    destruct (index_lt docs0 i) as [doc [-> _]]; [lia|]. cbn [Py.bind].
    rewrite (index_head _ _ Hm). cbn [Py.bind].
    destruct (index_lt metas0 i) as [meta [-> _]]; [lia|].
    cbn [Py.bind].
    destruct (has_distances (distances r)) eqn:Eh.
    - destruct (Hdist eq_refl) as [Hh Lh].
      rewrite (index_head _ _ Hh). cbn [Py.bind].
      destruct (index_lt dists0 i) as [d [-> _]]; [lia|].
      eexists. reflexivity.
    - eexists. reflexivity. }
  destruct (mapM_all_ok _ _ Ok) as [cs Hcs].
  exists cs. split; [exact Hcs|].
  pose proof (PyFacts.mapM_Forall2 _ _ _ Hcs) as F.
  assert (L : List.length cs = List.length ids0).
  { apply Forall2_length in F. rewrite length_seq in F. congruence. }
  split; [exact L|].
  assert (Each : forall i c, nth_error cs i = Some c ->
            vector_id c = nth_error ids0 i
            /\ text c = nth_error docs0 i
            /\ metadata_of c = nth_error metas0 i
            /\ chunk_id c
               = match nth_error metas0 i with
                 | Some m => md_chunk_id m
                 | None => None
                 end).
  { intros i c Hc.
    destruct (PyFacts.Forall2_nth _ _ _ F i c Hc) as [j [Hj He]].
    assert (Hlt : (i < List.length ids0)%nat).
    { rewrite <- L. apply nth_error_Some. congruence. }
    rewrite nth_error_seq in Hj.
    destruct (Nat.ltb_spec i (List.length ids0)); [|lia].
    injection Hj as <-.
    apply entry_fields in He.
    destruct He as (id & doc & meta & sc & H1 & H2 & H3 & ->).
    rewrite Eids in H1. cbn [hd] in H1.
    destruct (documents r) as [| d0 ?]; [discriminate Hd|].
    cbn in Hd. injection Hd as ->. cbn [hd] in H2.
    destruct (metadatas r) as [| m0 ?]; [discriminate Hm|].
    cbn in Hm. injection Hm as ->. cbn [hd] in H3.
    unfold Py.index in H1, H2, H3.
    destruct (nth_error ids0 i); [|discriminate H1].
    destruct (nth_error docs0 i); [|discriminate H2].
    destruct (nth_error metas0 i); [|discriminate H3].
    injection H1 as ->. injection H2 as ->. injection H3 as ->.
    cbn. repeat split. }
  assert (Ext : forall A (g : chunk -> option A) (l : list A),
             List.length l = List.length ids0 ->
             (forall i c, nth_error cs i = Some c ->
                          g c = nth_error l i) ->
             map g cs = map Some l).
  { intros A g l Hl Hg. apply nth_error_ext. intros i.
    rewrite !nth_error_map.
    destruct (nth_error cs i) as [c|] eqn:Ec; cbn.
    - rewrite (Hg i c Ec).
      destruct (nth_error l i) eqn:El; [reflexivity|].
      apply nth_error_None in El.
      assert (i < List.length cs)%nat
        by (apply nth_error_Some; congruence).
      lia.
    - apply nth_error_None in Ec.
      destruct (nth_error l i) eqn:El; [|reflexivity].
      assert (i < List.length l)%nat
        by (apply nth_error_Some; congruence).
      lia. }
  split; [apply Ext; [reflexivity | intros i c Hc; apply Each, Hc]|].
  split; [apply Ext; [exact Ld | intros i c Hc; apply Each, Hc]|].
  split; [apply Ext; [exact Lm | intros i c Hc; apply Each, Hc]|].
  apply nth_error_ext. intros i. rewrite !nth_error_map.
  destruct (nth_error cs i) as [c|] eqn:Ec; cbn.
  - destruct (Each i c Ec) as (_ & _ & _ & H4). rewrite H4.
    destruct (nth_error metas0 i) eqn:El; [reflexivity|].
    apply nth_error_None in El.
    assert (i < List.length cs)%nat by (apply nth_error_Some; congruence).
    lia.
  - apply nth_error_None in Ec.
    destruct (nth_error metas0 i) eqn:El; [|reflexivity].
    assert (i < List.length metas0)%nat
      by (apply nth_error_Some; congruence).
    lia.
Qed.

(** Ragged answers.  For an answer of the index whose rows hold ids,
    document texts, metadata dicts and distances, with rows of any
    lengths (an entry that is [None] is outside this statement: the
    answer type has none), the only exceptions a query raises are the
    index's own and [IndexError]; and it does raise [IndexError] when
    the index answers with fewer documents than ids. *)
Theorem query_errors
    (tenant_id project_id : string) (query_embedding : list Q)
    (top_k : Z) :
  (forall e,
      run tenant_id project_id query_embedding top_k = Py.Raise e ->
      collection_query (collection_name tenant_id project_id)
                       query_embedding top_k = Py.Raise e
      \/ e = Py.IndexError)
  /\ (forall r,
        collection_query (collection_name tenant_id project_id)
                         query_embedding top_k = Py.Ok r ->
        (List.length (hd [] (documents r))
         < List.length (hd [] (ids r)))%nat ->
        run tenant_id project_id query_embedding top_k
        = Py.Raise Py.IndexError).
Proof.
  subst run. unfold query. rewrite PyFacts.try_reraise.
  assert (A : forall r,
             Forall (fun i => (exists c, entry r i = Py.Ok c)
                              \/ entry r i = Py.Raise Py.IndexError)
                    (seq 0 (List.length (hd [] (ids r))))).
  { intros r. apply Forall_forall. intros i _. apply entry_outcomes. }
  split.
  - intros e. destruct (collection_query _ _ _) as [r | e0];
      cbn [Py.bind]; [|intros H; left; injection H as <-; reflexivity].
    intros H. right. unfold transform in H.
    destruct (ids r) as [| ids0 rest]; [discriminate H|].
    apply (mapM_entry_error r _ _ H).
  - intros r Hr Hshort. rewrite Hr. cbn [Py.bind]. unfold transform.
    destruct (ids r) as [| ids0 rest] eqn:Eids;
      [cbn in Hshort; lia|].
    cbn [hd] in Hshort. apply mapM_one_error.
    + specialize (A r). rewrite Eids in A. exact A.
    + apply Exists_exists. exists (List.length (hd [] (documents r))).
      split; [apply in_seq; lia|].
      unfold entry. rewrite Eids. cbn [Py.index nth_error Py.bind].
      destruct (index_lt ids0 (List.length (hd [] (documents r))))
        as [id [-> _]]; [lia|].
      cbn [Py.bind].
      destruct (documents r) as [| docs0 ?]; [reflexivity|].
      cbn [Py.index nth_error Py.bind hd].
      fold (Py.index docs0 (List.length docs0)).
      rewrite index_ge by lia. reflexivity.
Qed.

Lemma query_results_built
    (tenant_id project_id : string) (query_embedding : list Q)
    (top_k : Z) (cs : list chunk) :
  run tenant_id project_id query_embedding top_k = Py.Ok cs ->
  Forall (fun c => exists r i, entry r i = Py.Ok c) cs.
Proof.
  subst run. unfold query. rewrite PyFacts.try_reraise.
  destruct (collection_query _ _ _) as [r | e]; cbn [Py.bind];
    [|discriminate].
  unfold transform. destruct (ids r) as [| ids0 rest].
  - intros H. injection H as <-. constructor.
  - intros H. apply PyFacts.mapM_Forall2 in H.
    induction H as [| i c l cs Hic _ IH]; constructor;
      [exists r, i; exact Hic | exact IH].
Qed.

(** Retrieval composes with scoring: every entry a query returns has a
    text and a score, so scoring the results of a query never takes the
    neutral fallback: the body of [calculate_confidence] returns. *)
Theorem query_results_can_be_scored
    (tenant_id project_id : string) (query_embedding : list Q)
    (top_k : Z) (cs : list chunk)
    (chat : string -> list (string * string)
            -> ConfidenceScorer.grading_reply)
    (answer question key : string) :
  run tenant_id project_id query_embedding top_k = Py.Ok cs ->
  Forall (fun c => text c <> None /\ score c <> None) cs
  /\ exists m,
      ConfidenceScorer.calculate_confidence_body chat cs answer question
                                                 key = Py.Ok m
      /\ ConfidenceScorer.calculate_confidence chat cs answer question
                                               key = Py.Ok m.
Proof.
  intros H. apply query_results_built in H.
  assert (F : Forall (fun c => text c <> None /\ score c <> None) cs).
  { eapply Forall_impl; [|exact H]. intros c [r [i Hc]].
    apply entry_fields in Hc.
    destruct Hc as (id & doc & meta & sc & _ & _ & _ & ->).
    cbn. split; discriminate. }
  split; [exact F|].
  assert (T : Forall Spec.has_text cs).
  { eapply Forall_impl; [|exact F]. intros c [Ht _]. exact Ht. }
  unfold ConfidenceScorer.calculate_confidence,
    ConfidenceScorer.calculate_confidence_body.
  rewrite (ConfidenceScorerFacts.texts_present cs T).
  cbn [Py.bind Py.try_except]. eexists. split; reflexivity.
Qed.

(** Retrieval composes with generation: every entry a query returns has
    the metadata and text the generator reads, so on the results of a
    query the generator returns whenever the model answers with a
    text. *)
Theorem query_results_can_be_answered
    (tenant_id project_id : string) (query_embedding : list Q)
    (top_k : Z) (cs : list chunk)
    (chat : string -> string -> list (string * string)
            -> Py.result (option string))
    (question key model : string) :
  run tenant_id project_id query_embedding top_k = Py.Ok cs ->
  (forall messages, exists a, chat key model messages = Py.Ok (Some a)) ->
  exists a cits,
    AnswerGenerator.generate_answer chat question cs key model
    = Py.Ok (Some a, cits).
Proof.
  intros H Hchat. apply query_results_built in H.
  apply CitationFacts.generate_answer_returns; [|exact Hchat].
  eapply Forall_impl; [|exact H]. intros c [r [i Hc]].
  apply entry_fields in Hc.
  destruct Hc as (id & doc & meta & sc & _ & _ & _ & ->).
  split; cbn; discriminate.
Qed.

End Store.

Lemma query_returns_aligned_entries_witness :
  exists cs,
    query two_entry_index "tenant" "project" [1%Q] 5 = Py.Ok cs
    /\ map vector_id cs = [Some "v1"; Some "v2"]%string
    /\ map text cs
       = [Some "Revenue grew 10%."; Some "Net income was $5M."]%string.
Proof.
  destruct (query_returns_aligned_entries two_entry_index "tenant"
              "project" [1%Q] 5 _ ["v1"; "v2"]%string
              ["Revenue grew 10%."; "Net income was $5M."]%string
              [no_metadata; no_metadata] [0.1; 0.2]%Q eq_refl)
    as [cs (Hq & _ & Hv & Ht & _)].
  - repeat split; reflexivity.
  - exists cs. split; [exact Hq|]. split; [exact Hv | exact Ht].
Defined.

Lemma query_errors_witness :
  query ragged_index "tenant" "project" [1%Q] 5 = Py.Raise Py.IndexError.
Proof.
  apply (proj2 (query_errors ragged_index "tenant" "project" [1%Q] 5)
               _ eq_refl).
  cbn. lia.
Defined.

Lemma query_results_can_be_scored_witness :
  exists cs m,
    query two_entry_index "tenant" "project" [1%Q] 5 = Py.Ok cs
    /\ ConfidenceScorer.calculate_confidence (grader (Py.Fin 0.9)) cs
         "a" "q" "k" = Py.Ok m
    /\ ConfidenceScorer.retrieval m = Py.Fin (850 # 1000).
Proof.
  eexists.
  destruct (query_results_can_be_scored two_entry_index "tenant" "project"
              [1%Q] 5 _ (grader (Py.Fin 0.9)) "a" "q" "k" eq_refl)
    as [_ [m [_ Hm]]].
  exists m. split; [reflexivity|]. split; [exact Hm|].
  cbn in Hm. injection Hm as <-. reflexivity.
Defined.

Lemma query_results_can_be_answered_witness :
  exists cs a cits,
    query two_entry_index "tenant" "project" [1%Q] 5 = Py.Ok cs
    /\ AnswerGenerator.generate_answer analyst "What was net income?" cs
         "key" "gpt-4o" = Py.Ok (Some a, cits).
Proof.
  eexists.
  destruct (query_results_can_be_answered two_entry_index "tenant"
              "project" [1%Q] 5 _ analyst "What was net income?" "key"
              "gpt-4o" eq_refl) as [a [cits H]].
  - intros messages. eexists. reflexivity.
  - exists a, cits. split; [reflexivity | exact H].
Defined.

End RetrievalFacts.

(* ================================================================== *)
(** * Answer generator: excerpts, failures, and the job's copy of the
      citation loop *)
(* ================================================================== *)

Module GeneratorFacts.
Import Retrieval AnswerGenerator Samples.

(** The excerpt of a text is the text when that has at most 200
    characters, and otherwise its first 200 characters followed by three
    dots, 203 characters in all. *)
Lemma excerpt_text_bounds (t : string) :
  (String.length (Spec.excerpt_text t) <= 203)%nat
  /\ ((String.length t <= 200)%nat -> Spec.excerpt_text t = t)
  /\ ((200 < String.length t)%nat ->
      Spec.excerpt_text t = (String.substring 0 200 t ++ "...")%string
      /\ String.length (Spec.excerpt_text t) = 203%nat).
Proof.
  unfold Spec.excerpt_text.
  destruct (Nat.leb_spec (String.length t) 200) as [H | H].
  - split; [lia|]. split; [reflexivity|]. lia.
  - assert (L : String.length (String.substring 0 200 t ++ "...")
                = 203%nat).
    { rewrite RetrievalFacts.length_append.
      change (String.substring 0 200 t) with (Py.take 200 t).
      rewrite RetrievalFacts.take_length. cbn [String.length]. lia. }
    split; [lia|]. split; [lia|]. intros _. split; [reflexivity|exact L].
Qed.

(** Every citation of [Spec.cited] whose context has a text carries the
    excerpt of that text. *)
Lemma cited_excerpts (a : string) (contexts : list chunk) :
  Forall (fun p => Py.contains (Spec.label (fst p)) a = true ->
                   text (snd p) <> None) (Py.enumerate 1 contexts) ->
  Forall (fun c => exists ctx t,
              nth_error contexts (citation_order c - 1) = Some ctx
              /\ text ctx = Some t
              /\ excerpt c = Spec.excerpt_text t)
         (Spec.cited a (Py.enumerate 1 contexts)).
Proof.
  intros Hall. apply Forall_forall. intros c Hc.
  unfold Spec.cited in Hc. apply in_map_iff in Hc.
  destruct Hc as [[idx ctx] [<- Hin]]. apply filter_In in Hin.
  destruct Hin as [Hin Hlabel]. cbn [fst snd] in *.
  rewrite Forall_forall in Hall. specialize (Hall _ Hin Hlabel).
  cbn [snd] in Hall.
  apply CitationFacts.enumerate_nth in Hin. destruct Hin as [_ Hnth].
  destruct (text ctx) as [t|] eqn:Et; [|congruence].
  exists ctx, t. cbn [citation_order Spec.citation_of excerpt].
  try rewrite Et. split; [exact Hnth|]. split; reflexivity.
Qed.

Lemma context_fold_complete (numbered : list (nat * chunk)) :
  forall acc r,
    Py.foldM context_step numbered acc = Py.Ok r ->
    Forall (fun p => Spec.complete (snd p)) numbered.
Proof.
  induction numbered as [| [idx ctx] l IH]; intros acc r H;
    [constructor|].
  cbn [Py.foldM] in H. unfold context_step at 1 in H.
  destruct (metadata_of ctx) as [md|] eqn:Em; cbn in H; [|discriminate H].
  destruct (text ctx) as [t|] eqn:Et; cbn in H; [|discriminate H].
  constructor; [|eapply IH; exact H].
  unfold Spec.complete. cbn [snd]. rewrite Em, Et. split; discriminate.
Qed.

Lemma context_fold_incomplete (numbered : list (nat * chunk)) :
  Exists (fun p => metadata_of (snd p) = None \/ text (snd p) = None)
         numbered ->
  forall acc,
    Py.foldM context_step numbered acc = Py.Raise (Py.KeyError "metadata")
    \/ Py.foldM context_step numbered acc = Py.Raise (Py.KeyError "text").
Proof.
  induction numbered as [| [idx ctx] l IH]; intros H acc;
    [inversion H|].
  cbn [Py.foldM]. unfold context_step at 1 3.
  destruct (metadata_of ctx) as [md|] eqn:Em; cbn; [|left; reflexivity].
  destruct (text ctx) as [t|] eqn:Et; cbn; [|right; reflexivity].
  apply IH. inversion H as [? ? Hh | ? ? Ht]; subst; [|exact Ht].
  cbn [snd] in Hh. rewrite Em, Et in Hh. destruct Hh; discriminate.
Qed.

Lemma enumerate_Exists {A} (P : A -> Prop) (l : list A) :
  Exists P l ->
  forall start, Exists (fun p => P (snd p)) (Py.enumerate start l).
Proof.
  unfold Py.enumerate.
  induction 1 as [x l Hx | x l _ IH]; intros start; cbn.
  - constructor. exact Hx.
  - apply Exists_cons_tl. apply IH.
Qed.

Lemma task_citation_fold_returns (a : string)
    (numbered : list (nat * chunk)) :
  Forall (fun p => text (snd p) <> None) numbered ->
  forall acc, exists cits,
    Py.foldM (Tasks.task_citation_step (Some a)) numbered acc
    = Py.Ok cits.
Proof.
  induction 1 as [| [idx ctx] l Ht _ IH]; intros acc.
  - exists acc. reflexivity.
  - cbn [Py.foldM]. unfold Tasks.task_citation_step at 1.
    cbn [label_in Py.bind snd] in *.
    destruct (Py.contains (label idx) a); cbn [Py.bind]; [|apply IH].
    destruct (text ctx) as [t|]; [|congruence].
    cbn [Py.getitem Py.bind]. apply IH.
Qed.

Section Generator.

Variable chat :
  string -> string -> list (string * string) -> Py.result (option string).

(** A context without metadata or without text makes the generator
    raise [KeyError], whatever the model would answer. *)
Theorem incomplete_context_raises_key_error
    (question : string) (contexts : list chunk) (key model : string) :
  Exists (fun c => metadata_of c = None \/ text c = None) contexts ->
  generate_answer chat question contexts key model
  = Py.Raise (Py.KeyError "metadata")
  \/ generate_answer chat question contexts key model
     = Py.Raise (Py.KeyError "text").
Proof.
  intros H. unfold generate_answer.
  destruct (context_fold_incomplete _ (enumerate_Exists _ _ H 1%nat)
                                    EmptyString) as [E | E];
    rewrite E; [left | right]; reflexivity.
Qed.

(** An exception of the model call is raised unchanged by the
    generator; and a message without content gives the pair
    [(None, [])] when there is no context, and a [TypeError] as soon as
    there is one (complete) context. *)
Theorem model_failures
    (question : string) (contexts : list chunk) (key model : string) :
  Forall Spec.complete contexts ->
  (forall e,
      (forall messages, chat key model messages = Py.Raise e) ->
      generate_answer chat question contexts key model = Py.Raise e)
  /\ ((forall messages, chat key model messages = Py.Ok None) ->
      generate_answer chat question contexts key model
      = match contexts with
        | [] => Py.Ok (None, [])
        | _ :: _ => Py.Raise Py.TypeError
        end).
Proof.
  intros Hall. unfold generate_answer.
  destruct (CitationFacts.context_fold_returns _
              (CitationFacts.enumerate_all _ _ Hall 1%nat) EmptyString)
    as [context_text ->].
  cbn [Py.bind]. split.
  - intros e He. rewrite He. reflexivity.
  - intros Hn. rewrite Hn. cbn [Py.bind].
    destruct contexts as [| c cs]; reflexivity.
Qed.

(** The citation loop copied into the answering job agrees with the
    generator: whenever the generator returns an answer text with its
    citations, the job's loop returns the same citations for the same
    contexts and text. *)
Theorem job_citations_agree_with_generator
    (question : string) (contexts : list chunk) (key model : string)
    (a : string) (cits : list citation) :
  generate_answer chat question contexts key model
  = Py.Ok (Some a, cits) ->
  Tasks.task_citations contexts (Some a) = Py.Ok cits.
Proof.
  intros H.
  pose proof (CitationFacts.generate_answer_citations chat _ _ _ _ _ _ H)
    as E.
  unfold generate_answer in H.
  destruct (Py.foldM context_step (Py.enumerate 1 contexts) EmptyString)
    as [context_text | e] eqn:Ec; cbn [Py.bind Py.try_except] in H;
    [|discriminate H].
  apply context_fold_complete in Ec.
  assert (T : Forall (fun p => text (snd p) <> None)
                     (Py.enumerate 1 contexts)).
  { eapply Forall_impl; [|exact Ec]. intros p [_ Ht]. exact Ht. }
  destruct (task_citation_fold_returns a _ T []) as [cits' Hc].
  unfold Tasks.task_citations. rewrite Hc. f_equal.
  apply CitationFacts.task_citation_fold in Hc.
  destruct Hc as [Hc _]. rewrite app_nil_l in Hc.
  congruence.
Qed.

(** Excerpts.  Every citation the generator returns, and every citation
    of the job's loop, carries as excerpt the text of the context at
    its order when that text has at most 200 characters, and otherwise
    the first 200 characters of that text followed by three dots, 203
    characters in all; so no excerpt has more than 203 characters. *)
Theorem excerpt_bounds
    (question : string) (contexts : list chunk) (key model : string)
    (a : string) (cits : list citation) :
  generate_answer chat question contexts key model = Py.Ok (Some a, cits)
  \/ Tasks.task_citations contexts (Some a) = Py.Ok cits ->
  Forall (fun c => exists ctx t,
              nth_error contexts (citation_order c - 1) = Some ctx
              /\ text ctx = Some t
              /\ (String.length (excerpt c) <= 203)%nat
              /\ ((String.length t <= 200)%nat -> excerpt c = t)
              /\ ((200 < String.length t)%nat ->
                  excerpt c = (String.substring 0 200 t ++ "...")%string
                  /\ String.length (excerpt c) = 203%nat)) cits.
Proof.
  intros H.
  assert (E : cits = Spec.cited a (Py.enumerate 1 contexts)
              /\ Forall (fun p =>
                           Py.contains (Spec.label (fst p)) a = true ->
                           text (snd p) <> None)
                        (Py.enumerate 1 contexts)).
  { destruct H as [H | H].
    - unfold generate_answer in H.
      destruct (Py.foldM context_step (Py.enumerate 1 contexts)
                         EmptyString)
        as [context_text | e]; cbn [Py.bind Py.try_except] in H;
        [|discriminate H].
      destruct (chat key model _) as [answer_text | e];
        cbn [Py.bind Py.try_except] in H; [|discriminate H].
      destruct (Py.foldM (citation_step answer_text) _ [])
        as [used | e] eqn:Ef; cbn [Py.bind Py.try_except] in H;
        [|discriminate H].
      injection H as -> ->.
      apply CitationFacts.citation_fold in Ef. exact Ef.
    - unfold Tasks.task_citations in H.
      apply CitationFacts.task_citation_fold in H. exact H. }
  destruct E as [-> Hall].
  eapply Forall_impl; [| apply cited_excerpts; exact Hall].
  intros c (ctx & t & Hnth & Ht & He).
  exists ctx, t. rewrite He.
  split; [exact Hnth|]. split; [exact Ht|]. apply excerpt_text_bounds.
Qed.

End Generator.

(** The job's citation loop needs only the texts: for contexts that have
    a text, with or without metadata, it returns the citations of the
    contexts whose literal label (an opening bracket, the decimal digits
    of the position, a closing bracket) occurs in the answer, and of no
    other; a citation of a context without metadata has no document id
    and no page number. *)
Theorem job_citations_without_metadata
    (contexts : list chunk) (a : string) :
  Forall Spec.has_text contexts ->
  exists cits,
    Tasks.task_citations contexts (Some a) = Py.Ok cits
    /\ cits = Spec.cited a (Py.enumerate 1 contexts)
    /\ (forall i, In i (map citation_order cits)
                  <-> (1 <= i <= List.length contexts)%nat
                      /\ Spec.occurs (Spec.label i) a)
    /\ forall c ctx,
        In c cits ->
        nth_error contexts (citation_order c - 1) = Some ctx ->
        metadata_of ctx = None ->
        cit_document_id c = None /\ cit_page_number c = None.
Proof.
  intros H.
  assert (T : Forall (fun p => text (snd p) <> None)
                     (Py.enumerate 1 contexts))
    by (apply (CitationFacts.enumerate_all Spec.has_text), H).
  destruct (task_citation_fold_returns a _ T []) as [cits Hc].
  exists cits. split; [exact Hc|].
  pose proof (CitationFacts.task_citation_fold _ _ _ _ Hc) as [E _].
  rewrite app_nil_l in E. split; [exact E|]. subst cits.
  split; [apply (CitationFacts.cited_properties a contexts)|].
  intros c ctx Hin Hnth Hmd. unfold Spec.cited in Hin.
  apply in_map_iff in Hin. destruct Hin as [[idx ctx'] [<- Hin]].
  apply filter_In in Hin. destruct Hin as [Hin _].
  apply CitationFacts.enumerate_nth in Hin. destruct Hin as [_ Hn].
  cbn [fst snd citation_order Spec.citation_of cit_document_id
       cit_page_number] in *.
  rewrite Hnth in Hn. injection Hn as <-. rewrite Hmd.
  split; reflexivity.
Qed.

Lemma incomplete_context_raises_key_error_witness :
  generate_answer analyst "What was net income?"
    [context "Revenue grew 10%." 0.9; bare_context "Net income was $5M."]
    "key" "gpt-4o"
  = Py.Raise (Py.KeyError "metadata").
Proof.
  destruct (incomplete_context_raises_key_error analyst
              "What was net income?"
              [context "Revenue grew 10%." 0.9;
               bare_context "Net income was $5M."] "key" "gpt-4o")
    as [H | H].
  - apply Exists_cons_tl. constructor. left. reflexivity.
  - exact H.
  - exfalso. vm_compute in H. discriminate H.
Defined.

Lemma model_failures_witness :
  generate_answer silent "What was net income?" [] "key" "gpt-4o"
  = Py.Ok (None, [])
  /\ generate_answer silent "What was net income?"
       [context "Revenue grew 10%." 0.9] "key" "gpt-4o"
     = Py.Raise Py.TypeError.
Proof.
  split.
  - apply (proj2 (model_failures silent "What was net income?" [] "key"
                    "gpt-4o" (Forall_nil _))).
    reflexivity.
  - assert (C : Forall Spec.complete [context "Revenue grew 10%." 0.9])
      by (repeat constructor; discriminate).
    apply (proj2 (model_failures silent "What was net income?"
                    [context "Revenue grew 10%." 0.9] "key" "gpt-4o" C)).
    reflexivity.
Defined.

Lemma job_citations_agree_with_generator_witness :
  exists cits,
    generate_answer analyst "What was net income?"
      [context "Revenue grew 10%." 0.9; context "Net income was $5M." 0.8]
      "key" "gpt-4o"
    = Py.Ok (Some "Net income was $5M [2]."%string, cits)
    /\ Tasks.task_citations
         [context "Revenue grew 10%." 0.9;
          context "Net income was $5M." 0.8]
         (Some "Net income was $5M [2]."%string) = Py.Ok cits.
Proof.
  eexists. split; [reflexivity|].
  apply (job_citations_agree_with_generator analyst "What was net income?"
           [context "Revenue grew 10%." 0.9;
            context "Net income was $5M." 0.8] "key" "gpt-4o").
  reflexivity.
Defined.

Lemma job_citations_without_metadata_witness :
  exists cits,
    Tasks.task_citations
      [context "Revenue grew 10%." 0.9; bare_context "Net income was $5M."]
      (Some "In year 1 net income was $5M [2]."%string) = Py.Ok cits
    /\ map citation_order cits = [2%nat]
    /\ map cit_document_id cits = [None].
Proof.
  destruct (job_citations_without_metadata
              [context "Revenue grew 10%." 0.9;
               bare_context "Net income was $5M."]
              "In year 1 net income was $5M [2].") as [cits (Hc & E & _)].
  - repeat constructor; discriminate.
  - exists cits. split; [exact Hc|]. rewrite E. split; reflexivity.
Defined.

Lemma excerpt_bounds_witness :
  exists c,
    generate_answer analyst "What was net income?"
      [context "Revenue grew 10%." 0.9; context long_text 0.8]
      "key" "gpt-4o"
    = Py.Ok (Some "Net income was $5M [2]."%string, [c])
    /\ excerpt c = (String.substring 0 200 long_text ++ "...")%string
    /\ String.length (excerpt c) = 203%nat.
Proof.
  assert (E : generate_answer analyst "What was net income?"
                [context "Revenue grew 10%." 0.9; context long_text 0.8]
                "key" "gpt-4o"
              = Py.Ok (Some "Net income was $5M [2]."%string,
                       [Spec.citation_of 2 (context long_text 0.8)]))
    by reflexivity.
  exists (Spec.citation_of 2 (context long_text 0.8)).
  split; [exact E|].
  pose proof (excerpt_bounds analyst "What was net income?"
                [context "Revenue grew 10%." 0.9; context long_text 0.8]
                "key" "gpt-4o" "Net income was $5M [2]." _
                (or_introl E)) as H.
  inversion H as [| c cs (ctx & t & Hnth & Ht & _ & _ & Hlong) _]; subst.
  cbn in Hnth. injection Hnth as <-. cbn in Ht. injection Ht as <-.
  apply Hlong. cbn. lia.
Defined.

End GeneratorFacts.

(* ================================================================== *)
(** * Evaluator: the overall score and the sub-metrics *)
(* ================================================================== *)

Module MetricFacts.
Import EvaluationService Samples.

(** The overall score is the weighted mean, with weights 25%, 25% and 50%
    renormalized over the entries that are not [None], of BLEU, the
    ROUGE-L entry of the dict (0 when the key is missing) and the semantic
    similarity; with all three present it is
    0.25 BLEU + 0.25 ROUGE-L + 0.5 similarity, and it is absent only when
    all three are [None]. *)
Lemma overall_score_cases
    (bleu : option Q) (rouge : rouge_dict) (semantic : option Q) :
  exists overall,
    _calculate_overall_score bleu rouge semantic = Py.Ok overall
    /\ Spec.same_score overall
         (Spec.renormalized
            [(1 # 4, bleu);
             (1 # 4, dict_get rouge "rougeL_f1" (Some 0%Q));
             (1 # 2, semantic)]%Q)
    /\ (forall b r s,
          bleu = Some b ->
          dict_get rouge "rougeL_f1" (Some 0%Q) = Some r ->
          semantic = Some s ->
          Spec.same_score overall
            (Some ((1 # 4) * b + (1 # 4) * r + (1 # 2) * s)%Q))
    /\ (overall = None <->
        bleu = None /\ dict_get rouge "rougeL_f1" (Some 0%Q) = None
        /\ semantic = None).
Proof.
  unfold _calculate_overall_score.
  destruct bleu as [b|], (dict_get rouge "rougeL_f1" (Some 0%Q)) as [r|],
    semantic as [s|]; cbn; eexists; (split; [reflexivity|]);
    (split; [cbn; try exact I; field|]);
    (split; [intros b' r' s' Hb Hr Hs; try discriminate;
             injection Hb as <-; injection Hr as <-; injection Hs as <-;
             cbn; field|]);
    split; try discriminate; try (intros (? & ? & ?); discriminate);
    try (intros _; repeat split); try reflexivity.
Qed.

(** The overall score of sub-scores that lie in [0,1] lies in [0,1]. *)
Theorem overall_score_in_unit
    (bleu : option Q) (rouge : rouge_dict) (semantic : option Q) :
  Spec.present_in_unit bleu ->
  Spec.present_in_unit (dict_get rouge "rougeL_f1" (Some 0%Q)) ->
  Spec.present_in_unit semantic ->
  exists overall,
    _calculate_overall_score bleu rouge semantic = Py.Ok overall
    /\ Spec.present_in_unit overall.
Proof.
  unfold _calculate_overall_score.
  destruct bleu as [b|], (dict_get rouge "rougeL_f1" (Some 0%Q)) as [r|],
    semantic as [s|]; cbn; intros Hb Hr Hs; eexists;
    (split; [reflexivity|]); cbn; try exact I;
    repeat match goal with
           | |- context [(?a / ?b)%Q] =>
               let v := eval vm_compute in (Qred (a / b)) in
               setoid_replace (a / b)%Q with v by reflexivity
           end;
    lra.
Qed.

Section Evaluator.

Variable word_tokenize : string -> Py.result (list string).
Variable sentence_bleu : list string -> list string -> Py.result Q.
Variable rouge_score : string -> string -> Py.result (Q * Q * Q).
Variable openai_api_key : option string.
Variable embedding_similarity :
  string -> string -> string -> Py.result Q.

Let bleu := _calculate_bleu word_tokenize sentence_bleu.

Lemma calculate_bleu_returns (generated reference : string) :
  exists o, bleu generated reference = Py.Ok o.
Proof.
  subst bleu. unfold _calculate_bleu.
  apply EvaluationFacts.try_except_total.
Qed.

(** BLEU never raises.  When both texts tokenize and one of them has no
    token it is 0.0 without the scorer being consulted; it is the
    scorer's value when both have tokens and the scorer returns; and it
    is absent exactly when the tokenizer or the scorer raised. *)
Theorem calculate_bleu_outcomes (generated reference : string) :
  (exists o, bleu generated reference = Py.Ok o)
  /\ (forall rt gt,
        word_tokenize reference = Py.Ok rt ->
        word_tokenize generated = Py.Ok gt ->
        rt = [] \/ gt = [] ->
        bleu generated reference = Py.Ok (Some 0.0%Q))
  /\ (forall rt gt x,
        word_tokenize reference = Py.Ok rt ->
        word_tokenize generated = Py.Ok gt ->
        rt <> [] -> gt <> [] ->
        sentence_bleu rt gt = Py.Ok x ->
        bleu generated reference = Py.Ok (Some x))
  /\ (bleu generated reference = Py.Ok None <->
      (exists e, word_tokenize reference = Py.Raise e)
      \/ (exists e, word_tokenize generated = Py.Raise e)
      \/ (exists rt gt e,
            word_tokenize reference = Py.Ok rt
            /\ word_tokenize generated = Py.Ok gt
            /\ rt <> [] /\ gt <> []
            /\ sentence_bleu rt gt = Py.Raise e)).
Proof.
  subst bleu. unfold _calculate_bleu.
  split; [apply EvaluationFacts.try_except_total|].
  split; [|split].
  - intros rt gt -> -> [-> | ->]; cbn; [reflexivity|].
    destruct rt; reflexivity.
  - intros rt gt x -> -> Hr Hg Hx. cbn.
    destruct rt; [congruence|]. destruct gt; [congruence|].
    cbn. rewrite Hx. reflexivity.
  - destruct (word_tokenize reference) as [rt | e1] eqn:Er; cbn.
    + destruct (word_tokenize generated) as [gt | e2] eqn:Eg; cbn.
      * destruct rt as [| r0 rt]; cbn.
        -- split; [discriminate|].
           intros [[e H] | [[e H] | (rt' & gt' & e & H1 & _ & H3 & _)]];
             try discriminate. injection H1 as <-. congruence.
        -- destruct gt as [| g0 gt]; cbn.
           ++ split; [discriminate|].
              intros [[e H] | [[e H]
                              | (rt' & gt' & e & _ & H2 & _ & H4 & _)]];
                try discriminate. injection H2 as <-. congruence.
           ++ destruct (sentence_bleu (r0 :: rt) (g0 :: gt))
                as [x | e3] eqn:Es; cbn.
              ** split; [discriminate|].
                 intros [[e H] | [[e H]
                                 | (rt' & gt' & e & H1 & H2 & _ & _
                                    & H5)]];
                   try discriminate.
                 injection H1 as <-. injection H2 as <-. congruence.
              ** split; [|reflexivity]. intros _. right. right.
                 exists (r0 :: rt), (g0 :: gt), e3.
                 repeat split; try discriminate. exact Es.
      * split; [|reflexivity]. intros _. right. left. exists e2.
        reflexivity.
    + split; [|reflexivity]. intros _. left. exists e1. reflexivity.
Qed.

(** For [None] or string inputs the evaluation does not fall back to
    the all-absent record: the three ROUGE fields are numbers (0.0 when
    the ROUGE computation failed), BLEU and the semantic similarity are
    the rounded helper results, and the overall score is present. *)
Theorem evaluate_on_texts (generated_answer ground_truth : text_arg) :
  generated_answer <> ArgOther -> ground_truth <> ArgOther ->
  exists m gen gt b s,
    _normalize_text generated_answer = Py.Ok gen
    /\ _normalize_text ground_truth = Py.Ok gt
    /\ bleu gen gt = Py.Ok b
    /\ _calculate_semantic_similarity openai_api_key
         embedding_similarity gen gt = Py.Ok s
    /\ evaluate word_tokenize sentence_bleu rouge_score openai_api_key
                embedding_similarity generated_answer ground_truth
       = Py.Ok m
    /\ bleu_score m = option_map (fun x => Py.Qround x 4) b
    /\ semantic_similarity m = option_map (fun x => Py.Qround x 4) s
    /\ rouge_1_f1 m <> None /\ rouge_2_f1 m <> None
    /\ rouge_l_f1 m <> None /\ overall_score m <> None.
Proof.
  intros Hg Ht. unfold evaluate, evaluate_body.
  assert (N : forall a, a <> ArgOther ->
                        exists s, _normalize_text a = Py.Ok s).
  { intros [| s |] Ha; cbn; [eexists; reflexivity | | congruence].
    destruct (Py.truthy s); eexists; reflexivity. }
  destruct (N _ Hg) as [gen Hgen]. destruct (N _ Ht) as [gt Hgt].
  rewrite Hgen, Hgt. cbn [Py.bind].
  destruct (calculate_bleu_returns gen gt) as [b Hb].
  unfold bleu in Hb |- *. rewrite Hb. cbn [Py.bind].
  destruct (EvaluationFacts.calculate_rouge_values rouge_score gen gt)
    as (r1 & r2 & rl & ->).
  cbn [Py.bind].
  destruct (EvaluationFacts.try_except_total
              (match openai_api_key with
               | None => Py.Raise (Py.LibraryError "api_key must be set")
               | Some key =>
                   if Py.truthy key
                   then similarity <- embedding_similarity key gen gt ;;
                        Py.Ok (Some similarity)
                   else Py.Ok None
               end) None) as [s Hs].
  unfold _calculate_semantic_similarity. rewrite Hs. cbn [Py.bind].
  destruct (overall_score_cases b
              [("rouge1_f1", Some r1); ("rouge2_f1", Some r2);
               ("rougeL_f1", Some rl)]%string s)
    as [o (Ho & _ & _ & Hnone)].
  rewrite Ho. cbn.
  exists {| bleu_score := option_map (fun b0 => Py.Qround b0 4) b;
            rouge_1_f1 := Some (Py.Qround r1 4);
            rouge_2_f1 := Some (Py.Qround r2 4);
            rouge_l_f1 := Some (Py.Qround rl 4);
            semantic_similarity :=
              option_map (fun s0 => Py.Qround s0 4) s;
            overall_score := option_map (fun o0 => Py.Qround o0 4) o |},
    gen, gt, b, s.
  repeat split; try reflexivity; try discriminate;
    try exact Hb; try exact Hs.
  cbn. destruct o as [x|]; [discriminate|].
  destruct (proj1 Hnone eq_refl) as (_ & H & _). discriminate H.
Qed.

End Evaluator.

Lemma overall_score_in_unit_witness :
  exists overall,
    _calculate_overall_score (Some 0.8%Q)
      [("rougeL_f1"%string, Some 0.5%Q)] None = Py.Ok overall
    /\ Spec.present_in_unit overall.
Proof.
  apply overall_score_in_unit; cbn; try exact I; lra.
Defined.

Lemma calculate_bleu_outcomes_witness :
  _calculate_bleu one_token bleu_08 "a" "b" = Py.Ok (Some 0.8%Q)
  /\ _calculate_bleu no_tokenizer bleu_08 "a" "b" = Py.Ok None.
Proof.
  split.
  - apply (proj1 (proj2 (proj2 (calculate_bleu_outcomes one_token bleu_08
                                  "a" "b")))
                 ["b"%string] ["a"%string]); try reflexivity;
      discriminate.
  - apply (proj2 (proj2 (proj2 (calculate_bleu_outcomes no_tokenizer
                                  bleu_08 "a" "b")))).
    left. eexists. reflexivity.
Defined.

Lemma evaluate_on_texts_witness :
  exists m,
    evaluate one_token bleu_08 no_rouge (Some "sk"%string) similarity_08
             ArgNone (ArgStr "Net income was $5M.") = Py.Ok m
    /\ rouge_l_f1 m <> None.
Proof.
  destruct (evaluate_on_texts one_token bleu_08 no_rouge (Some "sk"%string)
              similarity_08 ArgNone (ArgStr "Net income was $5M."))
    as (m & gen & gt & b & s & _ & _ & _ & _ & Hm & _ & _ & _ & _ & Hl & _);
    try discriminate.
  exists m. split; [exact Hm | exact Hl].
Defined.

End MetricFacts.

(* ================================================================== *)
(** * Embedding in batches *)
(* ================================================================== *)

Module BatchingFacts.
Import Batching Samples.

Lemma slice_size {A} (l : list A) (i size : nat) :
  slice l i (i + size) = firstn size (skipn i l).
Proof. unfold slice. replace (i + size - i)%nat with size by lia.
       reflexivity. Qed.

Lemma batches_unfold (size : nat) (texts : list string) :
  Spec.batches size texts
  = map (fun k => firstn size (skipn (k * size) texts))
        (seq 0 ((List.length texts + size - 1) / size)).
Proof.
  unfold Spec.batches, range_step. rewrite map_map.
  apply map_ext. intros k. apply slice_size.
Qed.

Lemma pieces_concat {A} (size m : nat) :
  forall l : list A,
    (List.length l <= m * size)%nat ->
    List.concat (map (fun k => firstn size (skipn (k * size) l)) (seq 0 m)) = l.
Proof.
  induction m as [| m IH]; intros l H.
  - destruct l; [reflexivity | cbn in H; lia].
  - cbn [seq map List.concat]. rewrite <- seq_shift, map_map.
    cbn [Nat.mul Nat.add skipn].
    transitivity (firstn size l ++ skipn size l);
      [| apply firstn_skipn].
    f_equal.
    transitivity
      (List.concat
         (map (fun k => firstn size (skipn (k * size) (skipn size l)))
              (seq 0 m))).
    + f_equal. apply map_ext. intros k.
      rewrite skipn_skipn. do 2 f_equal. lia.
    + apply IH. rewrite length_skipn. lia.
Qed.

Lemma batch_count (n size : nat) :
  (0 < size)%nat ->
  (n <= (n + size - 1) / size * size)%nat
  /\ (0 < n -> ((n + size - 1) / size - 1) * size < n)%nat.
Proof.
  intros H.
  pose proof (Nat.div_mod_eq (n + size - 1) size) as E.
  pose proof (Nat.mod_upper_bound (n + size - 1) size) as U.
  split; [nia|]. intros Hn. nia.
Qed.

Lemma batches_concat (size : nat) (texts : list string) :
  (0 < size)%nat -> List.concat (Spec.batches size texts) = texts.
Proof.
  intros H. rewrite batches_unfold. apply pieces_concat.
  apply (batch_count (List.length texts) size H).
Qed.

(** The batches partition the texts: concatenated in order they give the
    texts back, and each batch has at least one and at most [size]
    texts. *)
Theorem batches_partition (size : nat) (texts : list string) :
  (0 < size)%nat ->
  List.concat (Spec.batches size texts) = texts
  /\ Forall (fun b => (1 <= List.length b <= size)%nat)
            (Spec.batches size texts).
Proof.
  intros H. split; [apply batches_concat; exact H|].
  rewrite batches_unfold.
  destruct (batch_count (List.length texts) size H) as [Hc Hlast].
  apply Forall_forall. intros b Hb. apply in_map_iff in Hb.
  destruct Hb as [k [<- Hk]]. apply in_seq in Hk.
  rewrite length_firstn, length_skipn.
  assert (0 < List.length texts)%nat.
  { destruct (Nat.eq_dec (List.length texts) 0) as [E | E]; [|lia].
    rewrite E in Hk.
    rewrite (Nat.div_small (0 + size - 1) size) in Hk by lia. lia. }
  assert (k * size <= ((List.length texts + size - 1) / size - 1) * size)%nat
    by (apply Nat.mul_le_mono_r; lia).
  specialize (Hlast ltac:(assumption)). lia.
Qed.

Section Embedder.

Variable embeddings_create : list string -> Py.result (list vector).

Lemma embed_fold (texts : list string) (size : nat)
    (g : list string -> list vector) (starts : list nat) :
  Forall (fun i => embeddings_create (slice texts i (i + size))
                   = Py.Ok (g (slice texts i (i + size)))) starts ->
  forall acc,
    Py.foldM (batch_step embeddings_create texts size) starts acc
    = Py.Ok (acc ++ List.concat (map (fun i => g (slice texts i (i + size)))
                                starts)).
Proof.
  induction 1 as [| i starts Hi _ IH]; intros acc; cbn.
  - rewrite app_nil_r. reflexivity.
  - unfold batch_step at 1. rewrite Hi. cbn [Py.bind].
    rewrite IH, <- app_assoc. reflexivity.
Qed.

(** Batching is transparent.  When the provider embeds each text of a
    request on its own (a request for a batch returns the vector of
    each of its texts, in order), embedding in batches of any positive
    size, and so in the job's batches of 2000, returns the vector of
    each text in order, one per text. *)
Theorem batching_is_transparent
    (f : string -> vector) (size : nat) (texts : list string) :
  (0 < size)%nat ->
  (forall batch, embeddings_create batch = Py.Ok (map f batch)) ->
  embed_batches embeddings_create size texts = Py.Ok (map f texts)
  /\ embed_texts embeddings_create texts = Py.Ok (map f texts).
Proof.
  intros Hsize Hf.
  assert (G : forall s, (0 < s)%nat ->
             embed_batches embeddings_create s texts
             = Py.Ok (map f texts)).
  { intros s Hs. unfold embed_batches.
    rewrite (embed_fold texts s (map f)).
    - rewrite app_nil_l. f_equal.
      rewrite <- (map_map (fun i => slice texts i (i + s)) (map f)).
      fold (Spec.batches s texts). rewrite <- List.concat_map.
      rewrite (batches_concat s texts Hs). reflexivity.
    - apply Forall_forall. intros i _. apply Hf. }
  split; [apply G, Hsize|]. unfold embed_texts. apply G.
  unfold batch_size. lia.
Qed.

Lemma embed_fold_error (texts : list string) (size : nat)
    (starts : list nat) :
  Exists (fun i => exists e,
              embeddings_create (slice texts i (i + size)) = Py.Raise e)
         starts ->
  forall acc, exists e,
    Py.foldM (batch_step embeddings_create texts size) starts acc
    = Py.Raise e.
Proof.
  induction starts as [| i starts IH]; intros H acc; [inversion H|].
  cbn. unfold batch_step at 1.
  destruct (embeddings_create (slice texts i (i + size))) as [vs | e]
    eqn:E; cbn [Py.bind].
  - apply IH. inversion H as [? ? [e He] | ? ? Ht]; subst;
      [congruence | exact Ht].
  - exists e. reflexivity.
Qed.

(** No partial result: when the provider raises on one of the batches,
    embedding raises, whatever the other batches returned. *)
Theorem failed_batch_fails_embedding (size : nat) (texts : list string) :
  Exists (fun batch => exists e, embeddings_create batch = Py.Raise e)
         (Spec.batches size texts) ->
  exists e, embed_batches embeddings_create size texts = Py.Raise e.
Proof.
  intros H. unfold embed_batches. apply embed_fold_error.
  unfold Spec.batches in H. apply Exists_exists in H.
  destruct H as [b [Hb He]]. apply in_map_iff in Hb.
  destruct Hb as [i [<- Hi]]. apply Exists_exists. exists i.
  split; assumption.
Qed.

End Embedder.

Lemma batches_partition_witness :
  Spec.batches 2 ["a"; "b"; "c"; "d"; "e"]%string
  = [["a"; "b"]; ["c"; "d"]; ["e"]]%string
  /\ List.concat (Spec.batches 2 ["a"; "b"; "c"; "d"; "e"]%string)
     = ["a"; "b"; "c"; "d"; "e"]%string.
Proof.
  split; [reflexivity|].
  apply (proj1 (batches_partition 2 ["a"; "b"; "c"; "d"; "e"]%string
                  ltac:(lia))).
Defined.

Lemma batching_is_transparent_witness :
  embed_batches embedder 2 ["a"; "bb"; "ccc"]%string
  = Py.Ok [[1%Q]; [2%Q]; [3%Q]].
Proof.
  apply (proj1 (batching_is_transparent embedder embed_one 2
                  ["a"; "bb"; "ccc"]%string ltac:(lia)
                  (fun batch => eq_refl))).
Defined.

Lemma failed_batch_fails_embedding_witness :
  embed_batches small_embedder 3 ["a"; "b"; "c"; "d"]%string
  = Py.Raise (Py.LibraryError "too many inputs").
Proof.
  destruct (failed_batch_fails_embedding small_embedder 3
              ["a"; "b"; "c"; "d"]%string) as [e He].
  - constructor. eexists. reflexivity.
  - rewrite He. vm_compute in He. injection He as <-. reflexivity.
Defined.

End BatchingFacts.

(* ================================================================== *)
(** * The ingestion job *)
(* ================================================================== *)

Module IngestionFacts.
Import Ingestion Samples.

Lemma enumerate_snd {A} (start : nat) (l : list A) :
  map snd (Py.enumerate start l) = l.
Proof.
  unfold Py.enumerate. revert start.
  induction l as [| a l IH]; intros start; [reflexivity|].
  cbn. f_equal. apply IH.
Qed.

Lemma enumerate_app {A} (start : nat) (l1 l2 : list A) :
  Py.enumerate start (l1 ++ l2)
  = Py.enumerate start l1 ++ Py.enumerate (start + List.length l1) l2.
Proof.
  unfold Py.enumerate. revert start.
  induction l1 as [| a l1 IH]; intros start.
  - cbn. rewrite Nat.add_0_r. reflexivity.
  - cbn. f_equal. rewrite IH. do 3 f_equal. lia.
Qed.

Lemma Forall2_same {A} (R : A -> A -> Prop) (l : list A) :
  (forall a, R a a) -> Forall2 R l l.
Proof. intros H. induction l; constructor; auto. Qed.

Lemma Forall2_compose {A} (R S T : A -> A -> Prop) :
  (forall a b c, R a b -> S b c -> T a c) ->
  forall l1 l2 l3,
    Forall2 R l1 l2 -> Forall2 S l2 l3 -> Forall2 T l1 l3.
Proof.
  intros H l1 l2 l3 H12. revert l3.
  induction H12 as [| a b l1 l2 Hab _ IH]; intros l3 H23;
    inversion H23; subst; constructor; eauto.
Qed.

Lemma Forall2_compose3 {A} (R S T U : A -> A -> Prop) :
  (forall a b c d, R a b -> S b c -> T c d -> U a d) ->
  forall l1 l2 l3 l4,
    Forall2 R l1 l2 -> Forall2 S l2 l3 -> Forall2 T l3 l4 ->
    Forall2 U l1 l4.
Proof.
  intros H l1 l2 l3 l4 H12. revert l3 l4.
  induction H12 as [| a b l1 l2 Hab _ IH]; intros l3 l4 H23 H34;
    inversion H23; subst; inversion H34; subst; constructor; eauto.
Qed.

Lemma Forall2_left {A} (R : A -> A -> Prop) (P : A -> Prop) l l' :
  Forall P l -> Forall2 R l l' ->
  Forall2 (fun a b => P a /\ R a b) l l'.
Proof.
  intros HP H. induction H; inversion HP; subst; constructor; auto.
Qed.

Lemma Forall2_keys (R : string * document_row -> string * document_row
                        -> Prop) l l' :
  (forall a b, R a b -> fst b = fst a) ->
  Forall2 R l l' -> map fst l' = map fst l.
Proof.
  intros H. induction 1 as [| a b l l' Hab _ IH]; [reflexivity|].
  cbn. rewrite IH, (H a b Hab). reflexivity.
Qed.

(** With a key column, a select by id finds no row or exactly one. *)
Lemma select_by_key (rows : list (string * document_row)) (id : string) :
  NoDup (map fst rows) ->
  (~ In id (map fst rows) /\ select_document rows id = [])
  \/ (In id (map fst rows) /\ exists row, select_document rows id = [row]).
Proof.
  unfold select_document.
  induction rows as [| [k r] rows IH]; intros Hnd.
  - left. split; [intros []| reflexivity].
  - cbn [map fst] in Hnd. inversion Hnd as [| ? ? Hk Hrest]; subst.
    cbn [filter fst]. destruct (k =? id)%string eqn:E.
    + apply String.eqb_eq in E. subst k. right. split; [left; reflexivity|].
      destruct (IH Hrest) as [[_ Hs] | [Hin _]]; [| contradiction].
      exists r. cbn [map snd]. rewrite Hs. reflexivity.
    + apply String.eqb_neq in E.
      destruct (IH Hrest) as [[Hn Hs] | [Hin Hs]].
      * left. split; [| exact Hs]. cbn. intros [H | H]; auto.
      * right. split; [right; exact Hin | exact Hs].
Qed.

Lemma found_iff_present (st : state) (id : string) :
  NoDup (map fst (documents st)) ->
  get_document_by_id st id = None ->
  ~ In id (map fst (documents st)).
Proof.
  intros Hnd. unfold get_document_by_id.
  destruct (select_by_key (documents st) id Hnd)
    as [[Hn Hs] | [_ [row Hs]]]; rewrite Hs; cbn; [auto | discriminate].
Qed.

(** What an UPDATE by id does to the rows. *)
Lemma update_rows (st : state) (id new_status : string)
    (count : option nat) :
  Forall2 (fun kr kr' =>
             fst kr' = fst kr
             /\ (fst kr <> id -> kr' = kr)
             /\ (fst kr = id -> processing_status (snd kr') = new_status))
          (documents st)
          (documents (update_document_status st id new_status count)).
Proof.
  unfold update_document_status. cbn [documents].
  induction (documents st) as [| kr rows IH]; constructor; [| exact IH].
  destruct (fst kr =? id)%string eqn:E.
  - apply String.eqb_eq in E. split; [reflexivity|]. split.
    + intros H. contradiction.
    + intros _. reflexivity.
  - apply String.eqb_neq in E. split; [reflexivity|]. split.
    + intros _. reflexivity.
    + intros H. contradiction.
Qed.

Section Job.

Variable split_text : string -> list string.
Variable sha256_hexdigest : string -> string.
Variable fitz_open : string -> Py.result (list DocumentProcessor.pdf_page).
Variable docx_paragraphs : string -> Py.result (list string).
Variable read_file : string -> Py.result string.
Variable initialize_services : Py.result unit.
Variable get_api_key_config : string -> string -> option string.
Variable decrypt : string -> Py.result string.
Variable UUID : string -> Py.result string.
Variable uuid4 : nat -> string.
Variable embeddings_create :
  string -> list string -> Py.result (list Batching.vector).
Variable collection_add :
  string -> list string -> list Batching.vector -> list string
  -> list Retrieval.metadata -> Py.result unit.

Local Abbreviation process_document_ :=
  (process_document split_text sha256_hexdigest fitz_open docx_paragraphs
                    read_file UUID uuid4 embeddings_create collection_add).
Local Abbreviation process_files_ :=
  (process_files split_text sha256_hexdigest fitz_open docx_paragraphs
                 read_file UUID uuid4 embeddings_create collection_add).
Local Abbreviation process_documents_task_ :=
  (process_documents_task split_text sha256_hexdigest fitz_open
                          docx_paragraphs read_file initialize_services
                          get_api_key_config decrypt UUID uuid4
                          embeddings_create collection_add).

(** A document is processed by one last UPDATE of its row, to
    'completed' or to 'failed'. *)
Lemma process_document_update (st : state)
    (tenant project api_key file_path document : string) :
  exists new_status count,
    (new_status = "completed" \/ new_status = "failed")%string
    /\ documents (process_document_ st tenant project api_key file_path
                                    document)
       = documents (update_document_status st document new_status count).
Proof.
  unfold process_document.
  destruct (DocumentProcessor.parse_document _ _ _ _ _ _)
    as [[| c parsed] | e];
    try (exists "failed"%string, None; split; [right|]; reflexivity).
  destruct (UUID tenant) as [tenant_uuid | e];
    try (exists "failed"%string, None; split; [right|]; reflexivity).
  unfold create_chunks.
  destruct (Batching.embed_texts _ _) as [embeddings | e];
    try (exists "failed"%string, None; split; [right|]; reflexivity).
  destruct (VectorStoreWrite.add_documents _ _ _ _ _) as [u | e];
    try (exists "failed"%string, None; split; [right|]; reflexivity).
  exists "completed"%string, (Some (List.length (c :: parsed))).
  split; [left|]; reflexivity.
Qed.

Lemma process_document_rows (st : state)
    (tenant project api_key file_path document : string) :
  Forall2 (fun kr kr' =>
             fst kr' = fst kr
             /\ (fst kr <> document -> kr' = kr)
             /\ (fst kr = document -> Spec.settled (snd kr')))
          (documents st)
          (documents (process_document_ st tenant project api_key
                                        file_path document)).
Proof.
  destruct (process_document_update st tenant project api_key file_path
                                    document) as [s [c [Hs ->]]].
  eapply Forall2_impl; [| apply update_rows].
  intros kr kr' (Hk & Hn & He). repeat split; auto.
  intros H. unfold Spec.settled. rewrite (He H). exact Hs.
Qed.

(** The rows after the loop over the files. *)
Lemma process_files_rows (tenant project api_key : string) (total : nat)
    (files : list (nat * string)) :
  forall st,
    NoDup (map fst (documents st)) ->
    Forall2 (fun kr kr' =>
               fst kr' = fst kr
               /\ (~ Spec.named UUID (map snd files) (fst kr) -> kr' = kr)
               /\ (snd (process_files_ tenant project api_key total
                                       files st) = Py.Ok tt ->
                   Spec.named UUID (map snd files) (fst kr) ->
                   Spec.settled (snd kr')))
            (documents st)
            (documents (fst (process_files_ tenant project api_key total
                                            files st))).
Proof.
  induction files as [| [idx file_path] files IH]; intros st Hnd.
  - cbn. apply Forall2_same. intros a. repeat split; auto.
    intros _ H. inversion H.
  - cbn [process_files map snd].
    set (st0 := report st _).
    fold (Spec.document_id_of UUID file_path).
    destruct (Spec.document_id_of UUID file_path) as [document | e] eqn:Eid.
    + destruct (get_document_by_id st0 document) as [row |] eqn:Eget.
      * set (st1 := update_document_status st0 document "processing" None).
        set (st2 := process_document_ st1 tenant project api_key
                                      file_path document).
        pose proof (update_rows st0 document "processing" None) as H1.
        fold st1 in H1.
        pose proof (process_document_rows st1 tenant project api_key
                      file_path document) as H2.
        fold st2 in H2.
        assert (K1 : map fst (documents st1) = map fst (documents st0)).
        { eapply Forall2_keys; [| exact H1]. cbn. tauto. }
        assert (K2 : map fst (documents st2) = map fst (documents st1)).
        { eapply Forall2_keys; [| exact H2]. cbn. tauto. }
        assert (Hnd2 : NoDup (map fst (documents st2))).
        { rewrite K2, K1. exact Hnd. }
        specialize (IH st2 Hnd2).
        change (documents st) with (documents st0).
        eapply Forall2_compose3; [| exact H1 | exact H2 | exact IH].
        cbn beta.
        intros a a1 b c (Hk1 & Hn1 & _) (Hk2 & Hn2 & Hs2)
               (Hk3 & Hn3 & Hs3).
        split; [congruence|]. split.
        -- intros Hnot.
           assert (Ha : fst a <> document).
           { intros Heq. apply Hnot. left. rewrite Heq. exact Eid. }
           assert (Hr : ~ Spec.named UUID (map snd files) (fst a)).
           { intros Hin. apply Hnot. right. exact Hin. }
           rewrite Hn3 by (rewrite Hk2, Hk1; exact Hr).
           rewrite Hn2 by (rewrite Hk1; exact Ha).
           apply Hn1. exact Ha.
        -- intros Hok Hnamed.
           destruct (Exists_dec
                       (fun p => Spec.document_id_of UUID p
                                 = Py.Ok (fst a))
                       (map snd files)) as [Hin | Hout].
           { intros p.
             destruct (Spec.document_id_of UUID p) as [d | e'].
             - destruct (string_dec d (fst a)) as [-> | Hne];
                 [left; reflexivity | right; congruence].
             - right. discriminate. }
           ++ apply Hs3; [exact Hok |]. rewrite Hk2, Hk1. exact Hin.
           ++ inversion Hnamed as [? ? Hhere | ? ? Hthere]; subst;
                [| contradiction].
              rewrite Eid in Hhere. injection Hhere as Hd.
              rewrite Hn3 by (rewrite Hk2, Hk1; exact Hout).
              apply Hs2. rewrite Hk1. symmetry. exact Hd.
      * assert (Hnd0 : NoDup (map fst (documents st0))) by exact Hnd.
        pose proof (found_iff_present st0 document Hnd0 Eget) as Habsent.
        specialize (IH st0 Hnd0).
        change (documents st) with (documents st0).
        assert (Hall : Forall (fun kr => fst kr <> document)
                              (documents st0)).
        { apply Forall_forall. intros kr Hkr Heq. apply Habsent.
          rewrite <- Heq. apply in_map. exact Hkr. }
        eapply Forall2_impl; [| apply (Forall2_left _ _ _ _ Hall IH)].
        cbn beta. intros a b (Ha & Hk & Hn & Hs).
        split; [exact Hk|]. split.
        -- intros Hnot. apply Hn. intros Hin. apply Hnot.
           right. exact Hin.
        -- intros Hok Hnamed. apply Hs; [exact Hok|].
           inversion Hnamed as [? ? Hhere | ? ? Hthere]; subst;
             [| exact Hthere].
           rewrite Eid in Hhere. injection Hhere as Hd.
           symmetry in Hd. contradiction.
    + cbn [fst snd]. apply Forall2_same. intros a.
      repeat split; auto. discriminate.
Qed.

(** The loop ends normally when every file path carries a document
    id. *)
Lemma process_files_finishes (tenant project api_key : string)
    (total : nat) (files : list (nat * string)) :
  Spec.well_named UUID (map snd files) ->
  forall st,
    snd (process_files_ tenant project api_key total files st)
    = Py.Ok tt.
Proof.
  unfold Spec.well_named.
  induction files as [| [idx file_path] files IH]; intros H st;
    [reflexivity|].
  cbn [map snd] in H. inversion H as [| ? ? [id Hid] Hrest]; subst.
  cbn [process_files]. unfold Spec.document_id_of in Hid. rewrite Hid.
  destruct (get_document_by_id _ id); apply IH; exact Hrest.
Qed.

Lemma process_files_app (tenant project api_key : string) (total : nat)
    (files1 files2 : list (nat * string)) :
  forall st,
    process_files_ tenant project api_key total (files1 ++ files2) st
    = match process_files_ tenant project api_key total files1 st with
      | (st1, Py.Ok _) =>
          process_files_ tenant project api_key total files2 st1
      | (st1, Py.Raise e) => (st1, Py.Raise e)
      end.
Proof.
  induction files1 as [| [idx file_path] files1 IH]; intros st;
    [reflexivity|].
  rewrite <- app_comm_cons. cbn [process_files].
  destruct (UUID _) as [document | e]; [| reflexivity].
  destruct (get_document_by_id _ document); apply IH.
Qed.

(** A failed document does not fail the job.  Once the services are up
    and the tenant's key is read, the job returns 'completed' with the
    number of files whenever every file name starts with a document id:
    whether or not the documents exist, and whatever the parser, the
    embedding provider and the index do. *)
Theorem job_completes_whatever_documents_do
    (st : state) (tenant project : string) (file_paths : list string)
    (encrypted_key api_key : string) :
  initialize_services = Py.Ok tt ->
  get_api_key_config tenant "openai" = Some encrypted_key ->
  decrypt encrypted_key = Py.Ok api_key ->
  Spec.well_named UUID file_paths ->
  snd (process_documents_task_ st tenant project file_paths)
  = Py.Ok {| status := "completed";
             documents_total := List.length file_paths |}.
Proof.
  intros Hinit Hkey Hdec Hnames. unfold process_documents_task.
  rewrite Hinit, Hkey, Hdec.
  pose proof (process_files_finishes tenant project api_key
                (List.length file_paths) (Py.enumerate 0 file_paths))
    as Hfin.
  rewrite enumerate_snd in Hfin. specialize (Hfin Hnames st).
  destruct (process_files_ _ _ _ _ _ _) as [st' outcome].
  cbn [snd] in *. rewrite Hfin. reflexivity.
Qed.

(** The job touches only the documents its files name, and leaves none
    of them in 'processing'.  On a document table keyed by id, however
    the job ends: the ids of the rows stay as they are; a row whose id
    no file path carries is unchanged; and when the job returns, every
    row whose id a file path carries has the status 'completed' or
    'failed'. *)
Theorem job_settles_the_documents_it_names
    (st : state) (tenant project : string) (file_paths : list string) :
  NoDup (map fst (documents st)) ->
  Forall2 (fun kr kr' =>
             fst kr' = fst kr
             /\ (~ Spec.named UUID file_paths (fst kr) -> kr' = kr)
             /\ ((exists r,
                    snd (process_documents_task_ st tenant project
                                                 file_paths) = Py.Ok r) ->
                 Spec.named UUID file_paths (fst kr) ->
                 Spec.settled (snd kr')))
          (documents st)
          (documents (fst (process_documents_task_ st tenant project
                                                   file_paths))).
Proof.
  intros Hnd. unfold process_documents_task.
  destruct initialize_services as [u | e];
    [| apply Forall2_same; intros a; repeat split; auto;
       intros [r Hr]; discriminate Hr].
  destruct (get_api_key_config tenant "openai") as [encrypted_key |];
    [| apply Forall2_same; intros a; repeat split; auto;
       intros [r Hr]; discriminate Hr].
  destruct (decrypt encrypted_key) as [api_key | e];
    [| apply Forall2_same; intros a; repeat split; auto;
       intros [r Hr]; discriminate Hr].
  pose proof (process_files_rows tenant project api_key
                (List.length file_paths) (Py.enumerate 0 file_paths)
                st Hnd) as H.
  rewrite enumerate_snd in H.
  destruct (process_files_ _ _ _ _ _ _) as [st' outcome].
  cbn [fst snd] in *.
  eapply Forall2_impl; [| exact H].
  intros a b (Hk & Hn & Hs). repeat split; auto.
  intros [r Hr] Hnamed. apply Hs; [| exact Hnamed].
  destruct outcome as [[] | e]; [reflexivity | discriminate Hr].
Qed.

(** A file name that does not start with a document id aborts the job.
    The files before it have been processed as if they were the whole
    list (with the progress fractions of the whole list), one more
    progress report is sent, the exception of [UUID] leaves the job,
    and the files after it are never looked at. *)
Theorem bad_file_name_aborts_job
    (st : state) (tenant project : string)
    (before after : list string) (file_path : string)
    (encrypted_key api_key : string) (e : Py.exn) :
  initialize_services = Py.Ok tt ->
  get_api_key_config tenant "openai" = Some encrypted_key ->
  decrypt encrypted_key = Py.Ok api_key ->
  Spec.well_named UUID before ->
  Spec.document_id_of UUID file_path = Py.Raise e ->
  let file_paths := (before ++ file_path :: after)%list in
  let total := List.length file_paths in
  process_documents_task_ st tenant project file_paths
  = (report (fst (process_files_ tenant project api_key total
                                 (Py.enumerate 0 before) st))
            {| fraction :=
                 (inject_Z (Z.of_nat (List.length before))
                  / inject_Z (Z.of_nat total))%Q;
               stage := "processing";
               current_file := Py.path_name file_path |},
     Py.Raise e).
Proof.
  intros Hinit Hkey Hdec Hnames Hbad file_paths total.
  unfold process_documents_task. rewrite Hinit, Hkey, Hdec.
  fold file_paths. fold total.
  unfold file_paths at 1. rewrite enumerate_app, process_files_app.
  pose proof (process_files_finishes tenant project api_key total
                (Py.enumerate 0 before)) as Hfin.
  rewrite enumerate_snd in Hfin. specialize (Hfin Hnames st).
  destruct (process_files_ tenant project api_key total
                           (Py.enumerate 0 before) st)
    as [st1 outcome].
  cbn [fst snd] in *. subst outcome.
  unfold Py.enumerate. cbn [List.length seq combine process_files].
  unfold Spec.document_id_of in Hbad. rewrite Hbad. reflexivity.
Qed.

End Job.

Lemma job_completes_whatever_documents_do_witness :
  snd (process_documents_task whole_text no_hash no_pdf two_paragraphs
         small_file services_ready one_key plain_key short_uuid
         counter_uuid keyed_embedder accepting_index uploaded "t1" "p1"
         ["uploads/d1_report.txt"; "uploads/d2_scan.pdf";
          "uploads/d9_gone.txt"]%string)
  = Py.Ok {| status := "completed"; documents_total := 3 |}.
Proof.
  apply (job_completes_whatever_documents_do whole_text no_hash no_pdf
           two_paragraphs small_file services_ready one_key plain_key
           short_uuid counter_uuid keyed_embedder accepting_index uploaded
           "t1" "p1"
           ["uploads/d1_report.txt"; "uploads/d2_scan.pdf";
            "uploads/d9_gone.txt"]%string "gAAAA" "sk-test");
    try reflexivity.
  repeat constructor; eexists; reflexivity.
Defined.

Lemma job_settles_the_documents_it_names_witness :
  map (fun kr => (fst kr, processing_status (snd kr)))
      (documents
         (fst (process_documents_task whole_text no_hash no_pdf
                 two_paragraphs small_file services_ready one_key
                 plain_key short_uuid counter_uuid keyed_embedder
                 accepting_index uploaded "t1" "p1"
                 ["uploads/d1_report.txt"; "uploads/d2_scan.pdf";
                  "uploads/d9_gone.txt"]%string)))
  = [("d1", "completed"); ("d2", "failed"); ("d3", "pending")]%string
  /\ Forall2
       (fun kr kr' =>
          fst kr' = fst kr
          /\ (~ Spec.named short_uuid
                 ["uploads/d1_report.txt"; "uploads/d2_scan.pdf";
                  "uploads/d9_gone.txt"]%string (fst kr) -> kr' = kr)
          /\ ((exists r,
                 snd (process_documents_task whole_text no_hash no_pdf
                        two_paragraphs small_file services_ready one_key
                        plain_key short_uuid counter_uuid keyed_embedder
                        accepting_index uploaded "t1" "p1"
                        ["uploads/d1_report.txt"; "uploads/d2_scan.pdf";
                         "uploads/d9_gone.txt"]%string) = Py.Ok r) ->
              Spec.named short_uuid
                ["uploads/d1_report.txt"; "uploads/d2_scan.pdf";
                 "uploads/d9_gone.txt"]%string (fst kr) ->
              Spec.settled (snd kr')))
       (documents uploaded)
       (documents
          (fst (process_documents_task whole_text no_hash no_pdf
                  two_paragraphs small_file services_ready one_key
                  plain_key short_uuid counter_uuid keyed_embedder
                  accepting_index uploaded "t1" "p1"
                  ["uploads/d1_report.txt"; "uploads/d2_scan.pdf";
                   "uploads/d9_gone.txt"]%string))).
Proof.
  split; [reflexivity|].
  apply (job_settles_the_documents_it_names whole_text no_hash no_pdf
           two_paragraphs small_file services_ready one_key plain_key
           short_uuid counter_uuid keyed_embedder accepting_index uploaded
           "t1" "p1").
  cbn. repeat constructor; cbn; intuition discriminate.
Defined.

Lemma bad_file_name_aborts_job_witness :
  process_documents_task whole_text no_hash no_pdf two_paragraphs
    small_file services_ready one_key plain_key short_uuid counter_uuid
    keyed_embedder accepting_index uploaded "t1" "p1"
    ["uploads/d1_report.txt"; "uploads/report.txt";
     "uploads/d2_scan.pdf"]%string
  = (report
       (fst (process_files whole_text no_hash no_pdf two_paragraphs
               small_file short_uuid counter_uuid keyed_embedder
               accepting_index "t1" "p1" "sk-test" 3
               (Py.enumerate 0 ["uploads/d1_report.txt"%string]) uploaded))
       {| fraction := (1 / 3)%Q; stage := "processing";
          current_file := "report.txt" |},
     Py.Raise (Py.ValueError "badly formed hexadecimal UUID string")).
Proof.
  apply (bad_file_name_aborts_job whole_text no_hash no_pdf two_paragraphs
           small_file services_ready one_key plain_key short_uuid
           counter_uuid keyed_embedder accepting_index uploaded "t1" "p1"
           ["uploads/d1_report.txt"%string] ["uploads/d2_scan.pdf"%string]
           "uploads/report.txt" "gAAAA" "sk-test"
           (Py.ValueError "badly formed hexadecimal UUID string"));
    try reflexivity.
  repeat constructor; eexists; reflexivity.
Defined.

End IngestionFacts.
